(** * ai-sdk-claude-code-oauth: credential manager and stream decoder

    A shallow embedding of [src/credentials.ts] (readCredentials,
    isTokenExpired, refreshToken, getValidAccessToken) and of the
    server-sent-event decoder of [src/provider.ts]
    (createStreamTransformer), followed by the properties of the
    specification that concern them. *)

From Stdlib Require Import ZArith List String Ascii Bool Lia DecimalString.
From Stdlib Require Import Strings.Byte.
Import ListNotations.
Local Open Scope string_scope.
Local Open Scope Z_scope.

(** ** Exceptions

    A thrown JavaScript error, as far as the code looks at it: its [name]
    and its [message]. [`${error}`] renders it with [Error.prototype.toString]. *)
Module Exn.

Record t := Build { name : string; message : string }.

(** [new Error(message)] *)
Definition Error (message : string) : t := Build "Error" message.

(** [Error.prototype.toString] *)
Definition toString (e : t) : string :=
  if String.eqb (name e) "" then message e
  else if String.eqb (message e) "" then name e
  else name e ++ ": " ++ message e.

End Exn.

(** [String(n)] for an integral number *)
Definition Z_toString (n : Z) : string := NilZero.string_of_int (Z.to_int n).

(** ** credentials.ts

    The module's two variables and the world it touches (the credentials
    file, the clock, the token endpoint) are explicit: a function takes the
    value of [Date.now()] and the endpoint's answer as arguments and runs in
    a state monad over [State], with [Throw] for a thrown error. Times are
    integral numbers of milliseconds. *)
Module Credentials.

(** [interface ClaudeCodeCredentials]; [null] is [None]. *)
Module ClaudeCodeCredentials.

Record oauth := Oauth {
  accessToken : string;
  refreshToken : string;
  expiresAt : Z;
  scopes : list string;
  subscriptionType : option string;
  rateLimitTier : option string
}.

Record t := Build {
  claudeAiOauth : oauth;
  organizationUuid : string
}.

End ClaudeCodeCredentials.
Import ClaudeCodeCredentials.
Abbreviation ClaudeCodeCredentials := ClaudeCodeCredentials.t.

Definition TOKEN_REFRESH_BUFFER_MS : Z := 5 * 60 * 1000.
Definition CACHE_TTL_MS : Z := 30000.

(** The file at [CREDENTIALS_PATH], seen through the two calls the module
    makes on it: [readFileSync] followed by [JSON.parse ... as
    ClaudeCodeCredentials]. [Unreadable] is a file that exists and whose read
    throws, [Corrupt] one whose text [JSON.parse] rejects, [Document c] one
    whose text parses to [c]. The type assertion is taken at its word: a text
    that parses to something of another shape is outside the model. *)
Inductive File :=
| Absent
| Unreadable (error : Exn.t)
| Corrupt (error : Exn.t)
| Document (c : ClaudeCodeCredentials).

(** The body of a 2xx answer as [refreshToken] types it; [None] is a field
    that is absent. Times and lifetimes are integral numbers. *)
Record TokenData := {
  access_token : string;
  refresh_token : option string;
  expires_in : Z;
  scope : option string
}.

(** What the token endpoint answered: status line, body text
    ([response.text()]) and the body as [response.json()] resolves it
    ([inl] when it rejects). *)
Record Response := {
  status : Z;
  text : string;
  json : Exn.t + TokenData
}.

(** [response.ok] *)
Definition ok (r : Response) : bool := (200 <=? status r) && (status r <=? 299).

(** Side effects in the order they happen. *)
Inductive IO :=
| existsSync
| readFileSync
| writeFileSync (c : ClaudeCodeCredentials)
| fetch (refresh_token : string)
| console_warn
| console_log.

Definition disk_io (e : IO) : bool :=
  match e with
  | existsSync | readFileSync | writeFileSync _ => true
  | _ => false
  end.

Definition disk_read (e : IO) : bool :=
  match e with readFileSync => true | _ => false end.

(** Module-level variables ([cachedCredentials], [lastReadTime]) and the
    world: the credentials file, whether a write to it succeeds, and the
    trace of effects so far (latest last). *)
Record State := {
  cachedCredentials : option ClaudeCodeCredentials;
  lastReadTime : Z;
  file : File;
  write_error : option Exn.t;
  trace : list IO
}.

(** [let cachedCredentials = null; let lastReadTime = 0;] *)
Definition initial (f : File) (w : option Exn.t) : State :=
  {| cachedCredentials := None; lastReadTime := 0; file := f;
     write_error := w; trace := [] |}.

(** State and exception monad. *)
Inductive Result (A : Type) :=
| Return (a : A)
| Throw (e : Exn.t).
Arguments Return {A} a.
Arguments Throw {A} e.

Definition M (A : Type) : Type := State -> Result A * State.

Definition ret {A} (a : A) : M A := fun s => (Return a, s).
Definition throw {A} (e : Exn.t) : M A := fun s => (Throw e, s).
Definition bind {A B} (m : M A) (k : A -> M B) : M B :=
  fun s => match m s with
           | (Return a, s') => k a s'
           | (Throw e, s') => (Throw e, s')
           end.
Definition try_catch {A} (m : M A) (handler : Exn.t -> M A) : M A :=
  fun s => match m s with
           | (Return a, s') => (Return a, s')
           | (Throw e, s') => handler e s'
           end.

Declare Scope cred_scope.
Delimit Scope cred_scope with cred.
Notation "x <- m ;; k" := (bind m (fun x => k))
  (at level 61, m at next level, right associativity) : cred_scope.
Notation "m ;; k" := (bind m (fun _ => k))
  (at level 61, right associativity) : cred_scope.
Local Open Scope cred_scope.

Definition get {A} (f : State -> A) : M A := fun s => (Return (f s), s).
Definition emit (e : IO) : M unit :=
  fun s => (Return tt,
            {| cachedCredentials := cachedCredentials s;
               lastReadTime := lastReadTime s; file := file s;
               write_error := write_error s; trace := trace s ++ [e] |}).
Definition set_cachedCredentials (c : ClaudeCodeCredentials) : M unit :=
  fun s => (Return tt,
            {| cachedCredentials := Some c;
               lastReadTime := lastReadTime s; file := file s;
               write_error := write_error s; trace := trace s |}).
Definition set_lastReadTime (t : Z) : M unit :=
  fun s => (Return tt,
            {| cachedCredentials := cachedCredentials s;
               lastReadTime := t; file := file s;
               write_error := write_error s; trace := trace s |}).
Definition set_file (f : File) : M unit :=
  fun s => (Return tt,
            {| cachedCredentials := cachedCredentials s;
               lastReadTime := lastReadTime s; file := f;
               write_error := write_error s; trace := trace s |}).

Section WithPath.

(** [join(homedir(), '.claude', '.credentials.json')] *)
Variable CREDENTIALS_PATH : string.

(** [existsSync(CREDENTIALS_PATH)] *)
Definition fs_existsSync : M bool :=
  emit existsSync ;;
  f <- get file ;;
  ret (match f with Absent => false | _ => true end).

(** [JSON.parse(readFileSync(CREDENTIALS_PATH, 'utf-8'))] *)
Definition fs_readFileSync_parse : M ClaudeCodeCredentials :=
  emit readFileSync ;;
  f <- get file ;;
  match f with
  | Absent => throw (Exn.Error ("ENOENT: no such file or directory, open '"
                                ++ CREDENTIALS_PATH ++ "'"))
  | Unreadable e => throw e
  | Corrupt e => throw e
  | Document c => ret c
  end.

(** [writeFileSync(CREDENTIALS_PATH, JSON.stringify(c, null, 2))] *)
Definition fs_writeFileSync (c : ClaudeCodeCredentials) : M unit :=
  emit (writeFileSync c) ;;
  w <- get write_error ;;
  match w with
  | Some e => throw e
  | None => set_file (Document c)
  end.

(** [readCredentials()], with [now] the value of [Date.now()]. An object is
    truthy, so [cachedCredentials && ...] tests the cache for [null]. *)
Definition readCredentials (now : Z) : M ClaudeCodeCredentials :=
  cached <- get cachedCredentials ;;
  last <- get lastReadTime ;;
  let hit := match cached with
             | Some c => if now - last <? CACHE_TTL_MS then Some c else None
             | None => None
             end in
  match hit with
  | Some c => ret c
  | None =>
      there <- fs_existsSync ;;
      if negb there then
        throw (Exn.Error ("Claude Code credentials not found at "
                 ++ CREDENTIALS_PATH ++ "." ++ String "010" ""
                 ++ "Please install Claude Code and log in: https://claude.ai/code"))
      else
        try_catch
          (c' <- fs_readFileSync_parse ;;
           set_cachedCredentials c' ;;
           set_lastReadTime now ;;
           ret c')
          (fun error =>
             throw (Exn.Error ("Failed to read Claude Code credentials: "
                               ++ Exn.toString error)))
  end.

(** [isTokenExpired(credentials)], with [now] the value of [Date.now()]. *)
Definition isTokenExpired (now : Z) (credentials : ClaudeCodeCredentials) : bool :=
  let expiresAt := expiresAt (claudeAiOauth credentials) in
  now >=? expiresAt - TOKEN_REFRESH_BUFFER_MS.

(** [a || b] on a possibly absent string: the empty string is falsy. *)
Definition or_else (a : option string) (b : string) : string :=
  match a with
  | Some s => if String.eqb s "" then b else s
  | None => b
  end.

(** [const newCredentials = { ...credentials, claudeAiOauth: {
    ...credentials.claudeAiOauth, accessToken, refreshToken, expiresAt } }],
    with [now] the value of [Date.now()]. *)
Definition newCredentials (now : Z) (credentials : ClaudeCodeCredentials)
    (data : TokenData) : ClaudeCodeCredentials :=
  let refreshToken := refreshToken (claudeAiOauth credentials) in
  {| claudeAiOauth :=
       {| accessToken := access_token data;
          ClaudeCodeCredentials.refreshToken :=
            or_else (refresh_token data) refreshToken;
          expiresAt := now + expires_in data * 1000;
          scopes := scopes (claudeAiOauth credentials);
          subscriptionType := subscriptionType (claudeAiOauth credentials);
          rateLimitTier := rateLimitTier (claudeAiOauth credentials) |};
     organizationUuid := organizationUuid credentials |}.

(** [refreshToken(credentials)], with [response] what the token endpoint
    answers to the POST and [now] the value of [Date.now()]. *)
Definition refreshToken (response : Response) (now : Z)
    (credentials : ClaudeCodeCredentials) : M ClaudeCodeCredentials :=
  let refreshToken := refreshToken (claudeAiOauth credentials) in
  emit (fetch refreshToken) ;;
  if negb (ok response) then
    let errorText := text response in
    throw (Exn.Error ("Failed to refresh token: " ++ Z_toString (status response)
                      ++ " " ++ errorText))
  else
    match json response with
    | inl e => throw e
    | inr data =>
        let newCredentials := newCredentials now credentials data in
        try_catch
          (fs_writeFileSync newCredentials ;;
           set_cachedCredentials newCredentials)
          (fun error => emit console_warn) ;;
        ret newCredentials
    end.

(** [getValidAccessToken()]: the three [Date.now()] readings and the
    endpoint's answer are given. *)
Definition getValidAccessToken (now_read now_check now_refresh : Z)
    (response : Response) : M string :=
  credentials <- readCredentials now_read ;;
  credentials <- (if isTokenExpired now_check credentials then
                    emit console_log ;;
                    refreshToken response now_refresh credentials
                  else ret credentials) ;;
  ret (accessToken (claudeAiOauth credentials)).

End WithPath.

End Credentials.

(** ** JavaScript values as [JSON.parse] produces them

    A JavaScript string is kept as the [string] of its UTF-8 bytes. What the
    decoder does with strings (cutting at newlines, testing for the
    six-character ASCII marker and dropping it, comparing with ASCII
    literals, concatenating) comes to the same on UTF-16 code units. *)
Module JS.

Section Values.

(** The number type is left open: the decoder only stores numbers, tests
    them for truthiness and, in string concatenation, prints them. *)
Variable number : Type.

#[local] Set Warnings "-register-all".
Inductive json :=
| JNull
| JBool (b : bool)
| JNum (n : number)
| JStr (s : string)
| JArr (elements : list json)
| JObj (properties : list (string * json)).

Inductive value :=
| undefined
| of_json (j : json).

(** Own property of an object; the first binding of a key is the one in
    force. *)
Fixpoint lookup (k : string) (properties : list (string * json)) : value :=
  match properties with
  | [] => undefined
  | (k', v) :: rest => if String.eqb k k' then of_json v else lookup k rest
  end.

Definition has_own (k : string) (properties : list (string * json)) : bool :=
  existsb (fun p => String.eqb k (fst p)) properties.

Definition nullish (v : value) : bool :=
  match v with
  | undefined | of_json JNull => true
  | _ => false
  end.

(** [v.k] for the property names the decoder reads (type, message, usage,
    input_tokens, content_block, id, name, delta, text, partial_json,
    output_tokens, stop_reason), none of which is inherited from a
    prototype. [None] is the TypeError of reading a property of
    [undefined] or [null]. *)
Definition member (v : value) (k : string) : option value :=
  match v with
  | undefined | of_json JNull => None
  | of_json (JObj properties) => Some (lookup k properties)
  | of_json _ => Some undefined
  end.

(** [v?.k] *)
Definition member_opt (v : value) (k : string) : value :=
  match member v k with
  | Some x => x
  | None => undefined
  end.

(** [a ?? b] *)
Definition coalesce (a b : value) : value := if nullish a then b else a.

(** [v === 'literal'] *)
Definition is_string (v : value) (literal : string) : bool :=
  match v with
  | of_json (JStr s) => String.eqb s literal
  | _ => false
  end.

Variable number_ToBoolean : number -> bool.
Variable number_ToString : number -> string.

(** [ToBoolean] *)
Definition ToBoolean (v : value) : bool :=
  match v with
  | undefined | of_json JNull => false
  | of_json (JBool b) => b
  | of_json (JNum n) => number_ToBoolean n
  | of_json (JStr s) => negb (String.eqb s "")
  | of_json (JArr _) | of_json (JObj _) => true
  end.

(** [ToString] of a parsed value. An array prints as its elements joined by
    commas, [null] elements as the empty string; an object prints as
    [[object Object]] unless it has an own property [toString], which is not
    callable and makes the conversion throw a TypeError ([None]). *)
Fixpoint json_ToString (j : json) : option string :=
  match j with
  | JNull => Some "null"
  | JBool true => Some "true"
  | JBool false => Some "false"
  | JNum n => Some (number_ToString n)
  | JStr s => Some s
  | JArr elements =>
      (fix join (l : list json) : option string :=
         match l with
         | [] => Some ""
         | x :: rest =>
             match (match x with JNull => Some "" | _ => json_ToString x end) with
             | None => None
             | Some sx =>
                 match rest with
                 | [] => Some sx
                 | _ :: _ =>
                     match join rest with
                     | None => None
                     | Some sr => Some (sx ++ "," ++ sr)
                     end
                 end
             end
         end) elements
  | JObj properties =>
      if has_own "toString" properties then None else Some "[object Object]"
  end.

Definition ToString (v : value) : option string :=
  match v with
  | undefined => Some "undefined"
  | of_json j => json_ToString j
  end.

(** [s + v] for a string [s] *)
Definition string_add (s : string) (v : value) : option string :=
  match ToString v with
  | Some t => Some (s ++ t)
  | None => None
  end.

End Values.

Arguments JNull {number}.
Arguments JBool {number} b.
Arguments JNum {number} n.
Arguments JStr {number} s.
Arguments JArr {number} elements.
Arguments JObj {number} properties.
Arguments undefined {number}.
Arguments of_json {number} j.
Arguments lookup {number} k properties.
Arguments has_own {number} k properties.
Arguments nullish {number} v.
Arguments member {number} v k.
Arguments member_opt {number} v k.
Arguments coalesce {number} a b.
Arguments is_string {number} v literal.

(** String operations of the decoder. *)

Definition newline : ascii := "010"%char.

(** [s.split('\n')]: never empty. *)
Fixpoint split (s : string) : list string :=
  match s with
  | EmptyString => [EmptyString]
  | String c rest =>
      if Ascii.eqb c newline then EmptyString :: split rest
      else match split rest with
           | first :: others => String c first :: others
           | [] => [String c EmptyString]
           end
  end.

(** [s.startsWith(p)] *)
Definition startsWith (s p : string) : bool := String.prefix p s.

(** [s.slice(n)] for [0 <= n] *)
Fixpoint slice (s : string) (n : nat) {struct n} : string :=
  match n, s with
  | O, _ => s
  | S n', String _ rest => slice rest n'
  | S _, EmptyString => EmptyString
  end.

End JS.

(** ** provider.ts: the stream decoder *)
Module Provider.
Import JS.

(** [LanguageModelV1FinishReason] of @ai-sdk/provider *)
Inductive LanguageModelV1FinishReason :=
| stop | length | content_filter | tool_calls | error | other | unknown.

Section Data.

Variable number : Type.
Variable TextDecoder : Type.

(** The parts of [LanguageModelV1StreamPart] the decoder enqueues. Fields
    read off the parsed event hold whatever value was there. *)
Inductive LanguageModelV1StreamPart :=
| text_delta (textDelta : value number)
| tool_call (toolCallId toolName : value number) (args : string)
| finish (finishReason : LanguageModelV1FinishReason)
         (promptTokens completionTokens : value number).

(** The variables of [createStreamTransformer] that the event handler
    assigns. *)
Record Vars := {
  inputTokens : value number;
  outputTokens : value number;
  currentToolCallId : value number;
  currentToolCallName : value number;
  currentToolCallArgs : string
}.

(** State of the [while (true)] loop of [start]. *)
Record Loop := {
  decoder : TextDecoder;
  buffer : string;
  vars : Vars
}.

End Data.

Arguments text_delta {number} textDelta.
Arguments tool_call {number} toolCallId toolName args.
Arguments finish {number} finishReason promptTokens completionTokens.
Arguments inputTokens {number} v.
Arguments outputTokens {number} v.
Arguments currentToolCallId {number} v.
Arguments currentToolCallName {number} v.
Arguments currentToolCallArgs {number} v.
Arguments Build_Vars {number}.
Arguments decoder {number TextDecoder} l.
Arguments buffer {number TextDecoder} l.
Arguments vars {number TextDecoder} l.
Arguments Build_Loop {number TextDecoder}.

(** The platform: numbers (the literal [0], [ToBoolean], [ToString]),
    [JSON.parse] ([None] when it throws) and [TextDecoder] with
    [decode(value, { stream: true })]. *)
Class Platform := {
  number : Type;
  zero : number;
  number_ToBoolean : number -> bool;
  number_ToString : number -> string;
  JSON_parse : string -> option (json number);
  TextDecoder : Type;
  new_TextDecoder : TextDecoder;
  decode : TextDecoder -> list byte -> string * TextDecoder
}.

Section Decoder.

Context {platform : Platform}.

Definition initial_vars : Vars number :=
  {| inputTokens := of_json (JNum zero);
     outputTokens := of_json (JNum zero);
     currentToolCallId := of_json (JStr "");
     currentToolCallName := of_json (JStr "");
     currentToolCallArgs := "" |}.

Notation "x <- m ;;; k" := (match m with Some x => k | None => None end)
  (at level 61, m at next level, right associativity, only parsing).

(** The statements of the [try] block after [JSON.parse]; [None] when one
    of them throws. *)
Definition on_event (vars : Vars number) (event : value number)
  : option (Vars number * list (LanguageModelV1StreamPart number)) :=
  type <- member event "type" ;;;
  if is_string type "message_start" then
    message <- member event "message" ;;;
    Some ({| inputTokens :=
               coalesce (member_opt (member_opt message "usage") "input_tokens")
                        (of_json (JNum zero));
             outputTokens := outputTokens vars;
             currentToolCallId := currentToolCallId vars;
             currentToolCallName := currentToolCallName vars;
             currentToolCallArgs := currentToolCallArgs vars |}, [])
  else if is_string type "content_block_start" then
    content_block <- member event "content_block" ;;;
    if is_string (member_opt content_block "type") "tool_use" then
      id <- member content_block "id" ;;;
      name <- member content_block "name" ;;;
      Some ({| inputTokens := inputTokens vars;
               outputTokens := outputTokens vars;
               currentToolCallId := id;
               currentToolCallName := name;
               currentToolCallArgs := "" |}, [])
    else Some (vars, [])
  else if is_string type "content_block_delta" then
    delta <- member event "delta" ;;;
    if is_string (member_opt delta "type") "text_delta" then
      text <- member delta "text" ;;;
      Some (vars, [text_delta text])
    else if is_string (member_opt delta "type") "input_json_delta" then
      partial_json <- member delta "partial_json" ;;;
      args <- string_add number number_ToString (currentToolCallArgs vars)
                         partial_json ;;;
      Some ({| inputTokens := inputTokens vars;
               outputTokens := outputTokens vars;
               currentToolCallId := currentToolCallId vars;
               currentToolCallName := currentToolCallName vars;
               currentToolCallArgs := args |}, [])
    else Some (vars, [])
  else if is_string type "content_block_stop" then
    if ToBoolean number number_ToBoolean (currentToolCallId vars) then
      Some ({| inputTokens := inputTokens vars;
               outputTokens := outputTokens vars;
               currentToolCallId := of_json (JStr "");
               currentToolCallName := of_json (JStr "");
               currentToolCallArgs := "" |},
            [tool_call (currentToolCallId vars) (currentToolCallName vars)
                       (currentToolCallArgs vars)])
    else Some (vars, [])
  else if is_string type "message_delta" then
    usage <- member event "usage" ;;;
    let outputTokens' :=
      coalesce (member_opt usage "output_tokens") (outputTokens vars) in
    delta <- member event "delta" ;;;
    let finishReason :=
      if is_string (member_opt delta "stop_reason") "end_turn" then stop
      else if is_string (member_opt delta "stop_reason") "tool_use" then tool_calls
      else if is_string (member_opt delta "stop_reason") "max_tokens" then length
      else other in
    Some ({| inputTokens := inputTokens vars;
             outputTokens := outputTokens';
             currentToolCallId := currentToolCallId vars;
             currentToolCallName := currentToolCallName vars;
             currentToolCallArgs := currentToolCallArgs vars |},
          [finish finishReason (inputTokens vars) outputTokens'])
  else Some (vars, []).

(** The body of [for (const line of lines)]. *)
Definition on_line (vars : Vars number) (line : string)
  : Vars number * list (LanguageModelV1StreamPart number) :=
  if negb (startsWith line "data: ") then (vars, [])
  else
    let data := slice line 6 in
    if String.eqb data "[DONE]" then (vars, [])
    else
      match (event <- JSON_parse data ;;; on_event vars (of_json event)) with
      | Some r => r
      | None => (vars, [])   (* catch { } *)
      end.

(** [for (const line of lines) ...]: the final variables and the parts
    enqueued, in order. *)
Fixpoint on_lines (vars : Vars number) (lines : list string)
  : Vars number * list (LanguageModelV1StreamPart number) :=
  match lines with
  | [] => (vars, [])
  | line :: rest =>
      let (vars1, out1) := on_line vars line in
      let (vars2, out2) := on_lines vars1 rest in
      (vars2, (out1 ++ out2)%list)
  end.

Definition initial_loop : Loop number TextDecoder :=
  {| decoder := new_TextDecoder; buffer := ""; vars := initial_vars |}.

(** One iteration of the loop on a chunk [value] ([done] is false). *)
Definition on_chunk (st : Loop number TextDecoder) (value : list byte)
  : Loop number TextDecoder * list (LanguageModelV1StreamPart number) :=
  let (decoded, decoder') := decode (decoder st) value in
  let buffer1 := buffer st ++ decoded in
  let lines := split buffer1 in
  let buffer2 := last lines "" in          (* lines.pop() ?? '' *)
  let lines := removelast lines in
  let (vars', out) := on_lines (vars st) lines in
  ({| decoder := decoder'; buffer := buffer2; vars := vars' |}, out).

(** The loop over the chunks the reader yields before [done]. A run is a
    stream read to its end: a read that rejects or a consumer that cancels
    is not one. *)
Fixpoint start_from (st : Loop number TextDecoder) (body : list (list byte))
  : Loop number TextDecoder * list (LanguageModelV1StreamPart number) :=
  match body with
  | [] => (st, [])
  | value :: rest =>
      let (st1, out1) := on_chunk st value in
      let (st2, out2) := start_from st1 rest in
      (st2, (out1 ++ out2)%list)
  end.

Definition start (body : list (list byte)) := start_from initial_loop body.

(** [createStreamTransformer(body)]: the parts enqueued before
    [controller.close()]. *)
Definition createStreamTransformer (body : list (list byte))
  : list (LanguageModelV1StreamPart number) :=
  snd (start body).

(** The text the decoder has seen: what [decode] returned, chunk after
    chunk, from decoder state [d]. *)
Fixpoint decoded_from (d : TextDecoder) (body : list (list byte)) : string :=
  match body with
  | [] => ""
  | value :: rest =>
      let (decoded, d') := decode d value in decoded ++ decoded_from d' rest
  end.

Definition decoded (body : list (list byte)) : string :=
  decoded_from new_TextDecoder body.

(** A line that is a frame of kind [kind]: a [data: ] line whose payload
    parses to a value with that [type]. *)
Definition is_frame (kind : string) (line : string) : bool :=
  startsWith line "data: " &&
  negb (String.eqb (slice line 6) "[DONE]") &&
  match JSON_parse (slice line 6) with
  | Some event => is_string (member_opt (of_json event) "type") kind
  | None => false
  end.

Definition is_finish (p : LanguageModelV1StreamPart number) : bool :=
  match p with finish _ _ _ => true | _ => false end.

Definition is_tool_call (p : LanguageModelV1StreamPart number) : bool :=
  match p with tool_call _ _ _ => true | _ => false end.

Definition is_text_delta (p : LanguageModelV1StreamPart number) : bool :=
  match p with text_delta _ => true | _ => false end.

End Decoder.

End Provider.

(** ** An instance of the platform

    Used to run the decoder on actual bytes. *)

(** [new TextDecoder()]: the UTF-8 decoder of the Encoding Standard, fatal
    flag unset, BOM not ignored, called with [{ stream: true }]. Text is
    kept as UTF-8 in a [string]; U+FFFD stands for each ill-formed part. *)
Module Utf8.

Record t := {
  code_point : Z;
  bytes_seen : Z;
  bytes_needed : Z;
  lower : Z;
  upper : Z;
  BOM_seen : bool
}.

Definition new : t :=
  {| code_point := 0; bytes_seen := 0; bytes_needed := 0;
     lower := 128; upper := 191; BOM_seen := false |}.

Definition reset (d : t) : t :=
  {| code_point := 0; bytes_seen := 0; bytes_needed := 0;
     lower := 128; upper := 191; BOM_seen := BOM_seen d |}.

Definition expect (d : t) (needed cp lo hi : Z) : t :=
  {| code_point := cp; bytes_seen := 0; bytes_needed := needed;
     lower := lo; upper := hi; BOM_seen := BOM_seen d |}.

Definition REPLACEMENT : Z := 65533.

(** A byte read when no sequence is open. *)
Definition lead (d : t) (b : Z) : list Z * t :=
  if b <=? 127 then ([b], reset d)
  else if (194 <=? b) && (b <=? 223) then ([], expect d 1 (Z.land b 31) 128 191)
  else if (224 <=? b) && (b <=? 239) then
    ([], expect d 2 (Z.land b 15) (if b =? 224 then 160 else 128)
                                  (if b =? 237 then 159 else 191))
  else if (240 <=? b) && (b <=? 244) then
    ([], expect d 3 (Z.land b 7) (if b =? 240 then 144 else 128)
                                 (if b =? 244 then 143 else 191))
  else ([REPLACEMENT], reset d).

(** The handler on one byte: the code points it yields and the new state.
    A byte that cannot continue the open sequence ends it with an error and
    is read again as a lead byte. *)
Definition handler (d : t) (b : Z) : list Z * t :=
  if bytes_needed d =? 0 then lead d b
  else if (b <? lower d) || (upper d <? b) then
    let (out, d') := lead (reset d) b in (REPLACEMENT :: out, d')
  else
    let cp := Z.lor (Z.shiftl (code_point d) 6) (Z.land b 63) in
    if bytes_seen d + 1 =? bytes_needed d then ([cp], reset d)
    else ([], {| code_point := cp; bytes_seen := bytes_seen d + 1;
                 bytes_needed := bytes_needed d;
                 lower := 128; upper := 191; BOM_seen := BOM_seen d |}).

Definition chr (n : Z) : ascii := ascii_of_N (Z.to_N n).

(** A scalar value as UTF-8. *)
Definition encode (cp : Z) : string :=
  if cp <? 128 then String (chr cp) ""
  else if cp <? 2048 then
    String (chr (192 + Z.shiftr cp 6)) (String (chr (128 + Z.land cp 63)) "")
  else if cp <? 65536 then
    String (chr (224 + Z.shiftr cp 12))
      (String (chr (128 + Z.land (Z.shiftr cp 6) 63))
         (String (chr (128 + Z.land cp 63)) ""))
  else
    String (chr (240 + Z.shiftr cp 18))
      (String (chr (128 + Z.land (Z.shiftr cp 12) 63))
         (String (chr (128 + Z.land (Z.shiftr cp 6) 63))
            (String (chr (128 + Z.land cp 63)) ""))).

(** Serializing the code points: the first one of the stream is dropped
    when it is U+FEFF. *)
Fixpoint serialize (d : t) (cps : list Z) : string * t :=
  match cps with
  | [] => ("", d)
  | cp :: rest =>
      if BOM_seen d then
        let (s, d') := serialize d rest in (encode cp ++ s, d')
      else
        let d1 := {| code_point := code_point d; bytes_seen := bytes_seen d;
                     bytes_needed := bytes_needed d; lower := lower d;
                     upper := upper d; BOM_seen := true |} in
        let (s, d') := serialize d1 rest in
        ((if cp =? 65279 then "" else encode cp) ++ s, d')
  end.

(** [decoder.decode(value, { stream: true })] *)
Fixpoint decode (d : t) (value : list byte) : string * t :=
  match value with
  | [] => ("", d)
  | b :: rest =>
      let (cps, d1) := handler d (Z.of_N (Byte.to_N b)) in
      let (s1, d2) := serialize d1 cps in
      let (s2, d3) := decode d2 rest in
      (s1 ++ s2, d3)
  end.

(** A platform whose [TextDecoder] is this one. *)
Definition platform (number : Type) (zero : number)
    (number_ToBoolean : number -> bool) (number_ToString : number -> string)
    (JSON_parse : string -> option (JS.json number)) : Provider.Platform :=
  {| Provider.number := number;
     Provider.zero := zero;
     Provider.number_ToBoolean := number_ToBoolean;
     Provider.number_ToString := number_ToString;
     Provider.JSON_parse := JSON_parse;
     Provider.TextDecoder := t;
     Provider.new_TextDecoder := new;
     Provider.decode := decode |}.

End Utf8.

(** [JSON.parse] on the texts whose number literals are integers of
    magnitude below 2^53, written without fraction or exponent: on these a
    number is the integer itself, truthy unless zero, printed in decimal.
    Any other number literal is outside this instance and is refused. *)
Module Json.
Import JS.

Definition number : Type := Z.
Definition zero : number := 0.
Definition number_ToBoolean (n : number) : bool := negb (n =? 0).
Definition number_ToString (n : number) : string := Z_toString n.

Definition quote : ascii := "034"%char.
Definition backslash : ascii := "092"%char.

Definition is_ws (c : ascii) : bool :=
  Ascii.eqb c " " || Ascii.eqb c "009" || Ascii.eqb c "010" || Ascii.eqb c "013".

Fixpoint skip_ws (s : string) : string :=
  match s with
  | String c rest => if is_ws c then skip_ws rest else s
  | EmptyString => s
  end.

Definition code (c : ascii) : Z := Z.of_N (N_of_ascii c).

Definition digit (c : ascii) : option Z :=
  if (48 <=? code c) && (code c <=? 57) then Some (code c - 48) else None.

Definition hex (c : ascii) : option Z :=
  if (48 <=? code c) && (code c <=? 57) then Some (code c - 48)
  else if (65 <=? code c) && (code c <=? 70) then Some (code c - 55)
  else if (97 <=? code c) && (code c <=? 102) then Some (code c - 87)
  else None.

Definition hex4 (a b c d : ascii) : option Z :=
  match hex a, hex b, hex c, hex d with
  | Some x, Some y, Some z, Some w => Some (((x * 16 + y) * 16 + z) * 16 + w)
  | _, _, _, _ => None
  end.

Definition cons_opt (prefix : string) (r : option (string * string))
  : option (string * string) :=
  match r with
  | Some (str, rest) => Some (prefix ++ str, rest)
  | None => None
  end.

(** The characters of a string literal after its opening quote, up to the
    closing one. A surrogate pair written as two escapes is one character. *)
Fixpoint parse_chars (s : string) : option (string * string) :=
  match s with
  | EmptyString => None
  | String c r =>
      if Ascii.eqb c quote then Some ("", r)
      else if Ascii.eqb c backslash then
        match r with
        | EmptyString => None
        | String e r1 =>
            if Ascii.eqb e "u" then
              match r1 with
              | String h1 (String h2 (String h3 (String h4 r2))) =>
                  match hex4 h1 h2 h3 h4 with
                  | None => None
                  | Some hi =>
                      let single := cons_opt (Utf8.encode hi) (parse_chars r2) in
                      if (55296 <=? hi) && (hi <=? 56319) then
                        match r2 with
                        | String b (String u (String g1 (String g2 (String g3 (String g4 r3))))) =>
                            if Ascii.eqb b backslash && Ascii.eqb u "u" then
                              match hex4 g1 g2 g3 g4 with
                              | Some lo =>
                                  if (56320 <=? lo) && (lo <=? 57343) then
                                    cons_opt
                                      (Utf8.encode (65536 + (hi - 55296) * 1024 + (lo - 56320)))
                                      (parse_chars r3)
                                  else single
                              | None => single
                              end
                            else single
                        | _ => single
                        end
                      else single
                  end
              | _ => None
              end
            else if Ascii.eqb e quote then cons_opt (String quote "") (parse_chars r1)
            else if Ascii.eqb e backslash then cons_opt (String backslash "") (parse_chars r1)
            else if Ascii.eqb e "/" then cons_opt "/" (parse_chars r1)
            else if Ascii.eqb e "b" then cons_opt (String "008" "") (parse_chars r1)
            else if Ascii.eqb e "f" then cons_opt (String "012" "") (parse_chars r1)
            else if Ascii.eqb e "n" then cons_opt (String "010" "") (parse_chars r1)
            else if Ascii.eqb e "r" then cons_opt (String "013" "") (parse_chars r1)
            else if Ascii.eqb e "t" then cons_opt (String "009" "") (parse_chars r1)
            else None
        end
      else if code c <? 32 then None
      else cons_opt (String c "") (parse_chars r)
  end.

Fixpoint parse_digits (acc : Z) (s : string) : Z * string :=
  match s with
  | String c r =>
      match digit c with
      | Some d => parse_digits (acc * 10 + d) r
      | None => (acc, s)
      end
  | EmptyString => (acc, s)
  end.

Definition MAX_SAFE_INTEGER : Z := 9007199254740991.

(** An unsigned integer literal: [0] or a non-zero digit and more digits,
    not followed by a fraction or an exponent. *)
Definition parse_int (s : string) : option (Z * string) :=
  match s with
  | String c r =>
      match digit c with
      | Some d =>
          let (n, rest) := if d =? 0 then (0, r) else parse_digits d r in
          match rest with
          | String c' _ =>
              if Ascii.eqb c' "." || Ascii.eqb c' "e" || Ascii.eqb c' "E" then None
              else if n <=? MAX_SAFE_INTEGER then Some (n, rest) else None
          | EmptyString =>
              if n <=? MAX_SAFE_INTEGER then Some (n, rest) else None
          end
      | None => None
      end
  | EmptyString => None
  end.

Definition parse_number (s : string) : option (Z * string) :=
  match s with
  | String c r =>
      if Ascii.eqb c "-" then
        match parse_int r with
        | Some (n, rest) => Some (- n, rest)
        | None => None
        end
      else parse_int s
  | EmptyString => None
  end.

(** Defining a property: a repeated key takes the later value. *)
Fixpoint set_property (k : string) (v : json number)
    (properties : list (string * json number)) : list (string * json number) :=
  match properties with
  | [] => [(k, v)]
  | (k', v') :: rest =>
      if String.eqb k k' then (k, v) :: rest
      else (k', v') :: set_property k v rest
  end.

Definition object_of (members : list (string * json number)) : json number :=
  JObj (fold_left (fun acc kv => set_property (fst kv) (snd kv) acc) members []).

Definition expect (literal : string) (v : json number) (s : string)
  : option (json number * string) :=
  if String.prefix literal s
  then Some (v, slice s (String.length literal)) else None.

Fixpoint parse_value (fuel : nat) (s : string) : option (json number * string) :=
  match fuel with
  | O => None
  | S fuel' =>
      match skip_ws s with
      | EmptyString => None
      | String c r as s' =>
          if Ascii.eqb c "{" then
            match skip_ws r with
            | String c' r' =>
                if Ascii.eqb c' "}" then Some (JObj [], r')
                else match parse_members fuel' (String c' r') with
                     | Some (members, rest) => Some (object_of members, rest)
                     | None => None
                     end
            | EmptyString => None
            end
          else if Ascii.eqb c "[" then
            match skip_ws r with
            | String c' r' =>
                if Ascii.eqb c' "]" then Some (JArr [], r')
                else match parse_elements fuel' (String c' r') with
                     | Some (elements, rest) => Some (JArr elements, rest)
                     | None => None
                     end
            | EmptyString => None
            end
          else if Ascii.eqb c quote then
            match parse_chars r with
            | Some (str, rest) => Some (JStr str, rest)
            | None => None
            end
          else if Ascii.eqb c "t" then expect "true" (JBool true) s'
          else if Ascii.eqb c "f" then expect "false" (JBool false) s'
          else if Ascii.eqb c "n" then expect "null" JNull s'
          else
            match parse_number s' with
            | Some (n, rest) => Some (JNum n, rest)
            | None => None
            end
      end
  end
with parse_elements (fuel : nat) (s : string)
  : option (list (json number) * string) :=
  match fuel with
  | O => None
  | S fuel' =>
      match parse_value fuel' s with
      | Some (v, r) =>
          match skip_ws r with
          | String c r' =>
              if Ascii.eqb c "," then
                match parse_elements fuel' r' with
                | Some (vs, rest) => Some (v :: vs, rest)
                | None => None
                end
              else if Ascii.eqb c "]" then Some ([v], r')
              else None
          | EmptyString => None
          end
      | None => None
      end
  end
with parse_members (fuel : nat) (s : string)
  : option (list (string * json number) * string) :=
  match fuel with
  | O => None
  | S fuel' =>
      match skip_ws s with
      | String q r =>
          if Ascii.eqb q quote then
            match parse_chars r with
            | Some (k, r1) =>
                match skip_ws r1 with
                | String colon r2 =>
                    if Ascii.eqb colon ":" then
                      match parse_value fuel' r2 with
                      | Some (v, r3) =>
                          match skip_ws r3 with
                          | String c r4 =>
                              if Ascii.eqb c "," then
                                match parse_members fuel' r4 with
                                | Some (ms, rest) => Some ((k, v) :: ms, rest)
                                | None => None
                                end
                              else if Ascii.eqb c "}" then Some ([(k, v)], r4)
                              else None
                          | EmptyString => None
                          end
                      | None => None
                      end
                    else None
                | EmptyString => None
                end
            | None => None
            end
          else None
      | EmptyString => None
      end
  end.

(** [JSON.parse(text)]; the recursion is at most twice as deep as the text
    is long. *)
Definition JSON_parse (text : string) : option (json number) :=
  match parse_value (2 * String.length text + 2) text with
  | Some (v, rest) =>
      match skip_ws rest with
      | EmptyString => Some v
      | String _ _ => None
      end
  | None => None
  end.

End Json.

(** The decoder on this platform. *)
Module Node.

#[export] Instance platform : Provider.Platform :=
  Utf8.platform Json.number Json.zero Json.number_ToBoolean
    Json.number_ToString Json.JSON_parse.

Definition createStreamTransformer (body : list (list byte))
  : list (Provider.LanguageModelV1StreamPart Provider.number) :=
  Provider.createStreamTransformer body.

Definition str (s : string) : JS.value Json.number := JS.of_json (JS.JStr s).
Definition num (n : Z) : JS.value Json.number := JS.of_json (JS.JNum n).

(** Writing JSON text with apostrophes for the double quotes. *)
Fixpoint qq (s : string) : string :=
  match s with
  | EmptyString => EmptyString
  | String c rest => String (if Ascii.eqb c "'" then Json.quote else c) (qq rest)
  end.

(** One frame on the wire: the [data: ] marker, the payload, a newline. *)
Definition line (payload : string) : string := "data: " ++ qq payload.

Definition frame (payload : string) : list byte :=
  list_byte_of_string (line payload ++ String JS.newline "").

End Node.

(** * Requests and responses: [doGenerate], [doStream], [convertPrompt] and
    [extractSystemMessage] of src/provider.ts *)
Module Model.
Import JS Provider.

(** ** The prompt of a call ([LanguageModelV1Prompt] of @ai-sdk/provider) *)

(** [image: Uint8Array | URL]; [toString()] of a [URL] is its href. *)
Inductive Image :=
| URL (href : string)
| Uint8Array (bytes : list byte).

Inductive UserContent :=
| user_text (text : string)
| user_image (image : Image) (mimeType : option string)
| user_file (data mimeType : string).

Inductive AssistantContent (number : Type) :=
| assistant_text (text : string)
| assistant_tool_call (toolCallId toolName : string) (args : value number).
Arguments assistant_text {number} text.
Arguments assistant_tool_call {number} toolCallId toolName args.

(** The parts of a tool message all have type [tool-result]. *)
Module ToolResultPart.
Record t (number : Type) := {
  toolCallId : string;
  toolName : string;
  result : value number
}.
Arguments toolCallId {number} t.
Arguments toolName {number} t.
Arguments result {number} t.
End ToolResultPart.

Inductive LanguageModelV1Message (number : Type) :=
| system_message (content : string)
| user_message (content : list UserContent)
| assistant_message (content : list (AssistantContent number))
| tool_message (content : list (ToolResultPart.t number)).
Arguments system_message {number} content.
Arguments user_message {number} content.
Arguments assistant_message {number} content.
Arguments tool_message {number} content.

(** ** The messages of a request *)

Inductive ImageSource :=
| url_source (url : string)
| base64_source (media_type data : string).

(** [content] of a tool result is [undefined] ([None]) when
    [JSON.stringify] gives [undefined]. *)
Inductive ContentBlock :=
| text_block (text : string)
| image_block (source : ImageSource)
| tool_result_block (tool_use_id : string) (content : option string).

Inductive MessageContent :=
| as_string (text : string)
| as_blocks (blocks : list ContentBlock).

Inductive Role := user | assistant.

Record Message := {
  role : Role;
  content : MessageContent
}.

(** ** Tools and modes of a call *)

(** A tool of a regular mode is a function tool or a provider-defined
    one, which has neither description nor parameters. *)
Module FunctionTool.
Record t (number : Type) := {
  name : string;
  description : option string;
  parameters : value number
}.
Arguments name {number} t.
Arguments description {number} t.
Arguments parameters {number} t.
End FunctionTool.

Inductive LanguageModelV1ToolChoice :=
| toolChoice_auto
| toolChoice_none
| toolChoice_required
| toolChoice_tool (toolName : string).

Inductive Mode (number : Type) :=
| regular (tools : option (list (FunctionTool.t number)))
          (toolChoice : option LanguageModelV1ToolChoice)
| object_json
| object_tool (tool : FunctionTool.t number).
Arguments regular {number} tools toolChoice.
Arguments object_json {number}.
Arguments object_tool {number} tool.

Module ClaudeCodeModelSettings.
Record t (number : Type) := {
  maxTokens : option number;
  temperature : option number;
  topP : option number;
  topK : option number
}.
Arguments maxTokens {number} t.
Arguments temperature {number} t.
Arguments topP {number} t.
Arguments topK {number} t.
End ClaudeCodeModelSettings.

(** The options [doGenerate] and [doStream] read, but for [abortSignal]. *)
Module LanguageModelV1CallOptions.
Record t (number : Type) := {
  prompt : list (LanguageModelV1Message number);
  mode : option (Mode number);
  maxTokens : option number;
  temperature : option number;
  topP : option number;
  topK : option number
}.
Arguments prompt {number} t.
Arguments mode {number} t.
Arguments maxTokens {number} t.
Arguments temperature {number} t.
Arguments topP {number} t.
Arguments topK {number} t.
End LanguageModelV1CallOptions.

(** ** The body of a request, before [JSON.stringify]: [None] is a key that
    was not set. *)

Module Tool.
Record t (number : Type) := {
  name : string;
  description : option string;
  input_schema : value number
}.
Arguments name {number} t.
Arguments description {number} t.
Arguments input_schema {number} t.
End Tool.

Inductive ToolChoice :=
| choice_tool (name : string)
| choice_any
| choice_none.

Module Body.
Record t (number : Type) := {
  model : string;
  messages : list Message;
  max_tokens : number;
  stream : option bool;
  system : option string;
  temperature : option number;
  top_p : option number;
  top_k : option number;
  tools : option (list (Tool.t number));
  tool_choice : option ToolChoice
}.
Arguments model {number} t.
Arguments messages {number} t.
Arguments max_tokens {number} t.
Arguments stream {number} t.
Arguments system {number} t.
Arguments temperature {number} t.
Arguments top_p {number} t.
Arguments top_k {number} t.
Arguments tools {number} t.
Arguments tool_choice {number} t.
End Body.

(** ** The answer of the API, as [doGenerate] types it *)

Module Block.
Record t (number : Type) := {
  type : string;
  text : option string;
  id : option string;
  name : option string;
  input : value number
}.
Arguments type {number} t.
Arguments text {number} t.
Arguments id {number} t.
Arguments name {number} t.
Arguments input {number} t.
End Block.

Module Data.
Record t (number : Type) := {
  content : list (Block.t number);
  stop_reason : string;
  input_tokens : number;
  output_tokens : number
}.
Arguments content {number} t.
Arguments stop_reason {number} t.
Arguments input_tokens {number} t.
Arguments output_tokens {number} t.
End Data.

(** ** What [doGenerate] returns *)

Module FunctionToolCall.
Record t := {
  toolCallId : option string;
  toolName : option string;
  args : option string
}.
End FunctionToolCall.

Module Generated.
Record t (number : Type) := {
  text : option string;
  toolCalls : option (list FunctionToolCall.t);
  finishReason : LanguageModelV1FinishReason;
  promptTokens : number;
  completionTokens : number;
  rawPrompt : list (LanguageModelV1Message number);
  rawSettings : Body.t number
}.
Arguments text {number} t.
Arguments toolCalls {number} t.
Arguments finishReason {number} t.
Arguments promptTokens {number} t.
Arguments completionTokens {number} t.
Arguments rawPrompt {number} t.
Arguments rawSettings {number} t.
End Generated.

Module Streamed.
Record t (number : Type) := {
  stream : list (LanguageModelV1StreamPart number);
  rawPrompt : list (LanguageModelV1Message number);
  rawSettings : Body.t number
}.
Arguments stream {number} t.
Arguments rawPrompt {number} t.
Arguments rawSettings {number} t.
End Streamed.

(** ** The network *)

Definition ANTHROPIC_API_URL : string := "https://api.anthropic.com/v1/messages".
Definition ANTHROPIC_API_VERSION : string := "2023-06-01".

(** A POST to the API: the body is the object given to [JSON.stringify]. *)
Module Request.
Record t (number : Type) := {
  url : string;
  headers : list (string * string);
  body : Body.t number
}.
Arguments url {number} t.
Arguments headers {number} t.
Arguments body {number} t.
End Request.

(** What the API answered: status, body text ([response.text()]), the body
    as [response.json()] resolves it ([inl] when it rejects), and the
    chunks [response.body] yields when read to its end. *)
Module Response.
Record t (number : Type) := {
  status : Z;
  text : string;
  json : Exn.t + Data.t number;
  body : list (list byte)
}.
Arguments status {number} t.
Arguments text {number} t.
Arguments json {number} t.
Arguments body {number} t.
End Response.

(** [response.ok] *)
Definition ok {number} (r : Response.t number) : bool :=
  (200 <=? Response.status r) && (Response.status r <=? 299).

(** The module state of credentials.ts with its world, and the requests
    sent to the API so far (latest last). *)
Record World (number : Type) := {
  credentials : Credentials.State;
  requests : list (Request.t number)
}.
Arguments credentials {number} w.
Arguments requests {number} w.

Section Model.

Context {platform : Platform}.

(** The literal [4096]. *)
Variable literal_4096 : number.

(** [Buffer.from(bytes).toString('base64')] *)
Variable base64 : list byte -> string.

(** [JSON.stringify(v)]: [None] when it gives [undefined]. *)
Variable JSON_stringify : value number -> option string.

(** [this.modelId] and [this.settings] *)
Variable modelId : string.
Variable settings : ClaudeCodeModelSettings.t number.

(** [a ?? b] on an optional value *)
Definition nullish_or {A} (a : option A) (b : A) : A :=
  match a with Some x => x | None => b end.

(** The blocks a part of a user message pushes on [content]. *)
Definition user_blocks (item : UserContent) : list ContentBlock :=
  match item with
  | user_text text => [text_block text]
  | user_image (URL href) _ => [image_block (url_source href)]
  | user_image (Uint8Array bytes) mimeType =>
      [image_block (base64_source (nullish_or mimeType "image/png") (base64 bytes))]
  | user_file _ _ => []
  end.

(** [typeof result === 'string' ? result : JSON.stringify(result)] *)
Definition tool_result_content (result : value number) : option string :=
  match result with
  | of_json (JStr s) => Some s
  | _ => JSON_stringify result
  end.

(** The texts of the text parts of an assistant message. *)
Definition assistant_texts (content : list (AssistantContent number)) : list string :=
  flat_map (fun item => match item with
                        | assistant_text text => [text]
                        | assistant_tool_call _ _ _ => []
                        end) content.

(** The messages one part of the prompt pushes on [messages]. *)
Definition convertPart (part : LanguageModelV1Message number) : list Message :=
  match part with
  | system_message _ => []
  | user_message parts =>
      let content := flat_map user_blocks parts in
      [{| role := user;
          content := match content with
                     | [text_block text] => as_string text
                     | _ => as_blocks content
                     end |}]
  | assistant_message parts =>
      let textParts := String.concat "" (assistant_texts parts) in
      if String.eqb textParts "" then []
      else [{| role := assistant; content := as_string textParts |}]
  | tool_message parts =>
      map (fun item =>
             {| role := user;
                content :=
                  as_blocks
                    [tool_result_block (ToolResultPart.toolCallId item)
                       (tool_result_content (ToolResultPart.result item))] |})
          parts
  end.

(** [convertPrompt(prompt)] *)
Fixpoint convertPrompt (prompt : list (LanguageModelV1Message number)) : list Message :=
  match prompt with
  | [] => []
  | part :: rest => (convertPart part ++ convertPrompt rest)%list
  end.

(** [extractSystemMessage(prompt)]: [None] is [undefined]. *)
Fixpoint extractSystemMessage (prompt : list (LanguageModelV1Message number))
  : option string :=
  match prompt with
  | [] => None
  | system_message content :: _ => Some content
  | _ :: rest => extractSystemMessage rest
  end.

(** [if (systemMessage) body.system = systemMessage]: the empty string is
    falsy. *)
Definition system_of (systemMessage : option string) : option string :=
  match systemMessage with
  | Some s => if String.eqb s "" then None else Some s
  | None => None
  end.

(** [a !== undefined ? a : b !== undefined ? b : unset] *)
Definition first_defined {A} (a b : option A) : option A :=
  match a with Some x => Some x | None => b end.

Definition anthropic_tool (tool : FunctionTool.t number) : Tool.t number :=
  {| Tool.name := FunctionTool.name tool;
     Tool.description := FunctionTool.description tool;
     Tool.input_schema := FunctionTool.parameters tool |}.

(** [body.tool_choice] of [doGenerate] in regular mode *)
Definition anthropic_tool_choice (toolChoice : option LanguageModelV1ToolChoice)
  : option ToolChoice :=
  match toolChoice with
  | Some (toolChoice_tool toolName) => Some (choice_tool toolName)
  | Some toolChoice_required => Some choice_any
  | Some toolChoice_none => Some choice_none
  | Some toolChoice_auto | None => None
  end.

(** The [tools] and [tool_choice] keys: [with_choice] is whether the
    regular mode's [toolChoice] is looked at. An object is truthy, so
    [mode.tool] holds; an array is truthy too, so [mode.tools &&
    mode.tools.length > 0] asks for a list that is there and not empty. *)
Definition tools_of (with_choice : bool) (mode : option (Mode number))
  : option (list (Tool.t number)) * option ToolChoice :=
  match mode with
  | Some (object_tool tool) =>
      (Some [anthropic_tool tool], Some (choice_tool (FunctionTool.name tool)))
  | Some (regular (Some (tool :: tools)) toolChoice) =>
      (Some (map anthropic_tool (tool :: tools)),
       if with_choice then anthropic_tool_choice toolChoice else None)
  | _ => (None, None)
  end.

(** The request body of [doGenerate]. *)
Definition doGenerate_body (options : LanguageModelV1CallOptions.t number)
  : Body.t number :=
  let prompt := LanguageModelV1CallOptions.prompt options in
  let messages := convertPrompt prompt in
  let systemMessage := extractSystemMessage prompt in
  let tools := tools_of true (LanguageModelV1CallOptions.mode options) in
  {| Body.model := modelId;
     Body.messages := messages;
     Body.max_tokens :=
       nullish_or (LanguageModelV1CallOptions.maxTokens options)
         (nullish_or (ClaudeCodeModelSettings.maxTokens settings) literal_4096);
     Body.stream := None;
     Body.system := system_of systemMessage;
     Body.temperature :=
       first_defined (LanguageModelV1CallOptions.temperature options)
                     (ClaudeCodeModelSettings.temperature settings);
     Body.top_p :=
       first_defined (LanguageModelV1CallOptions.topP options)
                     (ClaudeCodeModelSettings.topP settings);
     Body.top_k :=
       first_defined (LanguageModelV1CallOptions.topK options)
                     (ClaudeCodeModelSettings.topK settings);
     Body.tools := fst tools;
     Body.tool_choice := snd tools |}.

(** The request body of [doStream]. *)
Definition doStream_body (options : LanguageModelV1CallOptions.t number)
  : Body.t number :=
  let prompt := LanguageModelV1CallOptions.prompt options in
  let messages := convertPrompt prompt in
  let systemMessage := extractSystemMessage prompt in
  let tools := tools_of false (LanguageModelV1CallOptions.mode options) in
  {| Body.model := modelId;
     Body.messages := messages;
     Body.max_tokens :=
       nullish_or (LanguageModelV1CallOptions.maxTokens options)
         (nullish_or (ClaudeCodeModelSettings.maxTokens settings) literal_4096);
     Body.stream := Some true;
     Body.system := system_of systemMessage;
     Body.temperature := LanguageModelV1CallOptions.temperature options;
     Body.top_p := LanguageModelV1CallOptions.topP options;
     Body.top_k := LanguageModelV1CallOptions.topK options;
     Body.tools := fst tools;
     Body.tool_choice := snd tools |}.

(** The POST both methods send. *)
Definition post (accessToken : string) (body : Body.t number) : Request.t number :=
  {| Request.url := ANTHROPIC_API_URL;
     Request.headers := [("Content-Type", "application/json");
                         ("Authorization", "Bearer " ++ accessToken);
                         ("anthropic-version", ANTHROPIC_API_VERSION)];
     Request.body := body |}.

(** [s + v] for an optional string [v]: [undefined] prints as itself. *)
Definition add_optional (s : string) (v : option string) : string :=
  s ++ match v with Some t => t | None => "undefined" end.

(** One turn of [for (const block of data.content)] on [text] and
    [toolCalls]. *)
Definition on_block (acc : option string * list FunctionToolCall.t)
    (block : Block.t number) : option string * list FunctionToolCall.t :=
  let (text, toolCalls) := acc in
  if String.eqb (Block.type block) "text" then
    (Some (add_optional (nullish_or text "") (Block.text block)), toolCalls)
  else if String.eqb (Block.type block) "tool_use" then
    (text,
     (toolCalls ++ [{| FunctionToolCall.toolCallId := Block.id block;
                       FunctionToolCall.toolName := Block.name block;
                       FunctionToolCall.args := JSON_stringify (Block.input block) |}])%list)
  else acc.

(** The finish reason of a stop reason. *)
Definition finishReason_of (stop_reason : string) : LanguageModelV1FinishReason :=
  if String.eqb stop_reason "end_turn" then stop
  else if String.eqb stop_reason "tool_use" then tool_calls
  else if String.eqb stop_reason "max_tokens" then length
  else other.

(** What [doGenerate] returns for the answer [data]. *)
Definition generated (options : LanguageModelV1CallOptions.t number)
    (body : Body.t number) (data : Data.t number) : Generated.t number :=
  let (text, toolCalls) := fold_left on_block (Data.content data) (None, []) in
  {| Generated.text := text;
     Generated.toolCalls :=
       match toolCalls with [] => None | _ :: _ => Some toolCalls end;
     Generated.finishReason := finishReason_of (Data.stop_reason data);
     Generated.promptTokens := Data.input_tokens data;
     Generated.completionTokens := Data.output_tokens data;
     Generated.rawPrompt := LanguageModelV1CallOptions.prompt options;
     Generated.rawSettings := body |}.

(** [getValidAccessToken()] and the POST, as both methods begin: the
    path of the credentials file, the readings of [Date.now()] and the
    answers of the token endpoint and of the API are given. *)
Section Calls.

Variable CREDENTIALS_PATH : string.
Variables now_read now_check now_refresh : Z.
Variable token_response : Credentials.Response.
Variable response : Response.t number.

Definition send (body : Body.t number) (w : World number)
  : Credentials.Result unit * World number :=
  match Credentials.getValidAccessToken CREDENTIALS_PATH now_read now_check
          now_refresh token_response (credentials w) with
  | (Credentials.Throw e, s) =>
      (Credentials.Throw e, {| credentials := s; requests := requests w |})
  | (Credentials.Return accessToken, s) =>
      let w' := {| credentials := s;
                   requests := (requests w ++ [post accessToken body])%list |} in
      if negb (ok response) then
        let errorText := Response.text response in
        (Credentials.Throw
           (Exn.Error ("Anthropic API error: "
                       ++ Z_toString (Response.status response)
                       ++ " " ++ errorText)), w')
      else (Credentials.Return tt, w')
  end.

(** [doGenerate(options)] *)
Definition doGenerate (options : LanguageModelV1CallOptions.t number)
    (w : World number) : Credentials.Result (Generated.t number) * World number :=
  let body := doGenerate_body options in
  match send body w with
  | (Credentials.Throw e, w') => (Credentials.Throw e, w')
  | (Credentials.Return _, w') =>
      match Response.json response with
      | inl e => (Credentials.Throw e, w')
      | inr data => (Credentials.Return (generated options body data), w')
      end
  end.

(** [doStream(options)]: the stream is given by the parts it yields when
    read to its end. *)
Definition doStream (options : LanguageModelV1CallOptions.t number)
    (w : World number) : Credentials.Result (Streamed.t number) * World number :=
  let body := doStream_body options in
  match send body w with
  | (Credentials.Throw e, w') => (Credentials.Throw e, w')
  | (Credentials.Return _, w') =>
      (Credentials.Return
         {| Streamed.stream := createStreamTransformer (Response.body response);
            Streamed.rawPrompt := LanguageModelV1CallOptions.prompt options;
            Streamed.rawSettings := body |}, w')
  end.

End Calls.

End Model.

End Model.

(** * The platform functions of the request side, made concrete *)
Module NodeModel.
Import JS.

(** [Buffer.from(bytes).toString('base64')] *)
Definition alphabet : string :=
  "ABCDEFGHIJKLMNOPQRSTUVWXYZabcdefghijklmnopqrstuvwxyz0123456789+/".

Definition sextet (n : Z) : ascii :=
  match String.get (Z.to_nat n) alphabet with
  | Some c => c
  | None => "="%char
  end.

Definition octet (b : byte) : Z := Z.of_N (Byte.to_N b).

Fixpoint base64 (bytes : list byte) : string :=
  match bytes with
  | [] => ""
  | [a] =>
      String (sextet (Z.shiftr (octet a) 2))
        (String (sextet (Z.shiftl (Z.land (octet a) 3) 4)) "==")
  | [a; b] =>
      String (sextet (Z.shiftr (octet a) 2))
        (String (sextet (Z.lor (Z.shiftl (Z.land (octet a) 3) 4)
                               (Z.shiftr (octet b) 4)))
           (String (sextet (Z.shiftl (Z.land (octet b) 15) 2)) "="))
  | a :: b :: c :: rest =>
      String (sextet (Z.shiftr (octet a) 2))
        (String (sextet (Z.lor (Z.shiftl (Z.land (octet a) 3) 4)
                               (Z.shiftr (octet b) 4)))
           (String (sextet (Z.lor (Z.shiftl (Z.land (octet b) 15) 2)
                                  (Z.shiftr (octet c) 6)))
              (String (sextet (Z.land (octet c) 63)) (base64 rest))))
  end.

(** [JSON.stringify] on parsed values: a string is quoted with the
    escapes of ECMA-262's QuoteJSONString. *)
Definition hex_digit (n : Z) : ascii :=
  match String.get (Z.to_nat n) "0123456789abcdef" with
  | Some c => c
  | None => "0"%char
  end.

Definition escape (c : ascii) : string :=
  let n := Json.code c in
  if Ascii.eqb c Json.quote then String Json.backslash (String Json.quote "")
  else if Ascii.eqb c Json.backslash then String Json.backslash (String Json.backslash "")
  else if n =? 8 then String Json.backslash "b"
  else if n =? 9 then String Json.backslash "t"
  else if n =? 10 then String Json.backslash "n"
  else if n =? 12 then String Json.backslash "f"
  else if n =? 13 then String Json.backslash "r"
  else if n <? 32 then
    String Json.backslash
      ("u00" ++ String (hex_digit (Z.shiftr n 4)) (String (hex_digit (Z.land n 15)) ""))
  else String c "".

Fixpoint escaped (s : string) : string :=
  match s with
  | EmptyString => ""
  | String c rest => escape c ++ escaped rest
  end.

Definition quoted (s : string) : string :=
  String Json.quote (escaped s ++ String Json.quote "").

Fixpoint stringify (j : json Json.number) : string :=
  match j with
  | JNull => "null"
  | JBool true => "true"
  | JBool false => "false"
  | JNum n => Json.number_ToString n
  | JStr s => quoted s
  | JArr elements =>
      "[" ++ String.concat "," (map stringify elements) ++ "]"
  | JObj properties =>
      "{" ++ String.concat ","
               (map (fun p => quoted (fst p) ++ ":" ++ stringify (snd p)) properties)
          ++ "}"
  end.

Definition JSON_stringify (v : value Json.number) : option string :=
  match v with
  | undefined => None
  | of_json j => Some (stringify j)
  end.

End NodeModel.

(** * Properties of the credential manager *)
Module CredentialsSpec.
Import Credentials Credentials.ClaudeCodeCredentials.

(** Number of [readFileSync] calls made so far. *)
Definition disk_reads (s : State) : nat :=
  List.length (filter disk_read (trace s)).

(** Number of calls made on the file system so far. *)
Definition disk_accesses (s : State) : nat :=
  List.length (filter disk_io (trace s)).

Definition with_trace (s : State) (t : list IO) : State :=
  {| cachedCredentials := cachedCredentials s; lastReadTime := lastReadTime s;
     file := file s; write_error := write_error s; trace := t |}.

(** A record, a file holding it and two answers of the token endpoint, for
    the concrete runs below. *)
Definition sample : ClaudeCodeCredentials :=
  {| claudeAiOauth :=
       {| accessToken := "at-old"; ClaudeCodeCredentials.refreshToken := "rt-old";
          expiresAt := 1700000200000;
          scopes := ["user:inference"; "user:profile"];
          subscriptionType := Some "max"; rateLimitTier := None |};
     organizationUuid := "org-1" |}.

Definition grant (refresh_token : option string) (expires_in : Z) : TokenData :=
  {| access_token := "at-new"; refresh_token := refresh_token;
     expires_in := expires_in; scope := Some "user:inference user:profile" |}.

Definition granted (refresh_token : option string) (expires_in : Z) : Response :=
  {| status := 200; text := ""; json := inr (grant refresh_token expires_in) |}.

Definition denied : Response :=
  {| status := 401; text := "invalid_grant";
     json := inl (Exn.Build "SyntaxError" "Unexpected token") |}.

Definition EACCES : Exn.t := Exn.Build "Error" "EACCES: permission denied".

Definition home : string := "/home/u/.claude/.credentials.json".

(** Concrete states for the runs below: a process that read [sample] at
    time 1700000000000, on a disk that refuses writes or accepts them. *)
Definition t0 : Z := 1700000000000.

Definition read_only_disk : State :=
  {| cachedCredentials := Some sample; lastReadTime := t0;
     file := Document sample; write_error := Some EACCES; trace := [] |}.

Definition writable_disk : State :=
  {| cachedCredentials := Some sample; lastReadTime := t0;
     file := Document sample; write_error := None; trace := [] |}.

Section Miss.

Variable CREDENTIALS_PATH : string.

Definition not_found : Exn.t :=
  Exn.Error ("Claude Code credentials not found at "
             ++ CREDENTIALS_PATH ++ "." ++ String "010" ""
             ++ "Please install Claude Code and log in: https://claude.ai/code").

Definition failed_to_read (cause : Exn.t) : Exn.t :=
  Exn.Error ("Failed to read Claude Code credentials: " ++ Exn.toString cause).

(** What a call that does not hit the cache does, by the state of the file. *)
Definition miss (now : Z) (s : State) : Result ClaudeCodeCredentials * State :=
  match file s with
  | Absent => (Throw not_found, with_trace s (trace s ++ [existsSync]))
  | Unreadable e | Corrupt e =>
      (Throw (failed_to_read e),
       with_trace s ((trace s ++ [existsSync]) ++ [readFileSync]))
  | Document c =>
      (Return c,
       {| cachedCredentials := Some c; lastReadTime := now; file := file s;
          write_error := write_error s;
          trace := (trace s ++ [existsSync]) ++ [readFileSync] |})
  end.

End Miss.

Lemma refreshToken_not_ok response now credentials s :
  ok response = false ->
  Credentials.refreshToken response now credentials s =
  (Throw (Exn.Error ("Failed to refresh token: " ++ Z_toString (status response)
                     ++ " " ++ text response)),
   with_trace s (trace s ++ [fetch (ClaudeCodeCredentials.refreshToken (claudeAiOauth credentials))])).
Proof.
  intros Hok. unfold Credentials.refreshToken, bind, emit, throw. simpl.
  rewrite Hok. reflexivity.
Qed.

Lemma refreshToken_persisted response now credentials s data :
  ok response = true ->
  json response = inr data ->
  write_error s = None ->
  Credentials.refreshToken response now credentials s =
  (Return (newCredentials now credentials data),
   {| cachedCredentials := Some (newCredentials now credentials data);
      lastReadTime := lastReadTime s;
      file := Document (newCredentials now credentials data);
      write_error := None;
      trace := (trace s ++ [fetch (ClaudeCodeCredentials.refreshToken (claudeAiOauth credentials))])
               ++ [writeFileSync (newCredentials now credentials data)] |}).
Proof.
  intros Hok Hjson Hw. destruct s as [c l f w t]. simpl in Hw. subst w.
  unfold Credentials.refreshToken, bind, emit, throw, try_catch,
    fs_writeFileSync, bind, emit, get, set_file, set_cachedCredentials, ret.
  simpl. rewrite Hok, Hjson. reflexivity.
Qed.

Lemma refreshToken_not_persisted response now credentials s data e :
  ok response = true ->
  json response = inr data ->
  write_error s = Some e ->
  Credentials.refreshToken response now credentials s =
  (Return (newCredentials now credentials data),
   with_trace s
     (((trace s ++ [fetch (ClaudeCodeCredentials.refreshToken (claudeAiOauth credentials))])
       ++ [writeFileSync (newCredentials now credentials data)])
      ++ [console_warn])).
Proof.
  intros Hok Hjson Hw. destruct s as [c l f w t]. simpl in Hw. subst w.
  unfold Credentials.refreshToken, bind, emit, throw, try_catch,
    fs_writeFileSync, bind, emit, get, set_file, set_cachedCredentials, ret.
  simpl. rewrite Hok, Hjson. reflexivity.
Qed.

Section Read.

Variable CREDENTIALS_PATH : string.

Lemma readCredentials_hit now s c :
  cachedCredentials s = Some c ->
  now - lastReadTime s < CACHE_TTL_MS ->
  readCredentials CREDENTIALS_PATH now s = (Return c, s).
Proof.
  intros Hc Hw. unfold readCredentials, bind, get. rewrite Hc.
  apply Z.ltb_lt in Hw. rewrite Hw. reflexivity.
Qed.

Lemma readCredentials_miss now s :
  cachedCredentials s = None \/ CACHE_TTL_MS <= now - lastReadTime s ->
  readCredentials CREDENTIALS_PATH now s = miss CREDENTIALS_PATH now s.
Proof.
  intros Hm.
  assert (Hhit : match cachedCredentials s with
                 | Some c => if now - lastReadTime s <? CACHE_TTL_MS
                             then Some c else None
                 | None => None
                 end = None).
  { destruct Hm as [-> | Hw]; [reflexivity|].
    destruct (cachedCredentials s); [|reflexivity].
    apply Z.ltb_ge in Hw. rewrite Hw. reflexivity. }
  unfold readCredentials, bind, get. rewrite Hhit.
  unfold miss, not_found, fs_existsSync, fs_readFileSync_parse, try_catch, bind, emit, get,
    throw, ret, set_cachedCredentials, set_lastReadTime.
  destruct s as [c l f w t]. simpl. destruct f; reflexivity.
Qed.

Lemma readCredentials_cases now s :
  readCredentials CREDENTIALS_PATH now s = miss CREDENTIALS_PATH now s \/
  exists c, cachedCredentials s = Some c /\
            readCredentials CREDENTIALS_PATH now s = (Return c, s).
Proof.
  destruct (cachedCredentials s) as [c|] eqn:Hc.
  - destruct (Z.lt_ge_cases (now - lastReadTime s) CACHE_TTL_MS) as [Hw|Hw].
    + right. exists c. split; [reflexivity|]. now apply readCredentials_hit.
    + left. apply readCredentials_miss. now right.
  - left. apply readCredentials_miss. now left.
Qed.

Lemma disk_reads_app s t :
  List.length (filter disk_read (trace s ++ t)) =
  (disk_reads s + List.length (filter disk_read t))%nat.
Proof. unfold disk_reads. now rewrite filter_app, length_app. Qed.

End Read.

(** C1, as the code has it: after a 2xx answer [refreshToken] returns the
    new record whether or not it could be written to the credentials file; a
    failed write is only warned about. The cached record is replaced by the
    new one when the write succeeds, and is left as it was, like the file,
    when the write fails. *)
Theorem refreshToken_persist response now credentials s data :
  ok response = true ->
  json response = inr data ->
  let new := newCredentials now credentials data in
  let (r, s') := Credentials.refreshToken response now credentials s in
  r = Return new /\
  (write_error s = None ->
     cachedCredentials s' = Some new /\ file s' = Document new) /\
  (forall e, write_error s = Some e ->
     cachedCredentials s' = cachedCredentials s /\ file s' = file s /\
     trace s' =
     (trace s ++ [fetch (ClaudeCodeCredentials.refreshToken (claudeAiOauth credentials));
                  writeFileSync new; console_warn])%list).
Proof.
  intros Hok Hjson new.
  destruct (write_error s) as [e|] eqn:Hw.
  - rewrite (refreshToken_not_persisted _ _ _ _ _ _ Hok Hjson Hw).
    split; [reflexivity|]. split; [discriminate|].
    intros e' _. simpl. repeat split. now rewrite <- !app_assoc.
  - rewrite (refreshToken_persisted _ _ _ _ _ Hok Hjson Hw).
    split; [reflexivity|]. split; [now split|]. discriminate.
Qed.

Lemma refreshToken_persist_witness :
  ok (granted (Some "rt-new") 3600) = true /\
  json (granted (Some "rt-new") 3600) = inr (grant (Some "rt-new") 3600) /\
  let new := newCredentials (t0 + 1000) sample (grant (Some "rt-new") 3600) in
  let (r, s') := Credentials.refreshToken (granted (Some "rt-new") 3600)
                   (t0 + 1000) sample read_only_disk in
  r = Return new /\
  (write_error read_only_disk = None ->
     cachedCredentials s' = Some new /\ file s' = Document new) /\
  (forall e, write_error read_only_disk = Some e ->
     cachedCredentials s' = cachedCredentials read_only_disk /\
     file s' = file read_only_disk /\
     trace s' =
     (trace read_only_disk ++
        [fetch (ClaudeCodeCredentials.refreshToken (claudeAiOauth sample));
         writeFileSync new; console_warn])%list).
Proof.
  split; [reflexivity|]. split; [reflexivity|].
  apply (refreshToken_persist (granted (Some "rt-new") 3600) (t0 + 1000) sample
           read_only_disk (grant (Some "rt-new") 3600)); reflexivity.
Defined.

(** C1 as stated fails: the token endpoint grants a new token, the write to
    the credentials file is refused, and the cache still holds the old
    record, not the one returned. *)
Lemma refreshToken_persist_failure_keeps_cache :
  let new := newCredentials (t0 + 1000) sample (grant (Some "rt-new") 3600) in
  let run := Credentials.refreshToken (granted (Some "rt-new") 3600)
               (t0 + 1000) sample read_only_disk in
  ok (granted (Some "rt-new") 3600) = true /\
  write_error read_only_disk = Some EACCES /\
  fst run = Return new /\
  cachedCredentials (snd run) = Some sample /\
  cachedCredentials (snd run) <> Some new.
Proof.
  cbv zeta. repeat split; try reflexivity.
  vm_compute. discriminate.
Qed.

(** C3, as the code has it: after a 2xx answer the returned record has the
    scopes and the organization identifier of the input record, and expires
    at the time of the call plus the reported lifetime in milliseconds. That
    is later than the input record's expiry whenever the input record's
    expiry is before it, as when the old token has lapsed and the lifetime
    is positive. *)
Theorem refreshToken_shape response now credentials s data :
  ok response = true ->
  json response = inr data ->
  exists c',
    fst (Credentials.refreshToken response now credentials s) = Return c' /\
    scopes (claudeAiOauth c') = scopes (claudeAiOauth credentials) /\
    organizationUuid c' = organizationUuid credentials /\
    subscriptionType (claudeAiOauth c') = subscriptionType (claudeAiOauth credentials) /\
    rateLimitTier (claudeAiOauth c') = rateLimitTier (claudeAiOauth credentials) /\
    expiresAt (claudeAiOauth c') = now + expires_in data * 1000 /\
    (expiresAt (claudeAiOauth credentials) < now + expires_in data * 1000 ->
       expiresAt (claudeAiOauth credentials) < expiresAt (claudeAiOauth c')) /\
    (expiresAt (claudeAiOauth credentials) <= now -> 0 < expires_in data ->
       expiresAt (claudeAiOauth credentials) < expiresAt (claudeAiOauth c')).
Proof.
  intros Hok Hjson. exists (newCredentials now credentials data).
  split.
  - destruct (write_error s) as [e|] eqn:Hw.
    + now rewrite (refreshToken_not_persisted _ _ _ _ _ _ Hok Hjson Hw).
    + now rewrite (refreshToken_persisted _ _ _ _ _ Hok Hjson Hw).
  - simpl. repeat split; trivial. lia.
Qed.

Lemma refreshToken_shape_witness :
  ok (granted None 3600) = true /\
  json (granted None 3600) = inr (grant None 3600) /\
  exists c',
    fst (Credentials.refreshToken (granted None 3600) (t0 + 300000) sample
           writable_disk) = Return c' /\
    scopes (claudeAiOauth c') = scopes (claudeAiOauth sample) /\
    organizationUuid c' = organizationUuid sample /\
    subscriptionType (claudeAiOauth c') = subscriptionType (claudeAiOauth sample) /\
    rateLimitTier (claudeAiOauth c') = rateLimitTier (claudeAiOauth sample) /\
    expiresAt (claudeAiOauth c') = t0 + 300000 + 3600 * 1000 /\
    (expiresAt (claudeAiOauth sample) < t0 + 300000 + 3600 * 1000 ->
       expiresAt (claudeAiOauth sample) < expiresAt (claudeAiOauth c')) /\
    (expiresAt (claudeAiOauth sample) <= t0 + 300000 -> 0 < 3600 ->
       expiresAt (claudeAiOauth sample) < expiresAt (claudeAiOauth c')).
Proof.
  split; [reflexivity|]. split; [reflexivity|].
  apply (refreshToken_shape (granted None 3600) (t0 + 300000) sample
           writable_disk (grant None 3600)); reflexivity.
Defined.

(** C3 as stated fails: [sample] expires 200 seconds after [t0], so at [t0]
    it is within the refresh buffer and is refreshed; the endpoint grants a
    token that lives 60 seconds, and the returned record expires before the
    input record did. *)
Lemma refreshToken_expiry_not_later :
  let run := Credentials.refreshToken (granted None 60) t0 sample writable_disk in
  ok (granted None 60) = true /\
  isTokenExpired t0 sample = true /\
  exists c', fst run = Return c' /\
             expiresAt (claudeAiOauth c') = 1700000060000 /\
             expiresAt (claudeAiOauth sample) = 1700000200000 /\
             ~ expiresAt (claudeAiOauth sample) < expiresAt (claudeAiOauth c').
Proof.
  cbv zeta. split; [reflexivity|]. split; [reflexivity|].
  eexists. split; [reflexivity|]. split; [reflexivity|]. split; [reflexivity|].
  simpl. unfold t0. lia.
Qed.

(** C6: on a non-2xx answer [refreshToken] throws an error whose message
    carries the status and the body text; the cached record, the time of the
    last read and the credentials file are what they were, and nothing was
    written. *)
Theorem refreshToken_failure response now credentials s :
  ok response = false ->
  let (r, s') := Credentials.refreshToken response now credentials s in
  r = Throw (Exn.Error ("Failed to refresh token: " ++ Z_toString (status response)
                        ++ " " ++ text response)) /\
  cachedCredentials s' = cachedCredentials s /\
  lastReadTime s' = lastReadTime s /\
  file s' = file s /\
  trace s' = (trace s ++ [fetch (ClaudeCodeCredentials.refreshToken
                                   (claudeAiOauth credentials))])%list.
Proof.
  intros Hok. rewrite (refreshToken_not_ok _ _ _ _ Hok). now repeat split.
Qed.

Lemma refreshToken_failure_witness :
  ok denied = false /\
  let (r, s') := Credentials.refreshToken denied (t0 + 1000) sample writable_disk in
  r = Throw (Exn.Error "Failed to refresh token: 401 invalid_grant") /\
  cachedCredentials s' = Some sample /\
  lastReadTime s' = t0 /\
  file s' = Document sample /\
  trace s' = [fetch "rt-old"].
Proof.
  split; [reflexivity|].
  apply (refreshToken_failure denied (t0 + 1000) sample writable_disk).
  reflexivity.
Defined.

(** C9: after a 2xx answer whose [refresh_token] is absent or empty the
    returned record keeps the refresh token of the input record; a non-empty
    [refresh_token] replaces it, and nothing else does. *)
Theorem refreshToken_keeps_refresh_token response now credentials s data :
  ok response = true ->
  json response = inr data ->
  exists c',
    fst (Credentials.refreshToken response now credentials s) = Return c' /\
    (refresh_token data = None \/ refresh_token data = Some "" ->
       ClaudeCodeCredentials.refreshToken (claudeAiOauth c') =
       ClaudeCodeCredentials.refreshToken (claudeAiOauth credentials)) /\
    (forall r, refresh_token data = Some r -> r <> "" ->
       ClaudeCodeCredentials.refreshToken (claudeAiOauth c') = r) /\
    (ClaudeCodeCredentials.refreshToken (claudeAiOauth c') <>
     ClaudeCodeCredentials.refreshToken (claudeAiOauth credentials) ->
       exists r, refresh_token data = Some r /\ r <> "" /\
                 ClaudeCodeCredentials.refreshToken (claudeAiOauth c') = r).
Proof.
  intros Hok Hjson. exists (newCredentials now credentials data).
  split.
  - destruct (write_error s) as [e|] eqn:Hw.
    + now rewrite (refreshToken_not_persisted _ _ _ _ _ _ Hok Hjson Hw).
    + now rewrite (refreshToken_persisted _ _ _ _ _ Hok Hjson Hw).
  - simpl. unfold or_else. repeat split.
    + intros [-> | ->]; reflexivity.
    + intros r -> Hr. apply String.eqb_neq in Hr. now rewrite Hr.
    + intros Hne. destruct (refresh_token data) as [r|]; [|congruence].
      destruct (String.eqb r "") eqn:Hr; [congruence|].
      exists r. apply String.eqb_neq in Hr. now repeat split.
Qed.

Lemma refreshToken_keeps_refresh_token_witness :
  ok (granted (Some "") 3600) = true /\
  json (granted (Some "") 3600) = inr (grant (Some "") 3600) /\
  exists c',
    fst (Credentials.refreshToken (granted (Some "") 3600) (t0 + 300000) sample
           writable_disk) = Return c' /\
    (Some "" = None \/ Some "" = Some "" ->
       ClaudeCodeCredentials.refreshToken (claudeAiOauth c') = "rt-old") /\
    (forall r, Some "" = Some r -> r <> "" ->
       ClaudeCodeCredentials.refreshToken (claudeAiOauth c') = r) /\
    (ClaudeCodeCredentials.refreshToken (claudeAiOauth c') <> "rt-old" ->
       exists r, Some "" = Some r /\ r <> "" /\
                 ClaudeCodeCredentials.refreshToken (claudeAiOauth c') = r).
Proof.
  split; [reflexivity|]. split; [reflexivity|].
  apply (refreshToken_keeps_refresh_token (granted (Some "") 3600) (t0 + 300000)
           sample writable_disk (grant (Some "") 3600)); reflexivity.
Defined.

(** C8: when a call to [readCredentials] has returned a record and the next
    call comes less than 30 seconds after the time of the last read, with
    nothing in between, the next call returns the same record and leaves the
    state as it is, trace included: it makes no call on the file system, and
    the two calls together read the file at most once. A call made when
    nothing is cached (the first call) or 30 seconds or more after the last
    read goes to the file system: it returns what the file holds, caches it
    and records the time, or throws when the file is missing or cannot be
    read or parsed. *)
Theorem readCredentials_cache (CREDENTIALS_PATH : string) :
  (forall s t1 t2 c1 s1,
      readCredentials CREDENTIALS_PATH t1 s = (Return c1, s1) ->
      t2 - lastReadTime s1 < CACHE_TTL_MS ->
      readCredentials CREDENTIALS_PATH t2 s1 = (Return c1, s1) /\
      (disk_reads s1 <= disk_reads s + 1)%nat) /\
  (forall s t,
      cachedCredentials s = None \/ CACHE_TTL_MS <= t - lastReadTime s ->
      let (r, s') := readCredentials CREDENTIALS_PATH t s in
      (disk_accesses s < disk_accesses s')%nat /\
      match file s with
      | Document c =>
          r = Return c /\ cachedCredentials s' = Some c /\ lastReadTime s' = t /\
          disk_reads s' = (disk_reads s + 1)%nat
      | Absent => r = Throw (not_found CREDENTIALS_PATH) /\
                  cachedCredentials s' = cachedCredentials s
      | Unreadable e | Corrupt e =>
          r = Throw (failed_to_read e) /\
          cachedCredentials s' = cachedCredentials s
      end).
Proof.
  split.
  - intros s t1 t2 c1 s1 H1 Hw.
    assert (Hc : cachedCredentials s1 = Some c1 /\
                 (disk_reads s1 <= disk_reads s + 1)%nat).
    { destruct (readCredentials_cases CREDENTIALS_PATH t1 s) as [Hm | [c [Hc Hh]]].
      - rewrite Hm in H1. unfold miss in H1.
        destruct (file s); inversion H1; subst; clear H1.
        split; [reflexivity|]. unfold disk_reads at 1. simpl.
        rewrite <- app_assoc, disk_reads_app. simpl. lia.
      - rewrite Hh in H1. inversion H1; subst. split; [assumption | lia]. }
    destruct Hc as [Hc Hr]. split; [|assumption].
    now apply readCredentials_hit.
  - intros s t Hm. rewrite (readCredentials_miss _ _ _ Hm). unfold miss.
    assert (Ha : forall l, (disk_accesses s <
                  List.length (filter disk_io ((trace s ++ [existsSync]) ++ l)))%nat).
    { intros l. unfold disk_accesses. rewrite !filter_app, !length_app. simpl. lia. }
    destruct (file s); simpl.
    + split; [|now split]. unfold disk_accesses at 2. simpl.
      specialize (Ha []). now rewrite app_nil_r in Ha.
    + split; [|now split]. apply Ha.
    + split; [|now split]. apply Ha.
    + split; [apply Ha|]. repeat split.
      unfold disk_reads at 1. simpl. rewrite <- app_assoc, disk_reads_app.
      reflexivity.
Qed.

Lemma readCredentials_cache_witness :
  let s := initial (Document sample) None in
  let s1 := {| cachedCredentials := Some sample; lastReadTime := t0;
               file := Document sample; write_error := None;
               trace := [existsSync; readFileSync] |} in
  readCredentials home t0 s = (Return sample, s1) /\
  t0 + 29999 - lastReadTime s1 < CACHE_TTL_MS /\
  (readCredentials home (t0 + 29999) s1 = (Return sample, s1) /\
   (disk_reads s1 <= disk_reads s + 1)%nat) /\
  (cachedCredentials s1 = None \/ CACHE_TTL_MS <= t0 + 30000 - lastReadTime s1) /\
  let (r, s') := readCredentials home (t0 + 30000) s1 in
  (disk_accesses s1 < disk_accesses s')%nat /\
  r = Return sample /\ cachedCredentials s' = Some sample /\
  lastReadTime s' = t0 + 30000 /\ disk_reads s' = (disk_reads s1 + 1)%nat.
Proof.
  cbv zeta.
  split; [reflexivity|]. split; [reflexivity|].
  split.
  - apply (proj1 (readCredentials_cache home) (initial (Document sample) None)
             t0 (t0 + 29999) sample); reflexivity.
  - split; [right; discriminate|].
    apply (proj2 (readCredentials_cache home)
             {| cachedCredentials := Some sample; lastReadTime := t0;
                file := Document sample; write_error := None;
                trace := [existsSync; readFileSync] |} (t0 + 30000)).
    right. discriminate.
Defined.

End CredentialsSpec.

(** * Properties of the stream decoder *)
Module ProviderSpec.
Import JS Provider.

(** ** Lines *)

Fixpoint has_newline (s : string) : bool :=
  match s with
  | EmptyString => false
  | String c rest => Ascii.eqb c newline || has_newline rest
  end.

(** The lines of a text that a newline has ended: all but the last piece. *)
Definition complete_lines (text : string) : list string :=
  removelast (split text).

(** The piece after the last newline. *)
Definition fragment (text : string) : string := last (split text) "".

Section Terms.

Context {platform : Platform}.

(** The decoder state after the chunks of [body]. *)
Fixpoint decoder_after (d : TextDecoder) (body : list (list byte)) : TextDecoder :=
  match body with
  | [] => d
  | value :: rest => decoder_after (snd (decode d value)) rest
  end.

(** The parts a text gives rise to: its complete lines, handled in order
    from the initial variables. *)
Definition parts_of_text (text : string) : list (LanguageModelV1StreamPart number) :=
  snd (on_lines initial_vars (complete_lines text)).

Definition count_finish (out : list (LanguageModelV1StreamPart number)) : nat :=
  List.length (filter is_finish out).

(** [line] is a frame that carries [event]: a [data: ] line whose payload
    is not [[DONE]] and parses to [event]. *)
Definition frame_of (line : string) (event : json number) : Prop :=
  exists payload,
    line = "data: " ++ payload /\ payload <> "[DONE]" /\
    JSON_parse payload = Some event.

(** The [try] block on parsed events, one after the other. *)
Fixpoint on_events (vars : Vars number) (events : list (json number))
  : Vars number * list (LanguageModelV1StreamPart number) :=
  match events with
  | [] => (vars, [])
  | event :: rest =>
      let (vars1, out1) :=
        match on_event vars (of_json event) with
        | Some r => r
        | None => (vars, [])
        end in
      let (vars2, out2) := on_events vars1 rest in
      (vars2, (out1 ++ out2)%list)
  end.

(** The events of the specification's examples: a tool call whose
    arguments come in two fragments, and a text in two deltas between
    [message_start] and [message_delta]. *)
Definition tool_events : list (json number) :=
  [JObj [("type", JStr "content_block_start");
         ("content_block",
          JObj [("type", JStr "tool_use"); ("id", JStr "t1");
                ("name", JStr "weather")])];
   JObj [("type", JStr "content_block_delta");
         ("delta", JObj [("type", JStr "input_json_delta");
                         ("partial_json", JStr (String "{" (String "034" "loc")))])];
   JObj [("type", JStr "content_block_delta");
         ("delta", JObj [("type", JStr "input_json_delta");
                         ("partial_json",
                          JStr (String "034" (String ":" (String "034"
                                  ("NYC" ++ String "034" "}")))))])];
   JObj [("type", JStr "content_block_stop")]].

Definition tool_arguments : string :=
  String "{" (String "034" ("loc" ++ String "034" (String ":" (String "034"
    ("NYC" ++ String "034" "}"))))).

Definition text_events (input_tokens output_tokens : number) : list (json number) :=
  [JObj [("type", JStr "message_start");
         ("message", JObj [("usage", JObj [("input_tokens", JNum input_tokens)])])];
   JObj [("type", JStr "content_block_delta");
         ("delta", JObj [("type", JStr "text_delta"); ("text", JStr "He")])];
   JObj [("type", JStr "content_block_delta");
         ("delta", JObj [("type", JStr "text_delta"); ("text", JStr "llo")])];
   JObj [("type", JStr "message_delta");
         ("delta", JObj [("stop_reason", JStr "end_turn")]);
         ("usage", JObj [("output_tokens", JNum output_tokens)])]].

End Terms.

Lemma split_not_nil s : split s <> [].
Proof.
  destruct s as [|c r]; simpl; [discriminate|].
  destruct (Ascii.eqb c newline); [discriminate|].
  destruct (split r); discriminate.
Qed.

Lemma split_no_newline s : has_newline s = false -> split s = [s].
Proof.
  induction s as [|c r IH]; simpl; [reflexivity|].
  intros H. apply orb_false_iff in H. destruct H as [Hc Hr].
  rewrite Hc, (IH Hr). reflexivity.
Qed.

Lemma split_app_newline a b :
  split (a ++ String newline b) = (split a ++ split b)%list.
Proof.
  induction a as [|c r IH]; simpl.
  - reflexivity.
  - rewrite IH. destruct (Ascii.eqb c newline); [reflexivity|].
    destruct (split r) as [|h t] eqn:Hs; [now apply split_not_nil in Hs|].
    reflexivity.
Qed.

Lemma removelast_cons {A} (x : A) l : l <> [] -> removelast (x :: l) = x :: removelast l.
Proof. destruct l; [congruence | reflexivity]. Qed.

Lemma last_cons {A} (x d : A) l : l <> [] -> last (x :: l) d = last l d.
Proof. destruct l; [congruence | reflexivity]. Qed.

Lemma last_app_r {A} (l l' : list A) d : l' <> [] -> last (l ++ l') d = last l' d.
Proof.
  intros H. induction l as [|x l IH]; [reflexivity|].
  simpl app. rewrite last_cons; [assumption|]. now destruct l.
Qed.

Lemma split_app a b :
  split (a ++ b) = (complete_lines a ++ split (fragment a ++ b))%list.
Proof.
  unfold complete_lines, fragment.
  induction a as [|c r IH]; simpl split.
  - reflexivity.
  - destruct (Ascii.eqb c newline) eqn:Hc.
    + rewrite removelast_cons, last_cons by apply split_not_nil.
      simpl. now rewrite IH.
    + rewrite IH. destruct (split r) as [|h t] eqn:Hs;
        [now apply split_not_nil in Hs|].
      destruct t as [|h' t'].
      * simpl. rewrite Hc. reflexivity.
      * rewrite !removelast_cons, !last_cons by discriminate. reflexivity.
Qed.

Lemma fragment_no_newline s : has_newline (fragment s) = false.
Proof.
  unfold fragment. induction s as [|c r IH]; simpl split; [reflexivity|].
  destruct (Ascii.eqb c newline) eqn:Hc.
  - now rewrite last_cons by apply split_not_nil.
  - destruct (split r) as [|h t] eqn:Hs; [now apply split_not_nil in Hs|].
    destruct t as [|h' t'].
    + simpl in *. now rewrite Hc.
    + rewrite last_cons in IH by discriminate.
      now rewrite last_cons by discriminate.
Qed.

Lemma complete_lines_app a b :
  complete_lines (a ++ b) =
  (complete_lines a ++ complete_lines (fragment a ++ b))%list.
Proof.
  unfold complete_lines at 1. rewrite split_app.
  apply removelast_app, split_not_nil.
Qed.

Lemma fragment_app a b : fragment (a ++ b) = fragment (fragment a ++ b).
Proof.
  unfold fragment at 1. rewrite split_app.
  apply last_app_r, split_not_nil.
Qed.

Lemma complete_lines_app_newline a b :
  complete_lines (a ++ String newline b) = (split a ++ complete_lines b)%list.
Proof.
  unfold complete_lines. rewrite split_app_newline.
  apply removelast_app, split_not_nil.
Qed.

Lemma fragment_app_newline a b : fragment (a ++ String newline b) = fragment b.
Proof.
  unfold fragment. rewrite split_app_newline.
  apply last_app_r, split_not_nil.
Qed.

Lemma complete_lines_no_newline s : has_newline s = false -> complete_lines s = [].
Proof. intros H. unfold complete_lines. now rewrite split_no_newline. Qed.

Lemma fragment_no_newline_id s : has_newline s = false -> fragment s = s.
Proof. intros H. unfold fragment. now rewrite split_no_newline. Qed.

(** ** The loop, on any platform *)
Section Decoder.

Context {platform : Platform}.

Lemma on_lines_app vars l1 l2 :
  on_lines vars (l1 ++ l2) =
  let (vars1, out1) := on_lines vars l1 in
  let (vars2, out2) := on_lines vars1 l2 in
  (vars2, (out1 ++ out2)%list).
Proof.
  revert vars. induction l1 as [|l l1 IH]; intros vars; simpl.
  - now destruct (on_lines vars l2).
  - destruct (on_line vars l) as [v1 o1]. rewrite IH.
    destruct (on_lines v1 l1) as [v2 o2].
    destruct (on_lines v2 l2) as [v3 o3]. now rewrite app_assoc.
Qed.

Lemma on_lines_app_snd vars l1 l2 :
  snd (on_lines vars (l1 ++ l2)) =
  (snd (on_lines vars l1) ++ snd (on_lines (fst (on_lines vars l1)) l2))%list.
Proof.
  rewrite on_lines_app. destruct (on_lines vars l1) as [v1 o1]. simpl.
  now destruct (on_lines v1 l2).
Qed.

(** The loop does to the chunks what handling the complete lines of the
    decoded text does, however the text is cut into chunks. *)
Lemma start_from_text st body :
  has_newline (buffer st) = false ->
  start_from st body =
  let text := buffer st ++ decoded_from (decoder st) body in
  let (vars', out) := on_lines (vars st) (complete_lines text) in
  ({| decoder := decoder_after (decoder st) body;
      buffer := fragment text;
      vars := vars' |}, out).
Proof.
  revert st. induction body as [|value rest IH]; intros st Hb; simpl.
  - replace (buffer st ++ "") with (buffer st)
      by (clear; induction (buffer st) as [|c r IHr]; simpl; congruence).
    rewrite complete_lines_no_newline, fragment_no_newline_id by assumption.
    simpl. now destruct st.
  - unfold on_chunk.
    destruct (decode (decoder st) value) as [decoded d'] eqn:Hd. simpl.
    fold (complete_lines (buffer st ++ decoded)).
    fold (fragment (buffer st ++ decoded)).
    destruct (on_lines (vars st) (complete_lines (buffer st ++ decoded)))
      as [v1 o1] eqn:H1.
    rewrite IH by apply fragment_no_newline. simpl.
    assert (Happ : forall a b c : string, a ++ b ++ c = (a ++ b) ++ c).
    { clear. intros a b c. induction a; simpl; congruence. }
    rewrite Happ, (complete_lines_app (buffer st ++ decoded)),
      (fragment_app (buffer st ++ decoded)).
    rewrite (on_lines_app (vars st)), H1.
    now destruct (on_lines v1 _).
Qed.

Lemma start_text body :
  start body =
  let (vars', out) := on_lines initial_vars (complete_lines (decoded body)) in
  ({| decoder := decoder_after new_TextDecoder body;
      buffer := fragment (decoded body);
      vars := vars' |}, out).
Proof. unfold start. now rewrite start_from_text. Qed.

Lemma createStreamTransformer_text body :
  createStreamTransformer body = parts_of_text (decoded body).
Proof.
  unfold createStreamTransformer, parts_of_text. rewrite start_text.
  now destruct (on_lines _ _).
Qed.

(** ** One line *)

Lemma member_after_type (event type : value number) k :
  member event "type" = Some type -> member event k = Some (member_opt event k).
Proof.
  destruct event as [|[]]; simpl; try discriminate; intros _; reflexivity.
Qed.

Lemma is_string_eq (v : value number) literal :
  is_string v literal = true -> v = of_json (JStr literal).
Proof.
  destruct v as [|[]]; simpl; try discriminate.
  intros H. apply String.eqb_eq in H. now subst.
Qed.

Ltac by_type type :=
  repeat match goal with
         | |- context [is_string type ?k] =>
             let H := fresh "Hk" in
             destruct (is_string type k) eqn:H;
             [apply is_string_eq in H; subst type; simpl|]
         end.

Ltac by_cases :=
  repeat match goal with
         | |- context [match ?x with _ => _ end] =>
             lazymatch x with
             | context [match _ with _ => _ end] => fail
             | _ => destruct x
             end
         end.

Lemma on_event_count vars event :
  match on_event vars event with
  | Some (_, out) =>
      count_finish out =
      if is_string (member_opt event "type") "message_delta" then 1%nat else 0%nat
  | None => is_string (member_opt event "type") "message_delta" = false
  end.
Proof.
  unfold on_event, member_opt.
  destruct (member event "type") as [type|] eqn:Ht; [|reflexivity].
  rewrite !(member_after_type _ _ _ Ht).
  by_type type; try reflexivity; by_cases; reflexivity.
Qed.

Lemma on_line_count vars line :
  count_finish (snd (on_line vars line)) =
  if is_frame "message_delta" line then 1%nat else 0%nat.
Proof.
  unfold on_line, is_frame. generalize (slice line 6). intros data.
  destruct (startsWith line "data: "); [|reflexivity]. simpl.
  destruct (String.eqb data "[DONE]"); [reflexivity|]. simpl.
  destruct (JSON_parse data) as [event|]; [|reflexivity].
  pose proof (on_event_count vars (of_json event)) as H.
  destruct (on_event vars (of_json event)) as [[v out]|].
  - exact H.
  - rewrite H. reflexivity.
Qed.

Lemma on_lines_count vars lines :
  count_finish (snd (on_lines vars lines)) =
  List.length (filter (is_frame "message_delta") lines).
Proof.
  revert vars. induction lines as [|l ls IH]; intros vars; [reflexivity|].
  simpl. pose proof (on_line_count vars l) as Hl.
  destruct (on_line vars l) as [v1 o1]. specialize (IH v1).
  destruct (on_lines v1 ls) as [v2 o2]. simpl in *.
  unfold count_finish in *. rewrite filter_app, length_app, Hl, IH.
  now destruct (is_frame "message_delta" l).
Qed.

Lemma on_line_message_delta vars line :
  is_frame "message_delta" line = true ->
  exists reason p c, snd (on_line vars line) = [finish reason p c].
Proof.
  unfold is_frame, on_line. generalize (slice line 6). intros data H.
  apply andb_true_iff in H. destruct H as [H Hp].
  apply andb_true_iff in H. destruct H as [Hs Hd].
  rewrite Hs. simpl. apply negb_true_iff in Hd. rewrite Hd.
  destruct (JSON_parse data) as [event|]; [|discriminate].
  unfold member_opt in Hp.
  destruct (member (of_json event) "type") as [type|] eqn:Ht; [|discriminate].
  apply is_string_eq in Hp. subst type.
  unfold on_event. rewrite Ht. rewrite !(member_after_type _ _ _ Ht). simpl.
  eexists _, _, _. reflexivity.
Qed.

(** A line that can make the decoder emit a part: a frame of one of the
    three kinds whose branch enqueues. *)
Definition may_emit (line : string) : bool :=
  is_frame "content_block_delta" line || is_frame "content_block_stop" line
  || is_frame "message_delta" line.

Lemma on_event_silent vars event :
  match on_event vars event with
  | Some (_, out) =>
      is_string (member_opt event "type") "content_block_delta" = false ->
      is_string (member_opt event "type") "content_block_stop" = false ->
      is_string (member_opt event "type") "message_delta" = false ->
      out = []
  | None => True
  end.
Proof.
  unfold on_event, member_opt.
  destruct (member event "type") as [type|] eqn:Ht; [|exact I].
  rewrite !(member_after_type _ _ _ Ht).
  by_type type; by_cases; try exact I; intros; try reflexivity; discriminate.
Qed.

Lemma on_line_silent vars line :
  may_emit line = false -> snd (on_line vars line) = [].
Proof.
  unfold may_emit, is_frame, on_line. generalize (slice line 6). intros data H.
  destruct (startsWith line "data: "); [|reflexivity]. simpl in *.
  destruct (String.eqb data "[DONE]"); [reflexivity|]. simpl in *.
  destruct (JSON_parse data) as [event|]; [|reflexivity].
  apply orb_false_iff in H. destruct H as [H H3].
  apply orb_false_iff in H. destruct H as [H1 H2].
  pose proof (on_event_silent vars (of_json event)) as Hs.
  destruct (on_event vars (of_json event)) as [[v out]|]; [|reflexivity].
  exact (Hs H1 H2 H3).
Qed.

Lemma on_lines_silent vars lines :
  forallb (fun line => negb (may_emit line)) lines = true ->
  snd (on_lines vars lines) = [].
Proof.
  revert vars. induction lines as [|l ls IH]; intros vars H; [reflexivity|].
  simpl in H. apply andb_true_iff in H. destruct H as [Hl Hls].
  apply negb_true_iff in Hl.
  simpl. pose proof (on_line_silent vars l Hl) as Ho.
  destruct (on_line vars l) as [v1 o1]. specialize (IH v1 Hls).
  destruct (on_lines v1 ls) as [v2 o2]. simpl in *. now subst.
Qed.

Lemma on_line_malformed vars payload :
  JSON_parse payload = None ->
  on_line vars ("data: " ++ payload) = (vars, []).
Proof.
  intros H. unfold on_line, startsWith. simpl.
  replace (String.prefix "" payload) with true by now destruct payload.
  simpl. destruct (String.eqb payload "[DONE]"); [reflexivity|]. now rewrite H.
Qed.

Lemma append_assoc (a b c : string) : a ++ b ++ c = (a ++ b) ++ c.
Proof. induction a; simpl; congruence. Qed.

Lemma on_line_frame vars line event :
  frame_of line event ->
  on_line vars line =
  match on_event vars (of_json event) with
  | Some r => r
  | None => (vars, [])
  end.
Proof.
  intros (payload & -> & Hd & Hp). unfold on_line, startsWith. simpl.
  replace (String.prefix "" payload) with true by now destruct payload.
  simpl. apply String.eqb_neq in Hd. now rewrite Hd, Hp.
Qed.

Lemma on_lines_frames vars lines events :
  Forall2 frame_of lines events ->
  on_lines vars lines = on_events vars events.
Proof.
  intros H. revert vars. induction H as [|l e ls es Hl _ IH]; intros vars.
  - reflexivity.
  - simpl. rewrite (on_line_frame _ _ _ Hl).
    destruct (match on_event vars (of_json e) with
              | Some r => r
              | None => (vars, [])
              end) as [v1 o1].
    now rewrite IH.
Qed.

Lemma createStreamTransformer_frames body events :
  Forall2 frame_of (complete_lines (decoded body)) events ->
  createStreamTransformer body = snd (on_events initial_vars events).
Proof.
  intros H. rewrite createStreamTransformer_text. unfold parts_of_text.
  now rewrite (on_lines_frames _ _ _ H).
Qed.

Lemma tool_events_parts body :
  Forall2 frame_of (complete_lines (decoded body)) tool_events ->
  createStreamTransformer body =
  [tool_call (of_json (JStr "t1")) (of_json (JStr "weather")) tool_arguments].
Proof. intros H. now rewrite (createStreamTransformer_frames _ _ H). Qed.

Lemma tool_events_early body k :
  (k < 4)%nat ->
  Forall2 frame_of (complete_lines (decoded body)) (firstn k tool_events) ->
  createStreamTransformer body = [].
Proof.
  intros Hk H. rewrite (createStreamTransformer_frames _ _ H).
  destruct k as [|[|[|[|k]]]]; try reflexivity. lia.
Qed.

Lemma text_events_parts body input_tokens output_tokens :
  Forall2 frame_of (complete_lines (decoded body))
          (text_events input_tokens output_tokens) ->
  createStreamTransformer body =
  [text_delta (of_json (JStr "He")); text_delta (of_json (JStr "llo"));
   finish stop (of_json (JNum input_tokens)) (of_json (JNum output_tokens))].
Proof. intros H. now rewrite (createStreamTransformer_frames _ _ H). Qed.

(** ** Whole streams *)

(** C2, as the code has it: the decoder emits one finish event for each
    [message_delta] frame among the complete lines of the stream, so at most
    one when there is at most one such frame. Around a [message_delta]
    frame the output is the parts of the lines before it, then its finish
    event, then the parts of the lines after it: the finish event is the
    last event emitted whenever no later line is a [content_block_delta],
    [content_block_stop] or [message_delta] frame, whatever else follows
    ([event:] lines, blank lines, [[DONE]], a [message_stop] frame). *)
Theorem finish_per_message_delta body :
  count_finish (createStreamTransformer body) =
  List.length (filter (is_frame "message_delta") (complete_lines (decoded body))) /\
  ((List.length (filter (is_frame "message_delta")
                   (complete_lines (decoded body))) <= 1)%nat ->
   (count_finish (createStreamTransformer body) <= 1)%nat) /\
  (forall before line after,
      complete_lines (decoded body) = (before ++ line :: after)%list ->
      is_frame "message_delta" line = true ->
      exists reason p c,
        createStreamTransformer body =
          (snd (on_lines initial_vars before)
           ++ finish reason p c
           :: snd (on_lines (fst (on_lines initial_vars (before ++ [line]))) after))%list /\
        (forallb (fun l => negb (may_emit l)) after = true ->
         createStreamTransformer body =
           (snd (on_lines initial_vars before) ++ [finish reason p c])%list)).
Proof.
  assert (Hc : count_finish (createStreamTransformer body) =
               List.length (filter (is_frame "message_delta")
                              (complete_lines (decoded body)))).
  { rewrite createStreamTransformer_text. apply on_lines_count. }
  split; [exact Hc|]. split; [now rewrite Hc|].
  intros before line after Hl Hf.
  destruct (on_line_message_delta (fst (on_lines initial_vars before)) line Hf)
    as (reason & p & c & Hout).
  exists reason, p, c.
  assert (He : createStreamTransformer body =
               (snd (on_lines initial_vars before)
                ++ finish reason p c
                :: snd (on_lines (fst (on_lines initial_vars (before ++ [line])))
                          after))%list).
  { rewrite createStreamTransformer_text. unfold parts_of_text. rewrite Hl.
    replace (before ++ line :: after)%list with ((before ++ [line]) ++ after)%list
      by (now rewrite <- app_assoc).
    rewrite (on_lines_app_snd initial_vars (before ++ [line]) after).
    rewrite (on_lines_app_snd initial_vars before [line]). simpl.
    destruct (on_line (fst (on_lines initial_vars before)) line) as [v o].
    simpl in *. subst o. now rewrite <- app_assoc. }
  split; [exact He|].
  intros Ha. rewrite He. now rewrite (on_lines_silent _ _ Ha).
Qed.

(** A line [data: <payload>] whose payload [JSON.parse] rejects, put at the
    start of a line of the decoded text, changes nothing in what the decoder
    emits. *)
Lemma malformed_line_text body body' before after payload :
  JSON_parse payload = None ->
  has_newline payload = false ->
  before = "" \/ (exists b, before = b ++ String newline "") ->
  decoded body = before ++ after ->
  decoded body' = before ++ "data: " ++ payload ++ String newline after ->
  createStreamTransformer body' = createStreamTransformer body.
Proof.
  intros Hp Hn Hb Hd Hd'.
  rewrite !createStreamTransformer_text. unfold parts_of_text.
  set (line := "data: " ++ payload).
  assert (Hline : forall vars, on_line vars line = (vars, []))
    by (intros vars; now apply on_line_malformed).
  assert (Hnl : has_newline line = false) by exact Hn.
  assert (Hd'' : decoded body' = before ++ line ++ String newline after)
    by (rewrite Hd'; unfold line; now rewrite <- append_assoc).
  clearbody line. clear Hd'.
  assert (Hl : forall vars,
             snd (on_lines vars (complete_lines (line ++ String newline after))) =
             snd (on_lines vars (complete_lines after))).
  { intros vars. rewrite complete_lines_app_newline, split_no_newline by assumption.
    simpl. rewrite Hline. now destruct (on_lines vars (complete_lines after)). }
  destruct Hb as [-> | [b ->]].
  - simpl in Hd, Hd''. rewrite Hd, Hd''. apply Hl.
  - rewrite <- append_assoc in Hd, Hd''. simpl in Hd, Hd''. rewrite Hd, Hd''.
    rewrite !(complete_lines_app_newline b), !(on_lines_app_snd _ (split b)).
    f_equal. apply Hl.
Qed.

(** What follows the last newline of the decoded text is never handled as
    a line: the parts emitted are those of the text before it, and at the
    end of the stream the piece is what the buffer holds. *)
Lemma trailing_fragment_text body text tail :
  has_newline tail = false ->
  text = "" \/ (exists b, text = b ++ String newline "") ->
  decoded body = text ++ tail ->
  createStreamTransformer body = parts_of_text text /\
  buffer (fst (start body)) = tail.
Proof.
  intros Hn Ht Hd.
  rewrite createStreamTransformer_text, start_text. unfold parts_of_text.
  rewrite Hd.
  destruct (on_lines initial_vars (complete_lines (text ++ tail))) as [v o] eqn:Ho.
  simpl. destruct Ht as [-> | [b ->]].
  - simpl in *. rewrite complete_lines_no_newline in Ho by assumption.
    simpl in Ho. inversion Ho; subst. split; [reflexivity|].
    now apply fragment_no_newline_id.
  - rewrite <- !append_assoc in *. simpl append in *.
    rewrite complete_lines_app_newline in *. rewrite fragment_app_newline.
    rewrite complete_lines_no_newline in Ho by assumption.
    rewrite (complete_lines_no_newline "") by reflexivity.
    rewrite Ho. split; [reflexivity|]. now apply fragment_no_newline_id.
Qed.

End Decoder.

End ProviderSpec.

(** * The decoder on actual bytes *)
Module NodeSpec.
Import JS Provider ProviderSpec Node.

(** What the decoder emits for a stream, given as its bytes. *)
Definition of_bytes (stream : list byte) : list (LanguageModelV1StreamPart number) :=
  parts_of_text (fst (Utf8.decode Utf8.new stream)).

Definition is_nil {A} (l : list A) : bool :=
  match l with [] => true | _ :: _ => false end.

(** The UTF-8 decoder between two characters, once it has emitted one. *)
Definition ready : Utf8.t :=
  {| Utf8.code_point := 0; Utf8.bytes_seen := 0; Utf8.bytes_needed := 0;
     Utf8.lower := 128; Utf8.upper := 191; Utf8.BOM_seen := true |}.

(** States the decoder can be in: a sequence is open only with a lower
    boundary that is a continuation byte. *)
Definition wf (d : Utf8.t) : Prop :=
  Utf8.bytes_needed d = 0 \/ 128 <= Utf8.lower d.

Fixpoint all_ascii (s : string) : bool :=
  match s with
  | EmptyString => true
  | String c rest => (N_of_ascii c <? 128)%N && all_ascii rest
  end.

(** The streams of the specification's examples. *)
Definition text_stream : list byte :=
  (frame "{'type':'message_start','message':{'usage':{'input_tokens':10}}}"
   ++ frame "{'type':'content_block_delta','delta':{'type':'text_delta','text':'He'}}"
   ++ frame "{'type':'content_block_delta','delta':{'type':'text_delta','text':'llo'}}"
   ++ frame "{'type':'message_delta','delta':{'stop_reason':'end_turn'},'usage':{'output_tokens':3}}")%list.

Definition tool_stream : list byte :=
  (frame "{'type':'content_block_start','content_block':{'type':'tool_use','id':'t1','name':'weather'}}"
   ++ frame "{'type':'content_block_delta','delta':{'type':'input_json_delta','partial_json':'{\'loc'}}"
   ++ frame "{'type':'content_block_delta','delta':{'type':'input_json_delta','partial_json':'\':\'NYC\'}'}}"
   ++ frame "{'type':'content_block_stop'}")%list.

(** A stream with two [message_delta] frames and a text delta between. *)
Definition twice_finished : list byte :=
  (frame "{'type':'message_delta','delta':{'stop_reason':'end_turn'},'usage':{'output_tokens':3}}"
   ++ frame "{'type':'content_block_delta','delta':{'type':'text_delta','text':'more'}}"
   ++ frame "{'type':'message_delta','delta':{'stop_reason':'max_tokens'},'usage':{'output_tokens':5}}")%list.

(** A stream framed as the API sends it: an [event:] line before each
    [data:] line and a blank line after it, and [message_stop] last. *)
Definition framed_before : list string :=
  ["event: message_start";
   line "{'type':'message_start','message':{'usage':{'input_tokens':10}}}";
   "";
   "event: content_block_delta";
   line "{'type':'content_block_delta','delta':{'type':'text_delta','text':'Hi'}}";
   "";
   "event: message_delta"].

Definition framed_delta : string :=
  line "{'type':'message_delta','delta':{'stop_reason':'end_turn'},'usage':{'output_tokens':3}}".

Definition framed_after : list string :=
  [""; "event: message_stop"; line "{'type':'message_stop'}"; ""].

Definition framed_stream : list byte :=
  flat_map (fun l => list_byte_of_string (l ++ String newline ""))
           (framed_before ++ framed_delta :: framed_after).

(** Two text frames, and the same with the line [data: not-json] between
    them. *)
Definition hello : list byte :=
  (frame "{'type':'content_block_delta','delta':{'type':'text_delta','text':'He'}}"
   ++ frame "{'type':'content_block_delta','delta':{'type':'text_delta','text':'llo'}}")%list.

Definition hello_garbled : list byte :=
  (frame "{'type':'content_block_delta','delta':{'type':'text_delta','text':'He'}}"
   ++ frame "not-json"
   ++ frame "{'type':'content_block_delta','delta':{'type':'text_delta','text':'llo'}}")%list.

(** The first frame, and the second without the newline that would end it. *)
Definition hello_cut : list byte :=
  (frame "{'type':'content_block_delta','delta':{'type':'text_delta','text':'He'}}"
   ++ list_byte_of_string
        (line "{'type':'content_block_delta','delta':{'type':'text_delta','text':'llo'}}"))%list.

Lemma decode_app d a b :
  Utf8.decode d (a ++ b) =
  let (s1, d1) := Utf8.decode d a in
  let (s2, d2) := Utf8.decode d1 b in
  (s1 ++ s2, d2).
Proof.
  revert d. induction a as [|x a IH]; intros d; simpl.
  - now destruct (Utf8.decode d b).
  - destruct (Utf8.handler d _) as [cps d1].
    destruct (Utf8.serialize d1 cps) as [s1 d2]. rewrite IH.
    destruct (Utf8.decode d2 a) as [s2 d3].
    destruct (Utf8.decode d3 b) as [s3 d4].
    now rewrite append_assoc.
Qed.

Ltac split_ifs :=
  repeat match goal with
         | |- context [if ?c then _ else _] => destruct c eqn:?
         end.

Lemma lead_wf d b : wf (snd (Utf8.lead d b)).
Proof. unfold Utf8.lead, wf. split_ifs; simpl; auto; right; lia. Qed.

Lemma handler_wf d b : wf (snd (Utf8.handler d b)).
Proof.
  unfold Utf8.handler.
  destruct (Utf8.bytes_needed d =? 0); [apply lead_wf|].
  destruct ((b <? Utf8.lower d) || (Utf8.upper d <? b)).
  - pose proof (lead_wf (Utf8.reset d) b) as H.
    destruct (Utf8.lead (Utf8.reset d) b). exact H.
  - destruct (Utf8.bytes_seen d + 1 =? Utf8.bytes_needed d); simpl.
    + now left.
    + right. simpl. lia.
Qed.

Lemma serialize_fields d cps :
  let d' := snd (Utf8.serialize d cps) in
  Utf8.bytes_needed d' = Utf8.bytes_needed d /\ Utf8.lower d' = Utf8.lower d.
Proof.
  revert d. induction cps as [|cp cps IH]; intros d; simpl; [now split|].
  destruct (Utf8.BOM_seen d).
  - specialize (IH d). destruct (Utf8.serialize d cps). exact IH.
  - match goal with |- context [Utf8.serialize ?x cps] => specialize (IH x) end.
    destruct (Utf8.serialize _ cps). exact IH.
Qed.

Lemma decode_wf d bytes : wf d -> wf (snd (Utf8.decode d bytes)).
Proof.
  revert d. induction bytes as [|b bytes IH]; intros d Hd; simpl; [exact Hd|].
  pose proof (handler_wf d (Z.of_N (Byte.to_N b))) as Hh.
  destruct (Utf8.handler d _) as [cps d1].
  pose proof (serialize_fields d1 cps) as Hs.
  destruct (Utf8.serialize d1 cps) as [s1 d2]. simpl in *.
  assert (Hd2 : wf d2) by (unfold wf in *; destruct Hs as [-> ->]; exact Hh).
  specialize (IH d2 Hd2). destruct (Utf8.decode d2 bytes). exact IH.
Qed.

(** A newline byte ends whatever sequence is open and leaves the decoder
    ready. *)
Lemma decode_newline d :
  wf d -> exists s, Utf8.decode d [x0a]%byte = (s ++ String newline "", ready).
Proof.
  intros Hd. unfold Utf8.decode. change (Z.of_N (Byte.to_N x0a)) with 10.
  unfold Utf8.handler.
  destruct (Utf8.bytes_needed d =? 0) eqn:Hn.
  - exists "". simpl. destruct (Utf8.BOM_seen d) eqn:Hb; simpl;
      unfold Utf8.reset; simpl; try rewrite Hb; reflexivity.
  - destruct Hd as [Hd | Hd]; [rewrite Hd in Hn; discriminate|].
    assert (Hlt : (10 <? Utf8.lower d) = true) by (apply Z.ltb_lt; lia).
    rewrite Hlt. simpl. exists (Utf8.encode Utf8.REPLACEMENT).
    destruct (Utf8.BOM_seen d) eqn:Hb; simpl; unfold Utf8.reset; simpl;
      try rewrite Hb; reflexivity.
Qed.

(** ASCII text decodes to itself. *)
Lemma decode_ascii s :
  all_ascii s = true -> Utf8.decode ready (list_byte_of_string s) = (s, ready).
Proof.
  induction s as [|c r IH]; simpl; [reflexivity|].
  intros H. apply andb_true_iff in H. destruct H as [Hc Hr].
  assert (Hn : Byte.to_N (byte_of_ascii c) = N_of_ascii c).
  { apply Byte.to_of_N. symmetry. apply byte_of_ascii_via_N. }
  rewrite Hn. unfold Utf8.handler, Utf8.lead. simpl.
  apply N.ltb_lt in Hc.
  assert (Hle : (Z.of_N (N_of_ascii c) <=? 127) = true) by (apply Z.leb_le; lia).
  rewrite Hle. simpl. unfold Utf8.encode.
  assert (Hlt : (Z.of_N (N_of_ascii c) <? 128) = true) by (apply Z.ltb_lt; lia).
  rewrite Hlt. unfold Utf8.chr. rewrite N2Z.id, ascii_N_embedding.
  change (Utf8.reset ready) with ready.
  change (map byte_of_ascii (list_ascii_of_string r)) with (list_byte_of_string r).
  rewrite (IH Hr). reflexivity.
Qed.

Lemma decode_to_newline stream :
  exists b, Utf8.decode Utf8.new (stream ++ [x0a]%byte) = (b ++ String newline "", ready).
Proof.
  rewrite decode_app.
  assert (Hw : wf (snd (Utf8.decode Utf8.new stream)))
    by (apply decode_wf; now left).
  destruct (Utf8.decode Utf8.new stream) as [s0 d0]. simpl in Hw.
  destruct (decode_newline d0 Hw) as [s1 ->].
  exists (s0 ++ s1). now rewrite append_assoc.
Qed.

Lemma all_ascii_app a b : all_ascii (a ++ b) = all_ascii a && all_ascii b.
Proof. induction a as [|c r IH]; simpl; [reflexivity|]. now rewrite IH, andb_assoc. Qed.

Lemma list_byte_of_string_app a b :
  list_byte_of_string (a ++ b) = (list_byte_of_string a ++ list_byte_of_string b)%list.
Proof.
  induction a as [|c r IH]; [reflexivity|].
  change (list_byte_of_string (String c r ++ b))
    with (byte_of_ascii c :: list_byte_of_string (r ++ b)).
  now rewrite IH.
Qed.

(** ** Platforms that decode UTF-8 *)
Section Utf8Platform.

Variables (T : Type) (zero : T) (to_boolean : T -> bool) (to_string : T -> string).
Variable parse : string -> option (json T).

Local Abbreviation P := (Utf8.platform T zero to_boolean to_string parse).

Lemma decoded_from_concat d body :
  decoded_from (platform := P) d body = fst (Utf8.decode d (List.concat body)).
Proof.
  revert d. induction body as [|value rest IH]; intros d; simpl; [reflexivity|].
  rewrite decode_app. destruct (Utf8.decode d value) as [s1 d1]. rewrite IH.
  now destruct (Utf8.decode d1 (List.concat rest)).
Qed.

Lemma decoded_concat body stream :
  List.concat body = stream ->
  decoded (platform := P) body = fst (Utf8.decode Utf8.new stream).
Proof. intros <-. apply decoded_from_concat. Qed.

(** The text decoded from a stream splits at a newline byte. *)
Lemma decoded_after_newline body stream rest :
  List.concat body = (stream ++ x0a%byte :: rest)%list ->
  decoded (platform := P) body =
  fst (Utf8.decode Utf8.new (stream ++ [x0a]%byte)) ++ fst (Utf8.decode ready rest).
Proof.
  intros H. rewrite (decoded_concat _ _ H).
  change (stream ++ x0a%byte :: rest)%list
    with (stream ++ [x0a]%byte ++ rest)%list.
  rewrite app_assoc, decode_app.
  destruct (decode_to_newline stream) as [b ->].
  now destruct (Utf8.decode ready rest).
Qed.

Lemma malformed_line_bytes body body' stream rest payload :
  all_ascii payload = true ->
  has_newline payload = false ->
  parse payload = None ->
  List.concat body = (stream ++ x0a%byte :: rest)%list ->
  List.concat body' =
    (stream ++ x0a%byte ::
     list_byte_of_string ("data: " ++ payload ++ String newline "") ++ rest)%list ->
  Provider.createStreamTransformer (platform := P) body' =
  Provider.createStreamTransformer (platform := P) body.
Proof.
  intros Ha Hn Hp Hb Hb'.
  pose proof (decoded_after_newline _ _ _ Hb) as Hd.
  pose proof (decoded_after_newline _ _ _ Hb') as Hd'.
  rewrite (decode_app ready), decode_ascii in Hd'.
  2:{ change ("data: " ++ payload ++ String newline "")
        with ("data: " ++ (payload ++ String newline "")).
      rewrite !all_ascii_app, Ha. reflexivity. }
  destruct (decode_to_newline stream) as [b Hs]. rewrite Hs in Hd, Hd'.
  destruct (Utf8.decode ready rest) as [after d]. simpl in Hd, Hd'.
  apply (malformed_line_text (platform := P) body body'
           (b ++ String newline "") after payload Hp Hn).
  - right. now exists b.
  - exact Hd.
  - rewrite Hd'. f_equal. simpl. f_equal.
    rewrite <- append_assoc. reflexivity.
Qed.

Lemma trailing_fragment_bytes body body' stream tail :
  all_ascii tail = true ->
  has_newline tail = false ->
  List.concat body = (stream ++ x0a%byte :: list_byte_of_string tail)%list ->
  List.concat body' = (stream ++ [x0a]%byte)%list ->
  Provider.createStreamTransformer (platform := P) body =
  Provider.createStreamTransformer (platform := P) body' /\
  buffer (fst (start (platform := P) body)) = tail.
Proof.
  intros Ha Hn Hb Hb'.
  pose proof (decoded_after_newline _ _ _ Hb) as Hd.
  pose proof (decoded_concat _ _ Hb') as Hd'.
  rewrite decode_ascii in Hd by assumption.
  destruct (decode_to_newline stream) as [b Hs]. rewrite Hs in Hd, Hd'.
  simpl in Hd, Hd'.
  destruct (trailing_fragment_text (platform := P) body
              (b ++ String newline "") tail Hn) as [Hout Hbuf];
    [right; now exists b | exact Hd |].
  split; [|exact Hbuf].
  now rewrite Hout, (createStreamTransformer_text body'), Hd'.
Qed.

End Utf8Platform.

(** On this platform the parts emitted depend on the bytes of the stream
    only, not on how they arrive in chunks. *)
Lemma createStreamTransformer_bytes body stream :
  List.concat body = stream ->
  Node.createStreamTransformer body = of_bytes stream.
Proof.
  intros H. unfold Node.createStreamTransformer, of_bytes.
  rewrite createStreamTransformer_text. f_equal.
  exact (decoded_concat _ _ _ _ _ _ _ H).
Qed.

Lemma of_bytes_prefixes stream :
  forallb (fun n => is_nil (of_bytes (firstn n stream)))
          (seq 0 (List.length stream)) = true ->
  forall n, (n < List.length stream)%nat -> of_bytes (firstn n stream) = [].
Proof.
  intros H n Hn. rewrite forallb_forall in H.
  specialize (H n). rewrite in_seq in H.
  assert (Hin : (0 <= n < 0 + List.length stream)%nat) by lia.
  apply H in Hin. now destruct (of_bytes (firstn n stream)).
Qed.

Ltac frames :=
  repeat (apply Forall2_cons;
          [eexists; split; [reflexivity|]; split;
           [discriminate | vm_compute; reflexivity]|]);
  apply Forall2_nil.

Lemma tool_stream_frames :
  Forall2 frame_of (complete_lines (decoded [tool_stream])) tool_events.
Proof.
  replace (complete_lines (decoded [tool_stream])) with
    [line "{'type':'content_block_start','content_block':{'type':'tool_use','id':'t1','name':'weather'}}";
     line "{'type':'content_block_delta','delta':{'type':'input_json_delta','partial_json':'{\'loc'}}";
     line "{'type':'content_block_delta','delta':{'type':'input_json_delta','partial_json':'\':\'NYC\'}'}}";
     line "{'type':'content_block_stop'}"]
    by (vm_compute; reflexivity).
  frames.
Defined.

Lemma text_stream_frames :
  Forall2 frame_of (complete_lines (decoded [text_stream])) (text_events 10 3).
Proof.
  replace (complete_lines (decoded [text_stream])) with
    [line "{'type':'message_start','message':{'usage':{'input_tokens':10}}}";
     line "{'type':'content_block_delta','delta':{'type':'text_delta','text':'He'}}";
     line "{'type':'content_block_delta','delta':{'type':'text_delta','text':'llo'}}";
     line "{'type':'message_delta','delta':{'stop_reason':'end_turn'},'usage':{'output_tokens':3}}"]
    by (vm_compute; reflexivity).
  frames.
Defined.

(** C4: on any platform, a stream whose complete lines are frames carrying
    the four events of the tool call makes the decoder emit one part, the
    tool call [t1] to [weather] with the two fragments joined as its
    arguments; a stream that stops after fewer of these frames makes it emit
    nothing. On the bytes of the four frames, however they arrive in
    chunks, the decoder emits that one part, and as long as the last byte,
    the newline that ends the [content_block_stop] frame, has not arrived,
    it has emitted nothing. *)
Theorem tool_call_accumulated :
  (forall (P : Platform) (body : list (list byte)),
     Forall2 (frame_of (platform := P))
             (complete_lines (decoded (platform := P) body)) tool_events ->
     Provider.createStreamTransformer (platform := P) body =
     [tool_call (of_json (JStr "t1")) (of_json (JStr "weather")) tool_arguments]) /\
  (forall (P : Platform) (body : list (list byte)) (k : nat),
     (k < 4)%nat ->
     Forall2 (frame_of (platform := P))
             (complete_lines (decoded (platform := P) body))
             (firstn k tool_events) ->
     Provider.createStreamTransformer (platform := P) body = []) /\
  (forall body, List.concat body = tool_stream ->
     Node.createStreamTransformer body =
     [tool_call (str "t1") (str "weather") (qq "{'loc':'NYC'}")]) /\
  (forall body n, (n < List.length tool_stream)%nat ->
     List.concat body = firstn n tool_stream ->
     Node.createStreamTransformer body = []).
Proof.
  split; [|split; [|split]].
  - intros P body. apply tool_events_parts.
  - intros P body k. apply tool_events_early.
  - intros body Hb. apply (eq_trans (createStreamTransformer_bytes _ _ Hb)).
    vm_compute. reflexivity.
  - intros body n Hn Hb. apply (eq_trans (createStreamTransformer_bytes _ _ Hb)).
    apply of_bytes_prefixes; [|exact Hn].
    vm_compute. reflexivity.
Qed.

Lemma tool_call_accumulated_witness :
  let body := [firstn 100 tool_stream; skipn 100 tool_stream] in
  let early := [firstn 50 tool_stream;
                firstn (List.length tool_stream - 51) (skipn 50 tool_stream)] in
  Forall2 frame_of (complete_lines (decoded [tool_stream])) tool_events /\
  Provider.createStreamTransformer [tool_stream] =
    [tool_call (of_json (JStr "t1")) (of_json (JStr "weather")) tool_arguments] /\
  List.concat body = tool_stream /\
  Node.createStreamTransformer body =
    [tool_call (str "t1") (str "weather") (qq "{'loc':'NYC'}")] /\
  (List.length tool_stream - 1 < List.length tool_stream)%nat /\
  List.concat early = firstn (List.length tool_stream - 1) tool_stream /\
  Node.createStreamTransformer early = [].
Proof.
  cbv zeta.
  destruct tool_call_accumulated as (T1 & T2 & T3 & T4).
  assert (H1 : List.concat [firstn 100 tool_stream; skipn 100 tool_stream]
               = tool_stream) by (vm_compute; reflexivity).
  assert (H2 : (List.length tool_stream - 1 < List.length tool_stream)%nat)
    by (apply Nat.ltb_lt; vm_compute; reflexivity).
  assert (H3 : List.concat
                 [firstn 50 tool_stream;
                  firstn (List.length tool_stream - 51) (skipn 50 tool_stream)]
               = firstn (List.length tool_stream - 1) tool_stream)
    by (vm_compute; reflexivity).
  split; [exact tool_stream_frames|].
  split; [exact (T1 Node.platform _ tool_stream_frames)|].
  split; [exact H1|]. split; [exact (T3 _ H1)|].
  split; [exact H2|]. split; [exact H3|].
  exact (T4 _ _ H2 H3).
Defined.

(** C5: on any platform, a stream whose complete lines are frames carrying
    [message_start] with a prompt-token count, the text deltas [He] and
    [llo], and [message_delta] with stop reason [end_turn] and a
    completion-token count makes the decoder emit the two text deltas and
    then the finish part with reason stop and the two counts, and nothing
    else; so do the bytes of these four frames with counts 10 and 3,
    however they arrive in chunks. In general the parts emitted are those of
    the complete lines of the decoded text, handled one after the other:
    the parts of the lines of a first stretch of the stream come, in order,
    before the parts of the lines that follow it. *)
Theorem text_stream_order :
  (forall (P : Platform) (body : list (list byte)) (input_tokens output_tokens : number),
     Forall2 (frame_of (platform := P))
             (complete_lines (decoded (platform := P) body))
             (text_events input_tokens output_tokens) ->
     Provider.createStreamTransformer (platform := P) body =
     [text_delta (of_json (JStr "He")); text_delta (of_json (JStr "llo"));
      finish stop (of_json (JNum input_tokens)) (of_json (JNum output_tokens))]) /\
  (forall body, List.concat body = text_stream ->
     Node.createStreamTransformer body =
     [text_delta (str "He"); text_delta (str "llo");
      finish stop (num 10) (num 3)]) /\
  (forall (P : Platform) (body : list (list byte)),
     Provider.createStreamTransformer (platform := P) body =
     parts_of_text (platform := P) (decoded (platform := P) body)) /\
  (forall (P : Platform) (vars : Vars number) (first rest : list string),
     snd (on_lines (platform := P) vars (first ++ rest)) =
     (snd (on_lines (platform := P) vars first) ++
      snd (on_lines (platform := P)
             (fst (on_lines (platform := P) vars first)) rest))%list).
Proof.
  split; [|split; [|split]].
  - intros P body input_tokens output_tokens. apply text_events_parts.
  - intros body Hb. apply (eq_trans (createStreamTransformer_bytes _ _ Hb)).
    vm_compute. reflexivity.
  - intros P body. apply createStreamTransformer_text.
  - intros P vars first rest. apply on_lines_app_snd.
Qed.

Lemma text_stream_order_witness :
  let body := [firstn 7 text_stream; firstn 150 (skipn 7 text_stream);
               skipn 157 text_stream] in
  Forall2 frame_of (complete_lines (decoded [text_stream])) (text_events 10 3) /\
  Provider.createStreamTransformer [text_stream] =
    [text_delta (str "He"); text_delta (str "llo"); finish stop (num 10) (num 3)] /\
  List.concat body = text_stream /\
  Node.createStreamTransformer body =
    [text_delta (str "He"); text_delta (str "llo"); finish stop (num 10) (num 3)].
Proof.
  cbv zeta.
  destruct text_stream_order as (T1 & T2 & _).
  assert (H1 : List.concat [firstn 7 text_stream; firstn 150 (skipn 7 text_stream);
                            skipn 157 text_stream] = text_stream)
    by (vm_compute; reflexivity).
  split; [exact text_stream_frames|].
  split; [exact (T1 Node.platform _ _ _ text_stream_frames)|].
  split; [exact H1|]. exact (T2 _ H1).
Defined.

(** C2 as stated fails: a stream with two [message_delta] frames yields two
    finish parts, and the text delta that comes between the frames is
    emitted after the first of them. *)
Lemma two_message_deltas_two_finishes :
  Node.createStreamTransformer [twice_finished] =
    [finish stop (num 0) (num 3); text_delta (str "more");
     finish length (num 0) (num 5)] /\
  count_finish (Node.createStreamTransformer [twice_finished]) = 2%nat /\
  ~ (count_finish (Node.createStreamTransformer [twice_finished]) <= 1)%nat.
Proof.
  assert (H : Node.createStreamTransformer [twice_finished] =
              [finish stop (num 0) (num 3); text_delta (str "more");
               finish length (num 0) (num 5)]).
  { apply (eq_trans (createStreamTransformer_bytes [twice_finished] twice_finished
                       (app_nil_r _))).
    vm_compute. reflexivity. }
  rewrite H. split; [reflexivity|]. split; [reflexivity|].
  unfold count_finish. simpl. lia.
Qed.

Lemma finish_per_message_delta_witness :
  let body := [firstn 200 framed_stream; skipn 200 framed_stream] in
  let lines := complete_lines (decoded body) in
  count_finish (Provider.createStreamTransformer body) = 1%nat /\
  (List.length (filter (is_frame "message_delta") lines) <= 1)%nat /\
  (count_finish (Provider.createStreamTransformer body) <= 1)%nat /\
  lines = (framed_before ++ framed_delta :: framed_after)%list /\
  is_frame "message_delta" framed_delta = true /\
  forallb (fun l => negb (may_emit l)) framed_after = true /\
  snd (on_lines initial_vars framed_before) = [text_delta (str "Hi")] /\
  exists reason p c,
    Provider.createStreamTransformer body =
      (snd (on_lines initial_vars framed_before)
       ++ finish reason p c
       :: snd (on_lines (fst (on_lines initial_vars (framed_before ++ [framed_delta])))
                 framed_after))%list /\
    Provider.createStreamTransformer body =
      (snd (on_lines initial_vars framed_before) ++ [finish reason p c])%list.
Proof.
  cbv zeta.
  destruct (finish_per_message_delta (platform := Node.platform)
              [firstn 200 framed_stream; skipn 200 framed_stream])
    as (H1 & H2 & H3).
  assert (Hl : complete_lines
                 (decoded [firstn 200 framed_stream; skipn 200 framed_stream]) =
               (framed_before ++ framed_delta :: framed_after)%list)
    by (vm_compute; reflexivity).
  assert (Hn : List.length (filter (is_frame "message_delta")
                              (complete_lines
                                 (decoded [firstn 200 framed_stream;
                                           skipn 200 framed_stream]))) = 1%nat)
    by (vm_compute; reflexivity).
  assert (Hf : is_frame "message_delta" framed_delta = true)
    by (vm_compute; reflexivity).
  assert (Ha : forallb (fun l => negb (may_emit l)) framed_after = true)
    by (vm_compute; reflexivity).
  split; [exact (eq_trans H1 Hn)|].
  split; [rewrite Hn; apply le_n|].
  split; [apply H2; rewrite Hn; apply le_n|].
  split; [exact Hl|]. split; [exact Hf|]. split; [exact Ha|].
  split; [vm_compute; reflexivity|].
  destruct (H3 _ _ _ Hl Hf) as (reason & p & c & He & Hlast).
  exists reason, p, c. split; [exact He | exact (Hlast Ha)].
Defined.

Lemma hello_parts :
  Node.createStreamTransformer [hello] = [text_delta (str "He"); text_delta (str "llo")].
Proof.
  apply (eq_trans (createStreamTransformer_bytes [hello] hello (app_nil_r _))).
  vm_compute. reflexivity.
Qed.

(** C7: a line [data: <payload>] whose payload [JSON.parse] rejects, put
    at the start of a line, changes nothing in what the decoder emits. This
    holds on any platform for the decoded text of the two streams, and, where
    the text decoder is the UTF-8 one, for their bytes: the line, in ASCII,
    put after any newline byte of the stream, however the two streams arrive
    in chunks. *)
Theorem malformed_line_skipped :
  (forall (P : Platform) (body body' : list (list byte))
          (before after payload : string),
     JSON_parse (Platform := P) payload = None ->
     has_newline payload = false ->
     before = "" \/ (exists b, before = b ++ String newline "") ->
     decoded (platform := P) body = before ++ after ->
     decoded (platform := P) body' =
       before ++ "data: " ++ payload ++ String newline after ->
     Provider.createStreamTransformer (platform := P) body' =
     Provider.createStreamTransformer (platform := P) body) /\
  (forall (T : Type) (zero : T) (to_boolean : T -> bool) (to_string : T -> string)
          (parse : string -> option (json T))
          (body body' : list (list byte)) (stream rest : list byte)
          (payload : string),
     all_ascii payload = true ->
     has_newline payload = false ->
     parse payload = None ->
     List.concat body = (stream ++ x0a%byte :: rest)%list ->
     List.concat body' =
       (stream ++ x0a%byte ::
        list_byte_of_string ("data: " ++ payload ++ String newline "") ++ rest)%list ->
     Provider.createStreamTransformer
       (platform := Utf8.platform T zero to_boolean to_string parse) body' =
     Provider.createStreamTransformer
       (platform := Utf8.platform T zero to_boolean to_string parse) body).
Proof.
  split.
  - intros P body body' before after payload. apply malformed_line_text.
  - intros T zero to_boolean to_string parse body body' stream rest payload.
    apply malformed_line_bytes.
Qed.

Lemma malformed_line_skipped_witness :
  let first :=
    line "{'type':'content_block_delta','delta':{'type':'text_delta','text':'He'}}" in
  let second :=
    line "{'type':'content_block_delta','delta':{'type':'text_delta','text':'llo'}}" in
  let before := first ++ String newline "" in
  let after := second ++ String newline "" in
  JSON_parse "not-json" = None /\
  has_newline "not-json" = false /\
  (before = "" \/ (exists b, before = b ++ String newline "")) /\
  decoded [hello] = before ++ after /\
  decoded [hello_garbled] = before ++ "data: " ++ "not-json" ++ String newline after /\
  Provider.createStreamTransformer [hello_garbled] =
  Provider.createStreamTransformer [hello] /\
  all_ascii "not-json" = true /\
  List.concat [firstn 30 hello; skipn 30 hello] =
    (list_byte_of_string first ++ x0a%byte :: list_byte_of_string after)%list /\
  List.concat [firstn 90 hello_garbled; skipn 90 hello_garbled] =
    (list_byte_of_string first ++ x0a%byte ::
     list_byte_of_string ("data: " ++ "not-json" ++ String newline "") ++
     list_byte_of_string after)%list /\
  Node.createStreamTransformer [firstn 90 hello_garbled; skipn 90 hello_garbled] =
  Node.createStreamTransformer [firstn 30 hello; skipn 30 hello].
Proof.
  cbv zeta.
  destruct malformed_line_skipped as [Text Bytes].
  assert (H1 : JSON_parse "not-json" = None) by (vm_compute; reflexivity).
  assert (H2 : has_newline "not-json" = false) by reflexivity.
  assert (H3 : line "{'type':'content_block_delta','delta':{'type':'text_delta','text':'He'}}"
               ++ String newline "" = "" \/
               exists b, line "{'type':'content_block_delta','delta':{'type':'text_delta','text':'He'}}"
                         ++ String newline "" = b ++ String newline "")
    by (right; eexists; reflexivity).
  assert (H4 : decoded [hello] =
               (line "{'type':'content_block_delta','delta':{'type':'text_delta','text':'He'}}"
                ++ String newline "") ++
               (line "{'type':'content_block_delta','delta':{'type':'text_delta','text':'llo'}}"
                ++ String newline ""))
    by (vm_compute; reflexivity).
  assert (H5 : decoded [hello_garbled] =
               (line "{'type':'content_block_delta','delta':{'type':'text_delta','text':'He'}}"
                ++ String newline "") ++ "data: " ++ "not-json" ++
               String newline
                 (line "{'type':'content_block_delta','delta':{'type':'text_delta','text':'llo'}}"
                  ++ String newline ""))
    by (vm_compute; reflexivity).
  assert (H6 : all_ascii "not-json" = true) by reflexivity.
  assert (H7 : List.concat [firstn 30 hello; skipn 30 hello] =
               (list_byte_of_string
                  (line "{'type':'content_block_delta','delta':{'type':'text_delta','text':'He'}}")
                ++ x0a%byte ::
                list_byte_of_string
                  (line "{'type':'content_block_delta','delta':{'type':'text_delta','text':'llo'}}"
                   ++ String newline ""))%list)
    by (vm_compute; reflexivity).
  assert (H8 : List.concat [firstn 90 hello_garbled; skipn 90 hello_garbled] =
               (list_byte_of_string
                  (line "{'type':'content_block_delta','delta':{'type':'text_delta','text':'He'}}")
                ++ x0a%byte ::
                list_byte_of_string ("data: " ++ "not-json" ++ String newline "") ++
                list_byte_of_string
                  (line "{'type':'content_block_delta','delta':{'type':'text_delta','text':'llo'}}"
                   ++ String newline ""))%list)
    by (vm_compute; reflexivity).
  split; [exact H1|]. split; [exact H2|]. split; [exact H3|].
  split; [exact H4|]. split; [exact H5|].
  split; [exact (Text Node.platform _ _ _ _ _ H1 H2 H3 H4 H5)|].
  split; [exact H6|]. split; [exact H7|]. split; [exact H8|].
  exact (Bytes _ _ _ _ _ _ _ _ _ _ H6 H2 H1 H7 H8).
Defined.

(** C10: what follows the last newline of the stream is never handled as a
    line. On any platform the parts emitted are those of the decoded text up
    to its last newline, and at the end of the stream the piece after it is
    what the buffer holds, which nothing reads again. Where the text decoder
    is the UTF-8 one, a stream that ends in an ASCII piece without newline
    after a newline byte emits what the stream without that piece emits. *)
Theorem trailing_fragment_discarded :
  (forall (P : Platform) (body : list (list byte)) (text tail : string),
     has_newline tail = false ->
     text = "" \/ (exists b, text = b ++ String newline "") ->
     decoded (platform := P) body = text ++ tail ->
     Provider.createStreamTransformer (platform := P) body =
       parts_of_text (platform := P) text /\
     buffer (fst (start (platform := P) body)) = tail) /\
  (forall (T : Type) (zero : T) (to_boolean : T -> bool) (to_string : T -> string)
          (parse : string -> option (json T))
          (body body' : list (list byte)) (stream : list byte) (tail : string),
     all_ascii tail = true ->
     has_newline tail = false ->
     List.concat body = (stream ++ x0a%byte :: list_byte_of_string tail)%list ->
     List.concat body' = (stream ++ [x0a]%byte)%list ->
     Provider.createStreamTransformer
       (platform := Utf8.platform T zero to_boolean to_string parse) body =
     Provider.createStreamTransformer
       (platform := Utf8.platform T zero to_boolean to_string parse) body' /\
     buffer (fst (start (platform := Utf8.platform T zero to_boolean to_string parse)
                    body)) = tail).
Proof.
  split.
  - intros P body text tail. apply trailing_fragment_text.
  - intros T zero to_boolean to_string parse body body' stream tail.
    apply trailing_fragment_bytes.
Qed.

Lemma trailing_fragment_discarded_witness :
  let first :=
    line "{'type':'content_block_delta','delta':{'type':'text_delta','text':'He'}}" in
  let text := first ++ String newline "" in
  let tail :=
    line "{'type':'content_block_delta','delta':{'type':'text_delta','text':'llo'}}" in
  has_newline tail = false /\
  (text = "" \/ (exists b, text = b ++ String newline "")) /\
  decoded [hello_cut] = text ++ tail /\
  (Provider.createStreamTransformer [hello_cut] = parts_of_text text /\
   buffer (fst (start [hello_cut])) = tail) /\
  all_ascii tail = true /\
  List.concat [firstn 100 hello_cut; skipn 100 hello_cut] =
    (list_byte_of_string first ++ x0a%byte :: list_byte_of_string tail)%list /\
  List.concat [list_byte_of_string text] =
    (list_byte_of_string first ++ [x0a]%byte)%list /\
  Node.createStreamTransformer [firstn 100 hello_cut; skipn 100 hello_cut] =
  Node.createStreamTransformer [list_byte_of_string text] /\
  buffer (fst (start [firstn 100 hello_cut; skipn 100 hello_cut])) = tail.
Proof.
  cbv zeta.
  destruct trailing_fragment_discarded as [Text Bytes].
  assert (H1 : has_newline
                 (line "{'type':'content_block_delta','delta':{'type':'text_delta','text':'llo'}}")
               = false) by (vm_compute; reflexivity).
  assert (H2 : line "{'type':'content_block_delta','delta':{'type':'text_delta','text':'He'}}"
               ++ String newline "" = "" \/
               exists b, line "{'type':'content_block_delta','delta':{'type':'text_delta','text':'He'}}"
                         ++ String newline "" = b ++ String newline "")
    by (right; eexists; reflexivity).
  assert (H3 : decoded [hello_cut] =
               (line "{'type':'content_block_delta','delta':{'type':'text_delta','text':'He'}}"
                ++ String newline "") ++
               line "{'type':'content_block_delta','delta':{'type':'text_delta','text':'llo'}}")
    by (vm_compute; reflexivity).
  assert (H4 : all_ascii
                 (line "{'type':'content_block_delta','delta':{'type':'text_delta','text':'llo'}}")
               = true) by (vm_compute; reflexivity).
  assert (H5 : List.concat [firstn 100 hello_cut; skipn 100 hello_cut] =
               (list_byte_of_string
                  (line "{'type':'content_block_delta','delta':{'type':'text_delta','text':'He'}}")
                ++ x0a%byte ::
                list_byte_of_string
                  (line "{'type':'content_block_delta','delta':{'type':'text_delta','text':'llo'}}"))%list)
    by (vm_compute; reflexivity).
  assert (H6 : List.concat
                 [list_byte_of_string
                    (line "{'type':'content_block_delta','delta':{'type':'text_delta','text':'He'}}"
                     ++ String newline "")] =
               (list_byte_of_string
                  (line "{'type':'content_block_delta','delta':{'type':'text_delta','text':'He'}}")
                ++ [x0a]%byte)%list)
    by (vm_compute; reflexivity).
  split; [exact H1|]. split; [exact H2|]. split; [exact H3|].
  split; [exact (Text Node.platform _ _ _ H1 H2 H3)|].
  split; [exact H4|]. split; [exact H5|]. split; [exact H6|].
  exact (Bytes _ _ _ _ _ _ _ _ _ H4 H1 H5 H6).
Defined.

(** The cut stream yields the first text delta only; the second frame,
    which yields a part when a newline ends it, yields none. *)
Lemma hello_cut_parts :
  Node.createStreamTransformer [hello_cut] = [text_delta (str "He")].
Proof.
  apply (eq_trans (createStreamTransformer_bytes [hello_cut] hello_cut (app_nil_r _))).
  vm_compute. reflexivity.
Qed.

End NodeSpec.

(** * More on the credential manager: [getValidAccessToken] and how the
    operations compose *)
Module CredentialsMore.
Import Credentials Credentials.ClaudeCodeCredentials CredentialsSpec.

(** The cached record, when there is one, is the record the file holds. *)
Definition coherent (s : State) : Prop :=
  forall c, cachedCredentials s = Some c -> file s = Document c.

Definition is_fetch (e : IO) : bool :=
  match e with fetch _ => true | _ => false end.

(** The state after [console.log]. *)
Definition logged (s : State) : State := with_trace s (trace s ++ [console_log]).

(** A record whose token lapsed by [t0], on a disk that refuses writes. *)
Definition lapsed : ClaudeCodeCredentials :=
  {| claudeAiOauth :=
       {| accessToken := "at-old"; ClaudeCodeCredentials.refreshToken := "rt-old";
          expiresAt := 1699999000000;
          scopes := ["user:inference"];
          subscriptionType := None; rateLimitTier := None |};
     organizationUuid := "org-1" |}.

Definition lapsed_read_only : State :=
  {| cachedCredentials := Some lapsed; lastReadTime := t0;
     file := Document lapsed; write_error := Some EACCES; trace := [] |}.

Definition lapsed_writable : State :=
  {| cachedCredentials := Some lapsed; lastReadTime := t0;
     file := Document lapsed; write_error := None; trace := [] |}.

Lemma refreshToken_bad_body response now credentials s e :
  ok response = true ->
  json response = inl e ->
  Credentials.refreshToken response now credentials s =
  (Throw e,
   with_trace s (trace s ++ [fetch (ClaudeCodeCredentials.refreshToken
                                      (claudeAiOauth credentials))])).
Proof.
  intros Hok Hjson. unfold Credentials.refreshToken, bind, emit, throw. simpl.
  rewrite Hok, Hjson. reflexivity.
Qed.

Section Path.

Variable CREDENTIALS_PATH : string.

Lemma getValidAccessToken_eq n1 n2 n3 response s :
  getValidAccessToken CREDENTIALS_PATH n1 n2 n3 response s =
  match readCredentials CREDENTIALS_PATH n1 s with
  | (Throw e, s1) => (Throw e, s1)
  | (Return c, s1) =>
      if isTokenExpired n2 c then
        match Credentials.refreshToken response n3 c (logged s1) with
        | (Return c', s2) => (Return (accessToken (claudeAiOauth c')), s2)
        | (Throw e, s2) => (Throw e, s2)
        end
      else (Return (accessToken (claudeAiOauth c)), s1)
  end.
Proof.
  unfold getValidAccessToken, bind.
  destruct (readCredentials CREDENTIALS_PATH n1 s) as [[c|e] s1]; [|reflexivity].
  destruct (isTokenExpired n2 c); [|reflexivity].
  unfold emit, logged, with_trace. simpl.
  destruct (Credentials.refreshToken response n3 c _) as [[c'|e] s2]; reflexivity.
Qed.

Lemma fetches_app (s : State) t :
  filter is_fetch (trace s ++ t) = (filter is_fetch (trace s) ++ filter is_fetch t)%list.
Proof. apply filter_app. Qed.

(** A read makes no network call, writes nothing, and what it returns is
    then the cached record. *)
Lemma readCredentials_quiet now s :
  let (r, s1) := readCredentials CREDENTIALS_PATH now s in
  file s1 = file s /\ write_error s1 = write_error s /\
  filter is_fetch (trace s1) = filter is_fetch (trace s) /\
  match r with
  | Return c => cachedCredentials s1 = Some c /\
                (cachedCredentials s = Some c \/ file s = Document c)
  | Throw _ => cachedCredentials s1 = cachedCredentials s /\
               forall c, file s <> Document c
  end.
Proof.
  destruct (readCredentials_cases CREDENTIALS_PATH now s) as [Hm | [c0 [Hc Hh]]].
  - rewrite Hm. unfold miss.
    destruct (file s) eqn:Hf; simpl; rewrite ?fetches_app, <- ?app_assoc;
      simpl; rewrite ?filter_app, ?app_nil_r; simpl; rewrite ?app_nil_r;
      repeat split; auto; try discriminate.
  - rewrite Hh. repeat split; auto.
Qed.

Lemma readCredentials_known now s c :
  cachedCredentials s = Some c ->
  file s = Document c ->
  exists s1,
    readCredentials CREDENTIALS_PATH now s = (Return c, s1) /\
    cachedCredentials s1 = Some c /\ file s1 = Document c /\
    write_error s1 = write_error s /\
    filter is_fetch (trace s1) = filter is_fetch (trace s).
Proof.
  intros Hc Hf. pose proof (readCredentials_quiet now s) as H.
  destruct (readCredentials CREDENTIALS_PATH now s) as [[c1|e] s1].
  - destruct H as (H1 & H2 & H3 & H4 & H5).
    assert (c1 = c) by (destruct H5 as [H5|H5]; congruence). subst c1.
    exists s1. repeat split; congruence.
  - destruct H as (_ & _ & _ & _ & H5). now destruct (H5 c).
Qed.

(** A refresh makes one network call, with the refresh token of the record
    it is given, whatever the endpoint answers. *)
Lemma refreshToken_fetches response now credentials s :
  filter is_fetch (trace (snd (Credentials.refreshToken response now credentials s))) =
  (filter is_fetch (trace s) ++
   [fetch (ClaudeCodeCredentials.refreshToken (claudeAiOauth credentials))])%list.
Proof.
  destruct (ok response) eqn:Hok.
  - destruct (json response) as [e|data] eqn:Hjson.
    + rewrite (refreshToken_bad_body _ _ _ _ _ Hok Hjson). simpl.
      now rewrite filter_app.
    + destruct (write_error s) as [e|] eqn:Hw.
      * rewrite (refreshToken_not_persisted _ _ _ _ _ _ Hok Hjson Hw). simpl.
        rewrite !filter_app. simpl. now rewrite !app_nil_r.
      * rewrite (refreshToken_persisted _ _ _ _ _ Hok Hjson Hw). simpl.
        rewrite !filter_app. simpl. now rewrite !app_nil_r.
  - rewrite (refreshToken_not_ok _ _ _ _ Hok). simpl. now rewrite filter_app.
Qed.

Lemma coherent_read now s :
  coherent s -> coherent (snd (readCredentials CREDENTIALS_PATH now s)).
Proof.
  intros Hs. pose proof (readCredentials_quiet now s) as H.
  destruct (readCredentials CREDENTIALS_PATH now s) as [[c|e] s1]; simpl.
  - destruct H as (Hf & _ & _ & Hc & Hor). intros c' Hc'.
    rewrite Hc in Hc'. inversion Hc'; subst c'. rewrite Hf.
    destruct Hor as [Hor|Hor]; [now apply Hs | exact Hor].
  - destruct H as (Hf & _ & _ & Hc & _). intros c' Hc'.
    rewrite Hf. apply Hs. now rewrite <- Hc.
Qed.

Lemma coherent_refresh response now credentials s :
  coherent s -> coherent (snd (Credentials.refreshToken response now credentials s)).
Proof.
  intros Hs. destruct (ok response) eqn:Hok.
  - destruct (json response) as [e|data] eqn:Hjson.
    + rewrite (refreshToken_bad_body _ _ _ _ _ Hok Hjson). exact Hs.
    + destruct (write_error s) as [e|] eqn:Hw.
      * rewrite (refreshToken_not_persisted _ _ _ _ _ _ Hok Hjson Hw). exact Hs.
      * rewrite (refreshToken_persisted _ _ _ _ _ Hok Hjson Hw).
        intros c Hc. simpl in *. now inversion Hc.
  - rewrite (refreshToken_not_ok _ _ _ _ Hok). exact Hs.
Qed.

Lemma isTokenExpired_iff now c :
  isTokenExpired now c = true <->
  expiresAt (claudeAiOauth c) - TOKEN_REFRESH_BUFFER_MS <= now.
Proof. unfold isTokenExpired. rewrite Z.geb_le. reflexivity. Qed.

(** X1: when the read of the credentials fails (the file is missing, or
    cannot be read or parsed), [getValidAccessToken] throws the read error
    without any network call, and leaves cache and file as they were. *)
Theorem getValidAccessToken_read_failure n1 n2 n3 response s :
  cachedCredentials s = None \/ CACHE_TTL_MS <= n1 - lastReadTime s ->
  (forall c, file s <> Document c) ->
  let (r, s') := getValidAccessToken CREDENTIALS_PATH n1 n2 n3 response s in
  (exists e, r = Throw e) /\
  (file s = Absent ->
     r = Throw (not_found CREDENTIALS_PATH) /\
     trace s' = (trace s ++ [existsSync])%list) /\
  cachedCredentials s' = cachedCredentials s /\
  file s' = file s /\
  filter is_fetch (trace s') = filter is_fetch (trace s).
Proof.
  intros Hm Hf. rewrite getValidAccessToken_eq, (readCredentials_miss _ _ _ Hm).
  unfold miss. destruct (file s) eqn:Hfile.
  - repeat split; eauto. simpl. rewrite filter_app. simpl. apply app_nil_r.
  - repeat split; eauto; try discriminate. simpl.
    rewrite !filter_app. simpl. now rewrite !app_nil_r.
  - repeat split; eauto; try discriminate. simpl.
    rewrite !filter_app. simpl. now rewrite !app_nil_r.
  - now destruct (Hf c).
Qed.

(** X2: with a record in the cache, read less than 30 seconds ago, whose
    token is more than five minutes from its expiry, [getValidAccessToken]
    returns the cached access token and does nothing else: the state,
    trace included, is unchanged, whatever the file holds and whatever the
    endpoint would answer. *)
Theorem getValidAccessToken_cached n1 n2 n3 response s c :
  cachedCredentials s = Some c ->
  n1 - lastReadTime s < CACHE_TTL_MS ->
  n2 < expiresAt (claudeAiOauth c) - TOKEN_REFRESH_BUFFER_MS ->
  getValidAccessToken CREDENTIALS_PATH n1 n2 n3 response s =
  (Return (accessToken (claudeAiOauth c)), s).
Proof.
  intros Hc Hw He. rewrite getValidAccessToken_eq, (readCredentials_hit _ _ _ _ Hc Hw).
  destruct (isTokenExpired n2 c) eqn:Hx; [|reflexivity].
  apply isTokenExpired_iff in Hx. lia.
Qed.

(** X3: when the record read is within five minutes of its expiry or past
    it and the endpoint answers 2xx with a token document,
    [getValidAccessToken] returns the access token of that document, not the
    stored one, after exactly one network call, made with the stored
    refresh token; this does not depend on the write to the file. *)
Theorem getValidAccessToken_refreshes n1 n2 n3 response s c s1 data :
  readCredentials CREDENTIALS_PATH n1 s = (Return c, s1) ->
  expiresAt (claudeAiOauth c) - TOKEN_REFRESH_BUFFER_MS <= n2 ->
  ok response = true ->
  json response = inr data ->
  let (r, s2) := getValidAccessToken CREDENTIALS_PATH n1 n2 n3 response s in
  r = Return (access_token data) /\
  filter is_fetch (trace s2) =
  (filter is_fetch (trace s) ++
   [fetch (ClaudeCodeCredentials.refreshToken (claudeAiOauth c))])%list.
Proof.
  intros Hr He Hok Hjson. rewrite getValidAccessToken_eq, Hr.
  apply isTokenExpired_iff in He. rewrite He.
  pose proof (refreshToken_fetches response n3 c (logged s1)) as Hf.
  pose proof (readCredentials_quiet n1 s) as Hq. rewrite Hr in Hq.
  destruct Hq as (_ & Hw & Hq & _).
  assert (Hl : filter is_fetch (trace (logged s1)) = filter is_fetch (trace s)).
  { simpl. rewrite filter_app. simpl. now rewrite app_nil_r. }
  rewrite Hl in Hf.
  destruct (write_error (logged s1)) as [e|] eqn:Hwe.
  - rewrite (refreshToken_not_persisted _ _ _ _ _ _ Hok Hjson Hwe) in *.
    split; [reflexivity | exact Hf].
  - rewrite (refreshToken_persisted _ _ _ _ _ Hok Hjson Hwe) in *.
    split; [reflexivity | exact Hf].
Qed.

(** X4: the three operations keep the cache coherent with the file: if the
    cached record, when there is one, is the record the file holds, the same
    is true after [readCredentials], after [refreshToken] and after
    [getValidAccessToken], whatever the endpoint answers and whether or not
    the file can be written. *)
Theorem coherent_preserved now n1 n2 n3 response credentials s :
  coherent s ->
  coherent (snd (readCredentials CREDENTIALS_PATH now s)) /\
  coherent (snd (Credentials.refreshToken response now credentials s)) /\
  coherent (snd (getValidAccessToken CREDENTIALS_PATH n1 n2 n3 response s)).
Proof.
  intros Hs. split; [now apply coherent_read|].
  split; [now apply coherent_refresh|].
  rewrite getValidAccessToken_eq.
  pose proof (coherent_read n1 s Hs) as H1.
  destruct (readCredentials CREDENTIALS_PATH n1 s) as [[c|e] s1]; [|exact H1].
  simpl in H1. destruct (isTokenExpired n2 c); [|exact H1].
  assert (Hl : coherent (logged s1)) by exact H1.
  pose proof (coherent_refresh response n3 c (logged s1) Hl) as H2.
  destruct (Credentials.refreshToken response n3 c (logged s1)) as [[c'|e] s2];
    exact H2.
Qed.

(** X5: the record a refresh returns is later judged by [isTokenExpired]
    from its new expiry less five minutes on; at the time of the refresh
    itself it is already judged expired exactly when the reported lifetime
    is 300 seconds or less. *)
Theorem refreshed_token_expiry response now credentials s data :
  ok response = true ->
  json response = inr data ->
  exists c',
    fst (Credentials.refreshToken response now credentials s) = Return c' /\
    (forall later,
        isTokenExpired later c' = true <->
        now + expires_in data * 1000 - TOKEN_REFRESH_BUFFER_MS <= later) /\
    (isTokenExpired now c' = true <-> expires_in data <= 300).
Proof.
  intros Hok Hjson. exists (newCredentials now credentials data). split.
  - destruct (write_error s) as [e|] eqn:Hw.
    + now rewrite (refreshToken_not_persisted _ _ _ _ _ _ Hok Hjson Hw).
    + now rewrite (refreshToken_persisted _ _ _ _ _ Hok Hjson Hw).
  - split; [intros later|]; rewrite isTokenExpired_iff; simpl;
      unfold TOKEN_REFRESH_BUFFER_MS; lia.
Qed.

(** X6: once a refresh has been written to the file, every later
    [readCredentials], at whatever time, returns the refreshed record. *)
Theorem refreshToken_then_read response now credentials s data later :
  ok response = true ->
  json response = inr data ->
  write_error s = None ->
  fst (readCredentials CREDENTIALS_PATH later
         (snd (Credentials.refreshToken response now credentials s))) =
  Return (newCredentials now credentials data).
Proof.
  intros Hok Hjson Hw. rewrite (refreshToken_persisted _ _ _ _ _ Hok Hjson Hw).
  simpl.
  match goal with |- fst (readCredentials _ _ ?st) = _ =>
    destruct (readCredentials_known later st (newCredentials now credentials data)
                eq_refl eq_refl) as (s1 & -> & _)
  end.
  reflexivity.
Qed.

(** X7: when the file cannot be written, a refresh is forgotten: after a
    call of [getValidAccessToken] that refreshed a lapsed record, cache and
    file still hold the old record, and the next call, at any later time,
    makes a second network call with the old refresh token, even if the
    endpoint had handed out a new one. *)
Theorem refresh_repeats_after_failed_write
    n1 n2 n3 m1 m2 m3 response response' s c e data :
  cachedCredentials s = Some c ->
  file s = Document c ->
  write_error s = Some e ->
  expiresAt (claudeAiOauth c) - TOKEN_REFRESH_BUFFER_MS <= n2 ->
  n2 <= m2 ->
  ok response = true ->
  json response = inr data ->
  let s1 := snd (getValidAccessToken CREDENTIALS_PATH n1 n2 n3 response s) in
  let s2 := snd (getValidAccessToken CREDENTIALS_PATH m1 m2 m3 response' s1) in
  cachedCredentials s1 = Some c /\ file s1 = Document c /\
  filter is_fetch (trace s2) =
  (filter is_fetch (trace s) ++
   [fetch (ClaudeCodeCredentials.refreshToken (claudeAiOauth c));
    fetch (ClaudeCodeCredentials.refreshToken (claudeAiOauth c))])%list.
Proof.
  intros Hc Hf Hw He Hle Hok Hjson.
  assert (Hx1 : isTokenExpired n2 c = true) by (apply isTokenExpired_iff; lia).
  assert (Hx2 : isTokenExpired m2 c = true) by (apply isTokenExpired_iff; lia).
  cbv zeta. rewrite (getValidAccessToken_eq n1).
  destruct (readCredentials_known n1 s c Hc Hf) as (r1 & -> & Hc1 & Hf1 & Hw1 & Ht1).
  rewrite Hx1.
  assert (Hwl : write_error (logged r1) = Some e) by (simpl; congruence).
  rewrite (refreshToken_not_persisted _ _ _ _ _ _ Hok Hjson Hwl). simpl snd.
  match goal with |- cachedCredentials ?st = _ /\ _ => set (s1 := st) end.
  assert (Hcs : cachedCredentials s1 = Some c) by exact Hc1.
  assert (Hfs : file s1 = Document c) by exact Hf1.
  assert (Hts : filter is_fetch (trace s1) =
                (filter is_fetch (trace s) ++
                 [fetch (ClaudeCodeCredentials.refreshToken (claudeAiOauth c))])%list).
  { unfold s1. simpl. rewrite !filter_app. simpl. rewrite !app_nil_r.
    now rewrite Ht1. }
  split; [exact Hcs|]. split; [exact Hfs|].
  rewrite (getValidAccessToken_eq m1).
  destruct (readCredentials_known m1 s1 c Hcs Hfs) as (r2 & -> & _ & _ & _ & Ht2).
  rewrite Hx2.
  pose proof (refreshToken_fetches response' m3 c (logged r2)) as Hfe.
  assert (Hl : filter is_fetch (trace (logged r2)) = filter is_fetch (trace s1)).
  { simpl. rewrite filter_app. simpl. now rewrite app_nil_r. }
  rewrite Hl, Hts, <- app_assoc in Hfe. simpl in Hfe.
  destruct (Credentials.refreshToken response' m3 c (logged r2)) as [[c'|e'] s2];
    exact Hfe.
Qed.

End Path.

Lemma getValidAccessToken_read_failure_witness :
  let s := initial Absent None in
  (cachedCredentials s = None \/ CACHE_TTL_MS <= t0 - lastReadTime s) /\
  (forall c, file s <> Document c) /\
  let (r, s') := getValidAccessToken home t0 t0 t0 (granted None 3600) s in
  (exists e, r = Throw e) /\
  (file s = Absent ->
     r = Throw (not_found home) /\ trace s' = (trace s ++ [existsSync])%list) /\
  cachedCredentials s' = cachedCredentials s /\
  file s' = file s /\
  filter is_fetch (trace s') = filter is_fetch (trace s).
Proof.
  cbv zeta. split; [left; reflexivity|]. split; [discriminate|].
  apply (getValidAccessToken_read_failure home t0 t0 t0 (granted None 3600)
           (initial Absent None)); [left; reflexivity | discriminate].
Defined.

Lemma getValidAccessToken_cached_witness :
  cachedCredentials writable_disk = Some sample /\
  t0 + 1000 - lastReadTime writable_disk < CACHE_TTL_MS /\
  t0 - 200000 < expiresAt (claudeAiOauth sample) - TOKEN_REFRESH_BUFFER_MS /\
  getValidAccessToken home (t0 + 1000) (t0 - 200000) t0 denied writable_disk =
  (Return "at-old", writable_disk).
Proof.
  split; [reflexivity|]. split; [reflexivity|]. split; [reflexivity|].
  apply (getValidAccessToken_cached home (t0 + 1000) (t0 - 200000) t0 denied
           writable_disk sample); reflexivity.
Defined.

Lemma getValidAccessToken_refreshes_witness :
  readCredentials home (t0 + 1000) lapsed_read_only = (Return lapsed, lapsed_read_only) /\
  expiresAt (claudeAiOauth lapsed) - TOKEN_REFRESH_BUFFER_MS <= t0 + 1001 /\
  ok (granted (Some "rt-new") 3600) = true /\
  json (granted (Some "rt-new") 3600) = inr (grant (Some "rt-new") 3600) /\
  let (r, s2) := getValidAccessToken home (t0 + 1000) (t0 + 1001) (t0 + 1002)
                   (granted (Some "rt-new") 3600) lapsed_read_only in
  r = Return "at-new" /\
  filter is_fetch (trace s2) =
  (filter is_fetch (trace lapsed_read_only) ++ [fetch "rt-old"])%list.
Proof.
  split; [reflexivity|]. split; [discriminate|]. split; [reflexivity|].
  split; [reflexivity|].
  apply (getValidAccessToken_refreshes home (t0 + 1000) (t0 + 1001) (t0 + 1002)
           (granted (Some "rt-new") 3600) lapsed_read_only lapsed
           lapsed_read_only (grant (Some "rt-new") 3600));
    [reflexivity | discriminate | reflexivity | reflexivity].
Defined.

Lemma coherent_preserved_witness :
  coherent lapsed_read_only /\
  coherent (snd (readCredentials home (t0 + 40000) lapsed_read_only)) /\
  coherent (snd (Credentials.refreshToken (granted None 3600) (t0 + 40000) lapsed
                   lapsed_read_only)) /\
  coherent (snd (getValidAccessToken home t0 t0 t0 (granted None 3600)
                   lapsed_read_only)).
Proof.
  assert (H : coherent lapsed_read_only)
    by (intros c Hc; inversion Hc; reflexivity).
  split; [exact H|].
  exact (coherent_preserved home (t0 + 40000) t0 t0 t0 (granted None 3600) lapsed
           lapsed_read_only H).
Defined.

Lemma refreshed_token_expiry_witness :
  ok (granted None 300) = true /\
  json (granted None 300) = inr (grant None 300) /\
  exists c',
    fst (Credentials.refreshToken (granted None 300) t0 lapsed lapsed_writable) =
      Return c' /\
    (forall later,
        isTokenExpired later c' = true <->
        t0 + expires_in (grant None 300) * 1000 - TOKEN_REFRESH_BUFFER_MS <= later) /\
    (isTokenExpired t0 c' = true <-> expires_in (grant None 300) <= 300).
Proof.
  split; [reflexivity|]. split; [reflexivity|].
  apply (refreshed_token_expiry (granted None 300) t0 lapsed lapsed_writable
           (grant None 300)); reflexivity.
Defined.

Lemma refreshToken_then_read_witness :
  ok (granted (Some "rt-new") 3600) = true /\
  json (granted (Some "rt-new") 3600) = inr (grant (Some "rt-new") 3600) /\
  write_error lapsed_writable = None /\
  fst (readCredentials home (t0 + 90000)
         (snd (Credentials.refreshToken (granted (Some "rt-new") 3600) (t0 + 1000)
                 lapsed lapsed_writable))) =
  Return (newCredentials (t0 + 1000) lapsed (grant (Some "rt-new") 3600)).
Proof.
  split; [reflexivity|]. split; [reflexivity|]. split; [reflexivity|].
  apply (refreshToken_then_read home (granted (Some "rt-new") 3600) (t0 + 1000)
           lapsed lapsed_writable (grant (Some "rt-new") 3600) (t0 + 90000));
    reflexivity.
Defined.

Lemma refresh_repeats_after_failed_write_witness :
  cachedCredentials lapsed_read_only = Some lapsed /\
  file lapsed_read_only = Document lapsed /\
  write_error lapsed_read_only = Some EACCES /\
  expiresAt (claudeAiOauth lapsed) - TOKEN_REFRESH_BUFFER_MS <= t0 + 1 /\
  t0 + 1 <= t0 + 5001 /\
  ok (granted (Some "rt-new") 3600) = true /\
  json (granted (Some "rt-new") 3600) = inr (grant (Some "rt-new") 3600) /\
  let s1 := snd (getValidAccessToken home t0 (t0 + 1) (t0 + 2)
                   (granted (Some "rt-new") 3600) lapsed_read_only) in
  let s2 := snd (getValidAccessToken home (t0 + 5000) (t0 + 5001) (t0 + 5002)
                   denied s1) in
  cachedCredentials s1 = Some lapsed /\ file s1 = Document lapsed /\
  filter is_fetch (trace s2) =
  (filter is_fetch (trace lapsed_read_only) ++
   [fetch "rt-old"; fetch "rt-old"])%list.
Proof.
  split; [reflexivity|]. split; [reflexivity|]. split; [reflexivity|].
  split; [discriminate|]. split; [discriminate|]. split; [reflexivity|].
  split; [reflexivity|].
  apply (refresh_repeats_after_failed_write home t0 (t0 + 1) (t0 + 2)
           (t0 + 5000) (t0 + 5001) (t0 + 5002) (granted (Some "rt-new") 3600)
           denied lapsed_read_only lapsed EACCES (grant (Some "rt-new") 3600));
    try reflexivity; discriminate.
Defined.

End CredentialsMore.

(** * More on the stream decoder *)
Module ProviderMore.
Import JS Provider ProviderSpec.

Section Decoder.

Context {platform : Platform}.

(** A line the loop looks into: it has the [data: ] marker and its payload
    is not [[DONE]]. *)
Definition is_data_line (line : string) : bool :=
  startsWith line "data: " && negb (String.eqb (slice line 6) "[DONE]").

(** The text delta a line carries, if it is a [content_block_delta] frame
    with a [text_delta]. *)
Definition text_of_line (line : string) : list (LanguageModelV1StreamPart number) :=
  if is_data_line line then
    match JSON_parse (slice line 6) with
    | Some event =>
        let delta := member_opt (of_json event) "delta" in
        if is_string (member_opt (of_json event) "type") "content_block_delta"
           && is_string (member_opt delta "type") "text_delta"
        then [text_delta (member_opt delta "text")]
        else []
    | None => []
    end
  else [].

(** A line that opens a tool call: a [content_block_start] frame whose
    block is a [tool_use]. *)
Definition is_tool_start (line : string) : bool :=
  is_data_line line &&
  match JSON_parse (slice line 6) with
  | Some event =>
      is_string (member_opt (of_json event) "type") "content_block_start"
      && is_string (member_opt (member_opt (of_json event) "content_block") "type")
                   "tool_use"
  | None => false
  end.

Definition count_tool_calls (out : list (LanguageModelV1StreamPart number)) : nat :=
  List.length (filter is_tool_call out).

(** Whether a tool call is open. *)
Definition open (vars : Vars number) : nat :=
  if ToBoolean number number_ToBoolean (currentToolCallId vars) then 1%nat else 0%nat.

(** The finish reasons the decoder gives. *)
Definition mapped_reason (p : LanguageModelV1StreamPart number) : Prop :=
  match p with
  | finish reason _ _ =>
      reason = stop \/ reason = tool_calls \/ reason = length \/ reason = other
  | _ => True
  end.

(** Events by what the handler reads in them, whatever else they hold. *)
Definition tool_start (event : json number) (id name : value number) : Prop :=
  is_string (member_opt (of_json event) "type") "content_block_start" = true /\
  is_string (member_opt (member_opt (of_json event) "content_block") "type")
            "tool_use" = true /\
  member_opt (member_opt (of_json event) "content_block") "id" = id /\
  member_opt (member_opt (of_json event) "content_block") "name" = name.

Definition tool_fragment (event : json number) (fragment : string) : Prop :=
  is_string (member_opt (of_json event) "type") "content_block_delta" = true /\
  is_string (member_opt (member_opt (of_json event) "delta") "type")
            "input_json_delta" = true /\
  member_opt (member_opt (of_json event) "delta") "partial_json" =
    of_json (JStr fragment).

Definition block_stop (event : json number) : Prop :=
  is_string (member_opt (of_json event) "type") "content_block_stop" = true.

(** The variables once a tool call has been emitted. *)
Definition closed (vars : Vars number) : Vars number :=
  {| inputTokens := inputTokens vars;
     outputTokens := outputTokens vars;
     currentToolCallId := of_json (JStr "");
     currentToolCallName := of_json (JStr "");
     currentToolCallArgs := "" |}.

(** The variables while a tool call is being collected. *)
Definition collecting (id name : value number) (args : string) (vars : Vars number)
  : Vars number :=
  {| inputTokens := inputTokens vars;
     outputTokens := outputTokens vars;
     currentToolCallId := id;
     currentToolCallName := name;
     currentToolCallArgs := args |}.

(** Lines by the frame they carry. *)
Definition tool_start_line (id name : value number) (line : string) : Prop :=
  exists event, frame_of line event /\ tool_start event id name.

Definition tool_fragment_line (line fragment : string) : Prop :=
  exists event, frame_of line event /\ tool_fragment event fragment.

Definition block_stop_line (line : string) : Prop :=
  exists event, frame_of line event /\ block_stop event.

Ltac on_type type :=
  repeat match goal with
         | |- context [is_string type ?k] =>
             let H := fresh "Hk" in
             destruct (is_string type k) eqn:H;
             [apply is_string_eq in H; subst type; simpl|]
         end.

Ltac cases :=
  repeat match goal with
         | |- context [match ?x with _ => _ end] =>
             lazymatch x with
             | context [match _ with _ => _ end] => fail
             | _ => destruct x eqn:?
             end
         end.

Lemma on_line_not_data vars line :
  is_data_line line = false -> on_line vars line = (vars, []).
Proof.
  unfold is_data_line, on_line. generalize (slice line 6). intros data H.
  destruct (startsWith line "data: "); [|reflexivity]. simpl in *.
  apply negb_false_iff in H. now rewrite H.
Qed.

Lemma on_line_data vars line :
  is_data_line line = true ->
  on_line vars line =
  match JSON_parse (slice line 6) with
  | Some event =>
      match on_event vars (of_json event) with
      | Some r => r
      | None => (vars, [])
      end
  | None => (vars, [])
  end.
Proof.
  unfold is_data_line, on_line. generalize (slice line 6). intros data H.
  apply andb_true_iff in H. destruct H as [Hs Hd].
  rewrite Hs. simpl. apply negb_true_iff in Hd. rewrite Hd.
  now destruct (JSON_parse data).
Qed.

Lemma on_lines_data vars lines :
  on_lines vars (filter is_data_line lines) = on_lines vars lines.
Proof.
  revert vars. induction lines as [|l ls IH]; intros vars; [reflexivity|].
  simpl. destruct (is_data_line l) eqn:Hl.
  - simpl. destruct (on_line vars l) as [v1 o1]. now rewrite IH.
  - rewrite (on_line_not_data _ _ Hl), IH. now destruct (on_lines vars ls).
Qed.

Ltac on_members :=
  repeat match goal with
         | |- context [member (member_opt ?e ?k) _] =>
             destruct (member_opt e k) as [|[]] eqn:?; simpl
         end.

(** ** One event *)

Lemma on_event_length vars event :
  match on_event vars event with
  | Some (_, out) => (List.length out <= 1)%nat /\ Forall mapped_reason out
  | None => True
  end.
Proof.
  unfold on_event, member_opt.
  destruct (member event "type") as [type|] eqn:Ht; [|exact I].
  rewrite !(member_after_type _ _ _ Ht).
  on_type type; cases; simpl; try exact I;
    (split; [lia | repeat (constructor; [simpl; auto 6|]); constructor]).
Qed.

Lemma on_event_open vars event :
  match on_event vars event with
  | Some (vars', out) =>
      (count_tool_calls out + open vars' <=
       open vars +
       (if is_string (member_opt event "type") "content_block_start"
           && is_string (member_opt (member_opt event "content_block") "type")
                        "tool_use"
        then 1 else 0))%nat
  | None => True
  end.
Proof.
  unfold on_event, member_opt.
  destruct (member event "type") as [type|] eqn:Ht; [|exact I].
  rewrite !(member_after_type _ _ _ Ht).
  on_type type; cases; unfold count_tool_calls, open in *; simpl in *;
    cases; simpl; try lia.
Qed.

Lemma on_event_text vars event :
  filter is_text_delta
    (match on_event vars event with Some (_, out) => out | None => [] end) =
  if is_string (member_opt event "type") "content_block_delta"
     && is_string (member_opt (member_opt event "delta") "type") "text_delta"
  then [text_delta (member_opt (member_opt event "delta") "text")]
  else [].
Proof.
  unfold on_event, member_opt.
  destruct (member event "type") as [type|] eqn:Ht; [|reflexivity].
  rewrite !(member_after_type _ _ _ Ht).
  on_type type; on_members; cases; simpl; try reflexivity; try congruence.
Qed.

(** ** One line *)

Lemma on_line_length vars line :
  (List.length (snd (on_line vars line)) <= if is_data_line line then 1 else 0)%nat /\
  Forall mapped_reason (snd (on_line vars line)).
Proof.
  destruct (is_data_line line) eqn:Hd.
  - rewrite (on_line_data _ _ Hd).
    destruct (JSON_parse (slice line 6)) as [event|]; [|simpl; split; [lia|constructor]].
    pose proof (on_event_length vars (of_json event)) as H.
    destruct (on_event vars (of_json event)) as [[v o]|]; [exact H|].
    simpl. split; [lia|constructor].
  - rewrite (on_line_not_data _ _ Hd). simpl. split; [lia|constructor].
Qed.

Lemma on_line_open vars line :
  (count_tool_calls (snd (on_line vars line)) + open (fst (on_line vars line)) <=
   open vars + if is_tool_start line then 1 else 0)%nat.
Proof.
  unfold is_tool_start. destruct (is_data_line line) eqn:Hd.
  - rewrite (on_line_data _ _ Hd), andb_true_l.
    destruct (JSON_parse (slice line 6)) as [event|];
      [|unfold count_tool_calls; simpl; lia].
    pose proof (on_event_open vars (of_json event)) as H.
    destruct (on_event vars (of_json event)) as [[v o]|]; simpl;
      [exact H|unfold count_tool_calls; simpl; lia].
  - rewrite (on_line_not_data _ _ Hd). unfold count_tool_calls. simpl. lia.
Qed.

Lemma on_line_text vars line :
  filter is_text_delta (snd (on_line vars line)) = text_of_line line.
Proof.
  unfold text_of_line. destruct (is_data_line line) eqn:Hd.
  - rewrite (on_line_data _ _ Hd).
    destruct (JSON_parse (slice line 6)) as [event|]; [|reflexivity].
    pose proof (on_event_text vars (of_json event)) as H.
    destruct (on_event vars (of_json event)) as [[v o]|]; exact H.
  - now rewrite (on_line_not_data _ _ Hd).
Qed.

(** ** Lines in order *)

Lemma on_lines_length vars lines :
  (List.length (snd (on_lines vars lines)) <=
   List.length (filter is_data_line lines))%nat /\
  Forall mapped_reason (snd (on_lines vars lines)).
Proof.
  revert vars. induction lines as [|l ls IH]; intros vars;
    [simpl; split; [lia|constructor]|].
  simpl. pose proof (on_line_length vars l) as [Hl Hr].
  destruct (on_line vars l) as [v1 o1]. specialize (IH v1).
  destruct (on_lines v1 ls) as [v2 o2]. simpl in *. destruct IH as [IHl IHr].
  split.
  - rewrite length_app. destruct (is_data_line l); simpl; lia.
  - apply Forall_app. now split.
Qed.

Lemma on_lines_open vars lines :
  (count_tool_calls (snd (on_lines vars lines)) + open (fst (on_lines vars lines)) <=
   open vars + List.length (filter is_tool_start lines))%nat.
Proof.
  revert vars. induction lines as [|l ls IH]; intros vars;
    [unfold count_tool_calls; simpl; lia|].
  simpl. pose proof (on_line_open vars l) as Hl.
  destruct (on_line vars l) as [v1 o1]. specialize (IH v1).
  destruct (on_lines v1 ls) as [v2 o2]. simpl in *.
  unfold count_tool_calls in *. rewrite filter_app, length_app.
  destruct (is_tool_start l); simpl; lia.
Qed.

Lemma on_lines_text vars lines :
  filter is_text_delta (snd (on_lines vars lines)) = flat_map text_of_line lines.
Proof.
  revert vars. induction lines as [|l ls IH]; intros vars; [reflexivity|].
  simpl. pose proof (on_line_text vars l) as Hl.
  destruct (on_line vars l) as [v1 o1]. specialize (IH v1).
  destruct (on_lines v1 ls) as [v2 o2]. simpl in *.
  now rewrite filter_app, Hl, IH.
Qed.

(** ** A tool call, from its start to its stop *)

Lemma is_string_member (v : value number) k literal k' :
  is_string (member_opt v k) literal = true ->
  member v k' = Some (member_opt v k').
Proof. unfold member_opt. destruct v as [|[]]; simpl; try discriminate; reflexivity. Qed.

Lemma on_line_tool_start vars line id name :
  tool_start_line id name line ->
  on_line vars line = (collecting id name "" vars, []).
Proof.
  intros (event & Hf & Ht & Hc & <- & <-). rewrite (on_line_frame _ _ _ Hf).
  unfold on_event.
  rewrite (is_string_member _ _ _ "type" Ht),
          (is_string_member _ _ _ "content_block" Ht),
          (is_string_member _ _ _ "id" Hc),
          (is_string_member _ _ _ "name" Hc), Hc.
  apply is_string_eq in Ht. rewrite Ht. reflexivity.
Qed.

Lemma on_line_tool_fragment vars line fragment :
  tool_fragment_line line fragment ->
  on_line vars line =
  (collecting (currentToolCallId vars) (currentToolCallName vars)
              (currentToolCallArgs vars ++ fragment) vars, []).
Proof.
  intros (event & Hf & Ht & Hd & Hp). rewrite (on_line_frame _ _ _ Hf).
  unfold on_event.
  rewrite (is_string_member _ _ _ "type" Ht),
          (is_string_member _ _ _ "delta" Ht),
          (is_string_member _ _ _ "partial_json" Hd), Hp, Hd.
  apply is_string_eq in Ht, Hd. rewrite Ht, Hd. reflexivity.
Qed.

Lemma on_line_block_stop vars line :
  block_stop_line line ->
  on_line vars line =
  if ToBoolean number number_ToBoolean (currentToolCallId vars)
  then (closed vars,
        [tool_call (currentToolCallId vars) (currentToolCallName vars)
                   (currentToolCallArgs vars)])
  else (vars, []).
Proof.
  intros (event & Hf & Ht). rewrite (on_line_frame _ _ _ Hf).
  unfold on_event, block_stop in *.
  rewrite (is_string_member _ _ _ "type" Ht).
  apply is_string_eq in Ht. rewrite Ht. simpl.
  now destruct (ToBoolean number number_ToBoolean (currentToolCallId vars)).
Qed.

Lemma on_lines_tool_fragments vars lines fragments :
  Forall2 tool_fragment_line lines fragments ->
  on_lines vars lines =
  (collecting (currentToolCallId vars) (currentToolCallName vars)
              (currentToolCallArgs vars ++ String.concat "" fragments) vars, []).
Proof.
  intros H. revert vars. induction H as [|l f ls fs Hl _ IH]; intros vars.
  - simpl. destruct vars; unfold collecting; simpl. f_equal. f_equal.
    clear. induction currentToolCallArgs0; simpl; congruence.
  - simpl on_lines. rewrite (on_line_tool_fragment _ _ _ Hl), IH.
    unfold collecting. simpl. f_equal. f_equal.
    rewrite <- append_assoc. f_equal.
    destruct fs as [|f' fs']; simpl; [|reflexivity].
    clear. induction f; simpl; congruence.
Qed.

Lemma on_lines_tool_call vars start lines stop id name fragments :
  tool_start_line id name start ->
  Forall2 tool_fragment_line lines fragments ->
  block_stop_line stop ->
  on_lines vars (start :: lines ++ [stop]) =
  if ToBoolean number number_ToBoolean id
  then (closed vars, [tool_call id name (String.concat "" fragments)])
  else (collecting id name (String.concat "" fragments) vars, []).
Proof.
  intros Hs Hl Hp. simpl on_lines. rewrite (on_line_tool_start _ _ _ _ Hs).
  rewrite on_lines_app, (on_lines_tool_fragments _ _ _ Hl). simpl.
  rewrite (on_line_block_stop _ _ Hp). simpl.
  now destruct (ToBoolean number number_ToBoolean id).
Qed.

(** ** Whole streams *)

(** X8: only the lines that have the [data: ] marker and a payload other
    than [[DONE]] count: the decoder emits what it would emit were all
    other lines (blank lines, [event:] lines, comments, the [[DONE]]
    sentinel) taken out of the stream. *)
Theorem only_data_lines_count body :
  createStreamTransformer body =
  snd (on_lines initial_vars (filter is_data_line (complete_lines (decoded body)))).
Proof.
  rewrite createStreamTransformer_text. unfold parts_of_text.
  now rewrite on_lines_data.
Qed.

(** X9: a line gives rise to at most one part: the decoder never emits
    more parts than the stream has complete [data: ] lines. *)
Theorem at_most_one_part_per_line body :
  (List.length (createStreamTransformer body) <=
   List.length (filter is_data_line (complete_lines (decoded body))))%nat.
Proof.
  rewrite createStreamTransformer_text. apply on_lines_length.
Qed.

(** X10: whatever [stop_reason] a [message_delta] frame carries, the finish
    part has one of the reasons stop, tool-calls, length and other; the
    decoder never reports content-filter, error or unknown. *)
Theorem finish_reasons_mapped body :
  Forall mapped_reason (createStreamTransformer body).
Proof.
  rewrite createStreamTransformer_text. apply on_lines_length.
Qed.

(** X11: the decoder emits no more tool calls than the stream has
    [content_block_start] frames of kind [tool_use]: a
    [content_block_stop] with no tool call open emits nothing, and one that
    emits a tool call closes it. *)
Theorem tool_calls_need_a_start body :
  (count_tool_calls (createStreamTransformer body) <=
   List.length (filter is_tool_start (complete_lines (decoded body))))%nat.
Proof.
  rewrite createStreamTransformer_text. unfold parts_of_text.
  pose proof (on_lines_open initial_vars (complete_lines (decoded body))) as H.
  change (open initial_vars) with 0%nat in H. lia.
Qed.

(** X12: text deltas pass through one for one: the text-delta parts of the
    output are, in order, the texts of the [text_delta] frames of the
    stream, whatever else the stream holds and whatever tool call is open. *)
Theorem text_deltas_pass_through body :
  filter is_text_delta (createStreamTransformer body) =
  flat_map text_of_line (complete_lines (decoded body)).
Proof.
  rewrite createStreamTransformer_text. apply on_lines_text.
Qed.

(** X13: a tool call is put together from its frames wherever it stands in
    the stream and whatever came before: a [content_block_start] of kind
    [tool_use] with a truthy id, any number of [input_json_delta]
    fragments and a [content_block_stop] give exactly one tool-call part
    with that id and name and the fragments joined in order as arguments,
    between the parts of what came before and the parts of what follows;
    the tool call is closed afterwards. With a falsy id (absent, null or
    the empty string) the same frames give no part at all. *)
Theorem tool_call_assembled body before start lines stop after id name fragments :
  complete_lines (decoded body) = (before ++ start :: lines ++ stop :: after)%list ->
  tool_start_line id name start ->
  Forall2 tool_fragment_line lines fragments ->
  block_stop_line stop ->
  let vars := fst (on_lines initial_vars before) in
  createStreamTransformer body =
  if ToBoolean number number_ToBoolean id
  then (snd (on_lines initial_vars before)
        ++ tool_call id name (String.concat "" fragments)
        :: snd (on_lines (closed vars) after))%list
  else (snd (on_lines initial_vars before)
        ++ snd (on_lines (collecting id name (String.concat "" fragments) vars)
                         after))%list.
Proof.
  intros Hb Hs Hl Hp vars. rewrite createStreamTransformer_text.
  unfold parts_of_text. rewrite Hb.
  replace (before ++ start :: lines ++ stop :: after)%list
    with (before ++ (start :: lines ++ [stop]) ++ after)%list
    by (simpl; now rewrite <- app_assoc).
  rewrite !on_lines_app_snd. fold vars.
  rewrite (on_lines_tool_call _ _ _ _ _ _ _ Hs Hl Hp).
  destruct (ToBoolean number number_ToBoolean id); simpl; reflexivity.
Qed.

(** ** Token counts *)

(** A finish part that reports [tokens] as the prompt tokens. *)
Definition reports (tokens : value number) (p : LanguageModelV1StreamPart number) : Prop :=
  match p with
  | finish _ promptTokens _ => promptTokens = tokens
  | _ => True
  end.

Lemma on_event_prompt vars event :
  match on_event vars event with
  | Some (vars', out) =>
      Forall (reports (inputTokens vars)) out /\
      (is_string (member_opt event "type") "message_start" = false ->
       inputTokens vars' = inputTokens vars)
  | None => True
  end.
Proof.
  unfold on_event, member_opt.
  destruct (member event "type") as [type|] eqn:Ht; [|exact I].
  rewrite !(member_after_type _ _ _ Ht).
  on_type type; cases; simpl; try exact I;
    (split; [repeat (constructor; [simpl; auto|]); constructor
            | intros; try reflexivity; discriminate]).
Qed.

Lemma on_line_prompt vars line :
  Forall (reports (inputTokens vars)) (snd (on_line vars line)) /\
  (is_frame "message_start" line = false ->
   inputTokens (fst (on_line vars line)) = inputTokens vars).
Proof.
  destruct (is_data_line line) eqn:Hd.
  - rewrite (on_line_data _ _ Hd). unfold is_frame.
    fold (is_data_line line). rewrite Hd, andb_true_l.
    destruct (JSON_parse (slice line 6)) as [event|];
      [|simpl; split; [constructor|reflexivity]].
    pose proof (on_event_prompt vars (of_json event)) as H.
    destruct (on_event vars (of_json event)) as [[v o]|]; [exact H|].
    simpl. split; [constructor|reflexivity].
  - rewrite (on_line_not_data _ _ Hd). simpl. split; [constructor|reflexivity].
Qed.

Lemma on_lines_prompt vars lines :
  forallb (fun line => negb (is_frame "message_start" line)) lines = true ->
  Forall (reports (inputTokens vars)) (snd (on_lines vars lines)) /\
  inputTokens (fst (on_lines vars lines)) = inputTokens vars.
Proof.
  revert vars. induction lines as [|l ls IH]; intros vars H;
    [simpl; split; [constructor|reflexivity]|].
  simpl in H. apply andb_true_iff in H. destruct H as [Hl Hls].
  apply negb_true_iff in Hl.
  simpl. pose proof (on_line_prompt vars l) as [Ho Hv]. specialize (Hv Hl).
  destruct (on_line vars l) as [v1 o1]. specialize (IH v1 Hls).
  destruct (on_lines v1 ls) as [v2 o2]. simpl in *. destruct IH as [IHo IHv].
  rewrite Hv in IHo, IHv. split; [|exact IHv].
  apply Forall_app. now split.
Qed.

(** X23: the prompt-token count comes from [message_start] frames only: on
    a stream without such a frame every finish part reports the initial
    count, the literal [0], as its prompt tokens, whatever the other
    frames hold. *)
Theorem prompt_tokens_need_message_start body :
  forallb (fun line => negb (is_frame "message_start" line))
          (complete_lines (decoded body)) = true ->
  Forall (reports (of_json (JNum zero))) (createStreamTransformer body).
Proof.
  intros H. rewrite createStreamTransformer_text.
  exact (proj1 (on_lines_prompt initial_vars _ H)).
Qed.

End Decoder.

End ProviderMore.

(** * The decoder on actual bytes, continued *)
Module NodeMore.
Import JS Provider ProviderSpec ProviderMore Node NodeSpec.

Section Utf8Platform.

Variables (T : Type) (zero : T) (to_boolean : T -> bool) (to_string : T -> string).
Variable parse : string -> option (json T).

Local Abbreviation P := (Utf8.platform T zero to_boolean to_string parse).

Lemma decoder_after_concat d body :
  decoder_after (platform := P) d body = snd (Utf8.decode d (List.concat body)).
Proof.
  revert d. induction body as [|value rest IH]; intros d; simpl; [reflexivity|].
  rewrite decode_app. destruct (Utf8.decode d value) as [s1 d1]. simpl.
  rewrite IH. now destruct (Utf8.decode d1 (List.concat rest)).
Qed.

(** X14: with a UTF-8 [TextDecoder] the decoder does not depend on how the
    bytes of the stream arrive in chunks: two bodies with the same bytes
    leave the loop in the same state (decoder, buffer and variables) and
    give the same parts, also when a chunk ends inside a line or inside
    the bytes of one character. *)
Theorem chunking_is_immaterial body body' :
  List.concat body = List.concat body' ->
  start (platform := P) body = start (platform := P) body'.
Proof.
  intros H. rewrite !start_text.
  rewrite (decoded_concat _ _ _ _ _ body _ H),
          (decoded_concat _ _ _ _ _ body' _ eq_refl).
  now rewrite !decoder_after_concat, H.
Qed.

End Utf8Platform.

(** A text delta with a two-byte character, a tool call in three
    fragments, and the finish. *)
Definition cafe : string := "caf" ++ String "195" (String "169" "").

Definition search_text : string :=
  line ("{'type':'content_block_delta','delta':{'type':'text_delta','text':'"
        ++ cafe ++ "'}}").

Definition search_start : string :=
  line "{'type':'content_block_start','content_block':{'type':'tool_use','id':'t9','name':'search'}}".

Definition search_fragments : list string :=
  [line "{'type':'content_block_delta','delta':{'type':'input_json_delta','partial_json':'{\'q\''}}";
   line "{'type':'content_block_delta','delta':{'type':'input_json_delta','partial_json':':'}}";
   line "{'type':'content_block_delta','delta':{'type':'input_json_delta','partial_json':'1}'}}"].

Definition search_stop : string := line "{'type':'content_block_stop'}".

Definition search_finish : string :=
  line "{'type':'message_delta','delta':{'stop_reason':'tool_use'},'usage':{'output_tokens':7}}".

Definition search_lines : list string :=
  ([search_text] ++ search_start :: search_fragments ++ search_stop :: [search_finish])%list.

Definition search_stream : list byte :=
  flat_map (fun l => list_byte_of_string (l ++ String newline "")) search_lines.

Definition search_parts : list (LanguageModelV1StreamPart number) :=
  [text_delta (str cafe);
   tool_call (str "t9") (str "search") (qq "{'q':1}");
   finish tool_calls (num 0) (num 7)].

Ltac framed :=
  eexists; split;
  [eexists; split; [reflexivity|]; split; [discriminate | vm_compute; reflexivity]
  |repeat split; vm_compute; reflexivity].

Lemma tool_call_assembled_witness :
  complete_lines (decoded [search_stream]) =
    ([search_text] ++ search_start :: search_fragments ++ search_stop :: [search_finish])%list /\
  tool_start_line (str "t9") (str "search") search_start /\
  Forall2 tool_fragment_line search_fragments [qq "{'q'"; ":"; "1}"] /\
  block_stop_line search_stop /\
  Node.createStreamTransformer [search_stream] = search_parts.
Proof.
  assert (H1 : complete_lines (decoded [search_stream]) =
               ([search_text] ++ search_start :: search_fragments
                ++ search_stop :: [search_finish])%list)
    by (vm_compute; reflexivity).
  assert (H2 : tool_start_line (str "t9") (str "search") search_start) by framed.
  assert (H3 : Forall2 tool_fragment_line search_fragments [qq "{'q'"; ":"; "1}"])
    by (repeat (apply Forall2_cons; [framed|]); apply Forall2_nil).
  assert (H4 : block_stop_line search_stop) by framed.
  repeat (split; [assumption|]).
  apply (eq_trans (tool_call_assembled _ _ _ _ _ _ _ _ _ H1 H2 H3 H4)).
  vm_compute. reflexivity.
Defined.

Lemma chunking_is_immaterial_witness :
  let body := [firstn 77 search_stream; firstn 100 (skipn 77 search_stream);
               skipn 177 search_stream] in
  List.concat body = List.concat [search_stream] /\
  start body = start [search_stream].
Proof.
  cbv zeta.
  assert (H : List.concat [firstn 77 search_stream;
                           firstn 100 (skipn 77 search_stream);
                           skipn 177 search_stream]
              = List.concat [search_stream]) by (vm_compute; reflexivity).
  split; [exact H|].
  exact (chunking_is_immaterial _ _ _ _ _ _ _ H).
Defined.

Lemma prompt_tokens_need_message_start_witness :
  forallb (fun line => negb (is_frame "message_start" line))
          (complete_lines (decoded [search_stream])) = true /\
  Forall (reports (num 0)) (Node.createStreamTransformer [search_stream]).
Proof.
  assert (H : forallb (fun line => negb (is_frame "message_start" line))
                      (complete_lines (decoded [search_stream])) = true)
    by (vm_compute; reflexivity).
  split; [exact H|].
  exact (prompt_tokens_need_message_start _ H).
Defined.

End NodeMore.

(** * Requests and responses: what the two methods send and return *)
Module ModelSpec.
Import JS Provider ProviderSpec ProviderMore Model.

Definition is_system {number} (part : LanguageModelV1Message number) : bool :=
  match part with system_message _ => true | _ => false end.

Definition is_file (item : UserContent) : bool :=
  match item with user_file _ _ => true | _ => false end.

Definition is_text {number} (item : AssistantContent number) : bool :=
  match item with assistant_text _ => true | _ => false end.

(** A part of the prompt without what is never sent: no system message,
    no file part in a user message, no tool call in an assistant message. *)
Definition pruned {number} (part : LanguageModelV1Message number)
  : list (LanguageModelV1Message number) :=
  match part with
  | system_message _ => []
  | user_message parts => [user_message (filter (fun item => negb (is_file item)) parts)]
  | assistant_message parts => [assistant_message (filter is_text parts)]
  | tool_message parts => [tool_message parts]
  end.

Definition with_prompt {number} (options : LanguageModelV1CallOptions.t number)
    (prompt : list (LanguageModelV1Message number)) : LanguageModelV1CallOptions.t number :=
  {| LanguageModelV1CallOptions.prompt := prompt;
     LanguageModelV1CallOptions.mode := LanguageModelV1CallOptions.mode options;
     LanguageModelV1CallOptions.maxTokens := LanguageModelV1CallOptions.maxTokens options;
     LanguageModelV1CallOptions.temperature := LanguageModelV1CallOptions.temperature options;
     LanguageModelV1CallOptions.topP := LanguageModelV1CallOptions.topP options;
     LanguageModelV1CallOptions.topK := LanguageModelV1CallOptions.topK options |}.

(** Settings with the sampling parameters taken out. *)
Definition sampling_free {number} (settings : ClaudeCodeModelSettings.t number)
  : ClaudeCodeModelSettings.t number :=
  {| ClaudeCodeModelSettings.maxTokens := ClaudeCodeModelSettings.maxTokens settings;
     ClaudeCodeModelSettings.temperature := None;
     ClaudeCodeModelSettings.topP := None;
     ClaudeCodeModelSettings.topK := None |}.

(** Options with the tool choice of a regular mode taken out. *)
Definition choice_free {number} (options : LanguageModelV1CallOptions.t number)
  : LanguageModelV1CallOptions.t number :=
  {| LanguageModelV1CallOptions.prompt := LanguageModelV1CallOptions.prompt options;
     LanguageModelV1CallOptions.mode :=
       match LanguageModelV1CallOptions.mode options with
       | Some (regular tools _) => Some (regular tools None)
       | mode => mode
       end;
     LanguageModelV1CallOptions.maxTokens := LanguageModelV1CallOptions.maxTokens options;
     LanguageModelV1CallOptions.temperature := LanguageModelV1CallOptions.temperature options;
     LanguageModelV1CallOptions.topP := LanguageModelV1CallOptions.topP options;
     LanguageModelV1CallOptions.topK := LanguageModelV1CallOptions.topK options |}.

(** A body with [stream: true]. *)
Definition streaming {number} (body : Body.t number) : Body.t number :=
  {| Body.model := Body.model body;
     Body.messages := Body.messages body;
     Body.max_tokens := Body.max_tokens body;
     Body.stream := Some true;
     Body.system := Body.system body;
     Body.temperature := Body.temperature body;
     Body.top_p := Body.top_p body;
     Body.top_k := Body.top_k body;
     Body.tools := Body.tools body;
     Body.tool_choice := Body.tool_choice body |}.

Definition is_text_block {number} (block : Block.t number) : bool :=
  String.eqb (Block.type block) "text".

Definition is_tool_use {number} (block : Block.t number) : bool :=
  negb (is_text_block block) && String.eqb (Block.type block) "tool_use".

Section Spec.

Context {platform : Platform}.
Variable literal_4096 : number.
Variable base64 : list byte -> string.
Variable JSON_stringify : value number -> option string.
Variable modelId : string.

Local Abbreviation convertPrompt := (Model.convertPrompt base64 JSON_stringify).
Local Abbreviation convertPart := (Model.convertPart base64 JSON_stringify).
Local Abbreviation doGenerate_body :=
  (Model.doGenerate_body literal_4096 base64 JSON_stringify modelId).
Local Abbreviation doStream_body :=
  (Model.doStream_body literal_4096 base64 JSON_stringify modelId).

(** The message a tool result becomes. *)
Definition tool_result_message (item : ToolResultPart.t number) : Message :=
  {| role := user;
     content :=
       as_blocks [tool_result_block (ToolResultPart.toolCallId item)
                    (tool_result_content JSON_stringify (ToolResultPart.result item))] |}.

(** The tool call a [tool_use] block becomes. *)
Definition tool_call_of (block : Block.t number) : FunctionToolCall.t :=
  {| FunctionToolCall.toolCallId := Block.id block;
     FunctionToolCall.toolName := Block.name block;
     FunctionToolCall.args := JSON_stringify (Block.input block) |}.

Definition text_of (block : Block.t number) : string :=
  match Block.text block with Some t => t | None => "undefined" end.

Lemma convertPrompt_app p q :
  convertPrompt (p ++ q) = (convertPrompt p ++ convertPrompt q)%list.
Proof.
  induction p as [|part p IH]; simpl; [reflexivity|].
  now rewrite IH, app_assoc.
Qed.

Lemma user_blocks_not_file parts :
  flat_map (user_blocks base64) (filter (fun item => negb (is_file item)) parts) =
  flat_map (user_blocks base64) parts.
Proof.
  induction parts as [|item parts IH]; simpl; [reflexivity|].
  destruct item as [text|image mimeType|data mimeType]; simpl; now rewrite IH.
Qed.

Lemma assistant_texts_text (parts : list (AssistantContent number)) :
  assistant_texts (filter is_text parts) = assistant_texts parts.
Proof.
  induction parts as [|item parts IH]; simpl; [reflexivity|].
  destruct item; simpl; now rewrite IH.
Qed.

Lemma assistant_texts_calls (parts : list (AssistantContent number)) :
  forallb (fun item => negb (is_text item)) parts = true ->
  assistant_texts parts = [].
Proof.
  induction parts as [|item parts IH]; simpl; [reflexivity|].
  destruct item; simpl; [discriminate|exact IH].
Qed.

Lemma convertPart_pruned part :
  convertPrompt (pruned part) = convertPart part.
Proof.
  destruct part as [s|parts|parts|parts]; simpl; rewrite ?app_nil_r.
  - reflexivity.
  - now rewrite user_blocks_not_file.
  - now rewrite assistant_texts_text.
  - reflexivity.
Qed.

(** X15: what [convertPrompt] never sends: the messages are the same
    when the prompt is taken without its system messages, without the
    file parts of its user messages and without the tool calls of its
    assistant messages. *)
Theorem unsent_parts prompt :
  convertPrompt (flat_map pruned prompt) = convertPrompt prompt.
Proof.
  induction prompt as [|part prompt IH]; simpl; [reflexivity|].
  now rewrite convertPrompt_app, convertPart_pruned, IH.
Qed.

(** X16: an assistant turn that holds tool calls only leaves no message,
    while each result of the tool message after it becomes a user message
    of its own with one [tool_result] block: between what came before and
    what follows, the request holds the results alone. *)
Theorem tool_calls_leave_no_message before calls results after :
  forallb (fun item => negb (is_text item)) calls = true ->
  convertPrompt (before ++ assistant_message calls :: tool_message results :: after) =
  (convertPrompt before ++ map tool_result_message results ++ convertPrompt after)%list.
Proof.
  intros H. rewrite convertPrompt_app. simpl.
  now rewrite (assistant_texts_calls _ H).
Qed.

Lemma extractSystemMessage_first before s (after : list (LanguageModelV1Message number)) :
  forallb (fun part => negb (is_system part)) before = true ->
  extractSystemMessage (before ++ system_message s :: after) = Some s.
Proof.
  induction before as [|part before IH]; simpl; [reflexivity|].
  destruct part; simpl; try discriminate; exact IH.
Qed.

Lemma convertPrompt_not_system prompt :
  convertPrompt (filter (fun part => negb (is_system part)) prompt) = convertPrompt prompt.
Proof.
  induction prompt as [|part prompt IH]; simpl; [reflexivity|].
  destruct part; simpl; now rewrite IH.
Qed.

(** X17: of the system messages of a prompt only the first counts, for
    [doGenerate] as for [doStream]: the request body is the one of the
    prompt without the later ones, and its [system] key is the content of
    the first, unset when that is the empty string, whatever the later
    ones hold. *)
Theorem first_system_message_only settings options before s after :
  forallb (fun part => negb (is_system part)) before = true ->
  let prompt := (before ++ system_message s :: after)%list in
  let kept := (before ++ system_message s
               :: filter (fun part => negb (is_system part)) after)%list in
  doGenerate_body settings (with_prompt options prompt) =
    doGenerate_body settings (with_prompt options kept) /\
  doStream_body settings (with_prompt options prompt) =
    doStream_body settings (with_prompt options kept) /\
  Body.system (doGenerate_body settings (with_prompt options prompt)) =
    (if String.eqb s "" then None else Some s) /\
  Body.system (doStream_body settings (with_prompt options prompt)) =
    (if String.eqb s "" then None else Some s).
Proof.
  intros Hb prompt kept.
  assert (Hm : convertPrompt prompt = convertPrompt kept).
  { unfold prompt, kept. rewrite !convertPrompt_app. simpl.
    now rewrite convertPrompt_not_system. }
  assert (Hs : extractSystemMessage prompt = Some s)
    by now apply extractSystemMessage_first.
  assert (Hk : extractSystemMessage kept = Some s)
    by now apply extractSystemMessage_first.
  unfold Model.doGenerate_body, Model.doStream_body. simpl.
  rewrite Hm, Hs, Hk. repeat split; reflexivity.
Qed.

(** X18: the request body of [doStream] is the one [doGenerate] builds,
    with [stream: true], for settings without temperature, topP and topK
    and for options without the tool choice of a regular mode: the
    streaming call takes the sampling parameters from the call options
    only and never sends a [tool_choice] for a regular mode. *)
Theorem doStream_body_eq settings options :
  doStream_body settings options =
  streaming (doGenerate_body (sampling_free settings) (choice_free options)).
Proof.
  unfold Model.doStream_body, Model.doGenerate_body, streaming. simpl.
  f_equal;
    try (now destruct (LanguageModelV1CallOptions.temperature options));
    try (now destruct (LanguageModelV1CallOptions.topP options));
    try (now destruct (LanguageModelV1CallOptions.topK options));
    destruct (LanguageModelV1CallOptions.mode options) as [[[[|tool tools]|] choice| |tool]|];
    reflexivity.
Qed.

(** X19: a request never carries [tool_choice] without [tools]: when
    [doGenerate] sets it, [tools] is set and not empty; when [doStream]
    sets it, the mode is object-tool and [tools] is that one tool. *)
Theorem tool_choice_needs_tools settings options :
  (Body.tool_choice (doGenerate_body settings options) <> None ->
   exists tool tools,
     Body.tools (doGenerate_body settings options) = Some (tool :: tools)) /\
  (Body.tool_choice (doStream_body settings options) <> None ->
   exists tool,
     LanguageModelV1CallOptions.mode options = Some (object_tool tool) /\
     Body.tools (doStream_body settings options) = Some [anthropic_tool tool]).
Proof.
  unfold Model.doStream_body, Model.doGenerate_body. simpl.
  destruct (LanguageModelV1CallOptions.mode options) as [[[[|tool tools]|] choice| |tool]|];
    simpl; split; intros H; try congruence; eauto.
Qed.

Lemma concat_cons x l : String.concat "" (x :: l) = x ++ String.concat "" l.
Proof.
  destruct l; simpl; [|reflexivity].
  induction x; simpl; congruence.
Qed.

Lemma on_block_eq text calls block :
  on_block JSON_stringify (text, calls) block =
  if is_text_block block then (Some (nullish_or text "" ++ text_of block), calls)
  else if is_tool_use block then (text, (calls ++ [tool_call_of block])%list)
  else (text, calls).
Proof.
  unfold on_block, is_tool_use, is_text_block, add_optional, text_of, tool_call_of.
  destruct (String.eqb (Block.type block) "text"); [reflexivity|]. simpl.
  now destruct (String.eqb (Block.type block) "tool_use").
Qed.

Lemma fold_on_block content text calls :
  fold_left (on_block JSON_stringify) content (text, calls) =
  (match filter is_text_block content with
   | [] => text
   | _ :: _ =>
       Some (nullish_or text ""
             ++ String.concat "" (map text_of (filter is_text_block content)))
   end,
   (calls ++ map tool_call_of (filter is_tool_use content))%list).
Proof.
  revert text calls. induction content as [|block content IH]; intros text calls.
  - simpl. now rewrite app_nil_r.
  - cbn [fold_left filter]. rewrite on_block_eq.
    destruct (is_text_block block) eqn:Ht.
    + unfold is_tool_use at 1. rewrite Ht. simpl andb. cbv iota.
      rewrite IH. f_equal.
      rewrite map_cons, concat_cons.
      destruct (filter is_text_block content) as [|b bs]; simpl nullish_or.
      * simpl. f_equal. f_equal.
        generalize (text_of block). intros x. induction x; simpl; congruence.
      * now rewrite append_assoc.
    + destruct (is_tool_use block) eqn:Hu.
      * rewrite IH. f_equal. simpl. now rewrite <- app_assoc.
      * now rewrite IH.
Qed.

(** X20: the loop of [doGenerate] over the content blocks: the text of the
    result is the texts of the [text] blocks joined in order (a block
    without [text] counts as [undefined]), and is undefined when there is
    no such block; the tool calls are those of the [tool_use] blocks in
    order, and are undefined when there is none. Blocks of other types
    leave no trace. *)
Theorem generated_content options body data :
  let texts := filter is_text_block (Data.content data) in
  let calls := filter is_tool_use (Data.content data) in
  let r := generated JSON_stringify options body data in
  Generated.text r =
    match texts with
    | [] => None
    | _ :: _ => Some (String.concat "" (map text_of texts))
    end /\
  Generated.toolCalls r =
    match calls with
    | [] => None
    | _ :: _ => Some (map tool_call_of calls)
    end.
Proof.
  cbv zeta. unfold generated. rewrite fold_on_block. simpl.
  split.
  - destruct (filter is_text_block _); reflexivity.
  - destruct (filter is_tool_use _); reflexivity.
Qed.

(** X21: [doGenerate] and the stream decoder map stop reasons alike: a
    [message_delta] frame whose [stop_reason] is the one of an answer
    [data] makes the decoder emit one finish part, with the finish reason
    [doGenerate] gives for [data]. *)
Theorem finish_reasons_agree vars (event : value number) options body data :
  is_string (member_opt event "type") "message_delta" = true ->
  member_opt (member_opt event "delta") "stop_reason" =
    of_json (JStr (Data.stop_reason data)) ->
  exists vars' promptTokens completionTokens,
    on_event vars event =
    Some (vars',
          [finish (Generated.finishReason (generated JSON_stringify options body data))
                  promptTokens completionTokens]).
Proof.
  intros Ht Hs. unfold on_event.
  rewrite (is_string_member _ _ _ "type" Ht), (is_string_member _ _ _ "usage" Ht),
          (is_string_member _ _ _ "delta" Ht), Hs.
  apply is_string_eq in Ht. rewrite Ht. simpl.
  do 3 eexists. f_equal. f_equal. f_equal. f_equal.
  unfold generated. destruct (fold_left _ _ _). reflexivity.
Qed.

Section Calls.

Import Credentials Credentials.ClaudeCodeCredentials CredentialsSpec CredentialsMore.

Variable CREDENTIALS_PATH : string.
Variables now_read now_check now_refresh : Z.
Variable token_response : Credentials.Response.
Variable response : Model.Response.t number.

(** A token the module may use at the time of the check: the access token
    of the cached or stored record if that has not expired, or the access
    token the endpoint has just granted. *)
Definition usable (s : State) (token : string) : Prop :=
  (exists c, (cachedCredentials s = Some c \/ file s = Document c) /\
             isTokenExpired now_check c = false /\
             accessToken (claudeAiOauth c) = token) \/
  (exists data, Credentials.ok token_response = true /\
                json token_response = inr data /\
                access_token data = token).

Lemma refreshToken_returns now c s c' s' :
  Credentials.refreshToken token_response now c s = (Return c', s') ->
  exists data, Credentials.ok token_response = true /\
               json token_response = inr data /\
               c' = newCredentials now c data.
Proof.
  destruct (Credentials.ok token_response) eqn:Hok.
  - destruct (json token_response) as [e|data] eqn:Hjson.
    + rewrite (refreshToken_bad_body _ _ _ _ _ Hok Hjson). discriminate.
    + destruct (write_error s) as [e|] eqn:Hw.
      * rewrite (refreshToken_not_persisted _ _ _ _ _ _ Hok Hjson Hw).
        intros H. inversion H. now exists data.
      * rewrite (refreshToken_persisted _ _ _ _ _ Hok Hjson Hw).
        intros H. inversion H. now exists data.
  - rewrite (refreshToken_not_ok _ _ _ _ Hok). discriminate.
Qed.

Lemma getValidAccessToken_usable s token s' :
  getValidAccessToken CREDENTIALS_PATH now_read now_check now_refresh
    token_response s = (Return token, s') ->
  usable s token.
Proof.
  rewrite getValidAccessToken_eq.
  pose proof (readCredentials_quiet CREDENTIALS_PATH now_read s) as Hq.
  destruct (readCredentials CREDENTIALS_PATH now_read s) as [[c|e] s1];
    [|discriminate].
  destruct Hq as (_ & _ & _ & _ & Hc).
  destruct (isTokenExpired now_check c) eqn:He.
  - destruct (Credentials.refreshToken token_response now_refresh c (logged s1))
      as [[c'|e] s2] eqn:Hr; [|discriminate].
    intros H. inversion H. subst.
    destruct (refreshToken_returns _ _ _ _ _ Hr) as (data & Hok & Hjson & ->).
    right. exists data. repeat split; assumption.
  - intros H. inversion H. subst. left. exists c. repeat split; assumption.
Qed.

Local Abbreviation send :=
  (Model.send CREDENTIALS_PATH now_read now_check now_refresh token_response response).
Local Abbreviation doGenerate settings :=
  (Model.doGenerate literal_4096 base64 JSON_stringify modelId settings
     CREDENTIALS_PATH now_read now_check now_refresh token_response response).
Local Abbreviation doStream settings :=
  (Model.doStream literal_4096 base64 JSON_stringify modelId settings
     CREDENTIALS_PATH now_read now_check now_refresh token_response response).

Definition failed {A} (r : Result A) : Prop :=
  match r with Throw _ => True | Return _ => False end.

(** What a call may have sent: nothing, and then it failed, or one POST
    of [body] with a usable token. *)
Definition sent {A} (body : Body.t number) (w : World number)
    (r : Result A * World number) : Prop :=
  (requests (snd r) = requests w /\ failed (fst r)) \/
  exists token,
    requests (snd r) = (requests w ++ [post token body])%list /\
    usable (credentials w) token.

Lemma send_sent body w : sent body w (send body w).
Proof.
  unfold Model.send.
  destruct (getValidAccessToken _ _ _ _ _ _) as [[token|e] s] eqn:Hg.
  - right. exists token. split; [|exact (getValidAccessToken_usable _ _ _ Hg)].
    now destruct (negb (Model.ok response)).
  - left. now split.
Qed.

(** X22: a call of [doGenerate] or [doStream] sends at most one POST to
    the API, with the body it built, and only with a usable token: the
    access token of the cached or stored record if that has not expired
    at the time of the check, or else the one the token endpoint has just
    granted. A call that sends nothing fails: when no token can be had,
    nothing goes to the API. *)
Theorem requests_carry_usable_token settings options w :
  sent (doGenerate_body settings options) w (doGenerate settings options w) /\
  sent (doStream_body settings options) w (doStream settings options w).
Proof.
  split.
  - unfold Model.doGenerate.
    pose proof (send_sent (doGenerate_body settings options) w) as H.
    destruct (send _ w) as [[[]|e] w'].
    + destruct H as [[_ []]|H].
      destruct (Model.Response.json response); right; exact H.
    + exact H.
  - unfold Model.doStream.
    pose proof (send_sent (doStream_body settings options) w) as H.
    destruct (send _ w) as [[[]|e] w'].
    + destruct H as [[_ []]|H]. right. exact H.
    + exact H.
Qed.

End Calls.

End Spec.

(** ** On Node *)

Import Node.

Definition sonnet : string := "claude-sonnet-4-20250514".

Definition no_settings : ClaudeCodeModelSettings.t number :=
  {| ClaudeCodeModelSettings.maxTokens := None;
     ClaudeCodeModelSettings.temperature := None;
     ClaudeCodeModelSettings.topP := None;
     ClaudeCodeModelSettings.topK := None |}.

Definition weather_tool : FunctionTool.t number :=
  {| FunctionTool.name := "weather";
     FunctionTool.description := Some "Weather at a place";
     FunctionTool.parameters := of_json (JObj [("type", JStr "object")]) |}.

Definition call_with (prompt : list (LanguageModelV1Message number))
    (mode : option (Mode number)) : LanguageModelV1CallOptions.t number :=
  {| LanguageModelV1CallOptions.prompt := prompt;
     LanguageModelV1CallOptions.mode := mode;
     LanguageModelV1CallOptions.maxTokens := None;
     LanguageModelV1CallOptions.temperature := None;
     LanguageModelV1CallOptions.topP := None;
     LanguageModelV1CallOptions.topK := None |}.

Definition question : LanguageModelV1Message number :=
  user_message [user_text "Weather in NYC?"].

Definition weather_call : AssistantContent number :=
  assistant_tool_call "t1" "weather" (of_json (JObj [("loc", JStr "NYC")])).

Definition weather_result : ToolResultPart.t number :=
  {| ToolResultPart.toolCallId := "t1";
     ToolResultPart.toolName := "weather";
     ToolResultPart.result := of_json (JObj [("temp", JNum 21)]) |}.

Lemma tool_calls_leave_no_message_witness :
  forallb (fun item => negb (is_text item)) [weather_call] = true /\
  Model.convertPrompt NodeModel.base64 NodeModel.JSON_stringify
    [question; assistant_message [weather_call]; tool_message [weather_result]] =
  [{| role := user; content := as_string "Weather in NYC?" |};
   {| role := user;
      content := as_blocks [tool_result_block "t1" (Some (qq "{'temp':21}"))] |}].
Proof.
  assert (H : forallb (fun item => negb (is_text item)) [weather_call] = true)
    by reflexivity.
  split; [exact H|].
  exact (tool_calls_leave_no_message (platform := Node.platform) NodeModel.base64 NodeModel.JSON_stringify
           [question] [weather_call] [weather_result] [] H).
Defined.

Lemma first_system_message_only_witness :
  let options := call_with [] (Some (regular None None)) in
  let prompt := [question; system_message "Be brief."; system_message "Be long."] in
  forallb (fun part => negb (is_system part)) [question] = true /\
  Model.doGenerate_body 4096 NodeModel.base64 NodeModel.JSON_stringify sonnet
    no_settings (with_prompt options prompt) =
  Model.doGenerate_body 4096 NodeModel.base64 NodeModel.JSON_stringify sonnet
    no_settings (with_prompt options [question; system_message "Be brief."]) /\
  Body.system
    (Model.doStream_body 4096 NodeModel.base64 NodeModel.JSON_stringify sonnet
       no_settings (with_prompt options prompt)) = Some "Be brief.".
Proof.
  cbv zeta.
  assert (H : forallb (fun part => negb (is_system part)) [question] = true)
    by reflexivity.
  destruct (first_system_message_only (platform := Node.platform) 4096 NodeModel.base64 NodeModel.JSON_stringify
              sonnet no_settings (call_with [] (Some (regular None None)))
              [question] "Be brief." [system_message "Be long."] H)
    as (H1 & _ & _ & H4).
  split; [exact H|]. split; [exact H1|exact H4].
Defined.

Lemma tool_choice_needs_tools_witness :
  let options := call_with [question]
                   (Some (regular (Some [weather_tool]) (Some toolChoice_required))) in
  let forced := call_with [question] (Some (object_tool weather_tool)) in
  Body.tool_choice
    (Model.doGenerate_body 4096 NodeModel.base64 NodeModel.JSON_stringify sonnet
       no_settings options) <> None /\
  (exists tool tools,
     Body.tools
       (Model.doGenerate_body 4096 NodeModel.base64 NodeModel.JSON_stringify sonnet
          no_settings options) = Some (tool :: tools)) /\
  Body.tool_choice
    (Model.doStream_body 4096 NodeModel.base64 NodeModel.JSON_stringify sonnet
       no_settings forced) <> None /\
  (exists tool,
     LanguageModelV1CallOptions.mode forced = Some (object_tool tool) /\
     Body.tools
       (Model.doStream_body 4096 NodeModel.base64 NodeModel.JSON_stringify sonnet
          no_settings forced) = Some [anthropic_tool tool]).
Proof.
  cbv zeta.
  pose proof (tool_choice_needs_tools (platform := Node.platform) 4096 NodeModel.base64 NodeModel.JSON_stringify
                sonnet no_settings
                (call_with [question]
                   (Some (regular (Some [weather_tool]) (Some toolChoice_required)))))
    as [G _].
  pose proof (tool_choice_needs_tools (platform := Node.platform) 4096 NodeModel.base64 NodeModel.JSON_stringify
                sonnet no_settings
                (call_with [question] (Some (object_tool weather_tool))))
    as [_ S].
  split; [discriminate|]. split; [apply G; discriminate|].
  split; [discriminate|]. apply S. discriminate.
Defined.

Definition cut_short : Data.t number :=
  {| Data.content :=
       [{| Block.type := "text"; Block.text := Some "Once upon";
           Block.id := None; Block.name := None; Block.input := undefined |}];
     Data.stop_reason := "max_tokens";
     Data.input_tokens := 12;
     Data.output_tokens := 2 |}.

Definition cut_short_event : value number :=
  of_json (JObj [("type", JStr "message_delta");
                 ("delta", JObj [("stop_reason", JStr "max_tokens")]);
                 ("usage", JObj [("output_tokens", JNum 2)])]).

Lemma finish_reasons_agree_witness :
  let options := call_with [question] None in
  let body := Model.doGenerate_body 4096 NodeModel.base64 NodeModel.JSON_stringify
                sonnet no_settings options in
  is_string (member_opt cut_short_event "type") "message_delta" = true /\
  member_opt (member_opt cut_short_event "delta") "stop_reason" =
    of_json (JStr (Data.stop_reason cut_short)) /\
  Generated.finishReason
    (generated NodeModel.JSON_stringify options body cut_short) = length /\
  exists vars' promptTokens completionTokens,
    on_event initial_vars cut_short_event =
    Some (vars',
          [finish
             (Generated.finishReason
                (generated NodeModel.JSON_stringify options body cut_short))
             promptTokens completionTokens]).
Proof.
  cbv zeta.
  assert (H1 : is_string (member_opt cut_short_event "type") "message_delta" = true)
    by reflexivity.
  assert (H2 : member_opt (member_opt cut_short_event "delta") "stop_reason" =
               of_json (JStr (Data.stop_reason cut_short))) by reflexivity.
  split; [exact H1|]. split; [exact H2|]. split; [reflexivity|].
  exact (finish_reasons_agree (platform := Node.platform) NodeModel.JSON_stringify initial_vars cut_short_event
           (call_with [question] None) _ cut_short H1 H2).
Defined.

End ModelSpec.
